(** * Tactical RMM script sync with git: a shallow embedding

    The program verified here is [scripts_staging/Backend/Sync TRMM with GIT.py].
    It pulls a git working tree, pushes locally edited scripts back to the
    Tactical RMM API, exports every script and snippet of the API into four
    folders, prunes the files the export did not name, and commits the result
    with a synthesized message.

    The embedding follows the Python text function by function and keeps its
    names.  Python values are an inductive type, exceptions are a result
    type threaded by a small state-and-exception monad, the file system is a
    finite map from paths to contents with a finite set of directories, and
    what lies outside the program (the HTTP server, git, [sanitize_filename],
    [json], [hashlib]) is a record of functions the definitions take as an
    argument. *)

From Stdlib Require Import Ascii.
From stdpp Require Import gmap strings list sorting pretty.

Set Warnings "-register-all,-clear-no-such-hyp".

(** ** Python strings

    A [str] is a Rocq [string], the string of its bytes in UTF-8; the
    character tests below are those of Python on the ASCII range. *)

Definition TAB : ascii := "009"%char.
Definition LF : ascii := "010"%char.
Definition CR : ascii := "013"%char.

(** [c.isspace()] for a character below 128: TAB, LF, VT, FF, CR, the four
    separators FS, GS, RS, US, and the space. *)
Definition isspace (c : ascii) : bool :=
  let n := nat_of_ascii c in
  ((9 <=? n) && (n <=? 13)) || ((28 <=? n) && (n <=? 32)).

Definition isdigit (c : ascii) : bool :=
  let n := nat_of_ascii c in (48 <=? n) && (n <=? 57).

Definition lower_char (c : ascii) : ascii :=
  let n := nat_of_ascii c in
  if (65 <=? n) && (n <=? 90) then ascii_of_nat (n + 32) else c.

(** [s.lower()] *)
Fixpoint lower (s : string) : string :=
  match s with
  | EmptyString => EmptyString
  | String c s' => String (lower_char c) (lower s')
  end.

(** [s.lstrip()], [s.rstrip()], [s.strip()] *)
Fixpoint lstrip (s : string) : string :=
  match s with
  | EmptyString => EmptyString
  | String c s' => if isspace c then lstrip s' else s
  end.

Definition rstrip (s : string) : string := String.rev (lstrip (String.rev s)).

Definition strip (s : string) : string := rstrip (lstrip s).

(** [s.split(sep)] for a one-character separator: n separators give n+1
    fields, the empty string gives one empty field. *)
Fixpoint split_on (sep : ascii) (s : string) : list string :=
  match s with
  | EmptyString => [EmptyString]
  | String c s' =>
      if Ascii.eqb c sep then EmptyString :: split_on sep s'
      else match split_on sep s' with
           | [] => [String c EmptyString]
           | f :: fs => String c f :: fs
           end
  end.

(** [s.split()]: the maximal runs of non-blank characters. *)
Fixpoint split_ws_go (cur : option string) (s : string) : list string :=
  match s with
  | EmptyString => match cur with Some w => [String.rev w] | None => [] end
  | String c s' =>
      if isspace c
      then match cur with
           | Some w => String.rev w :: split_ws_go None s'
           | None => split_ws_go None s'
           end
      else split_ws_go (Some (String c (default EmptyString cur))) s'
  end.

Definition split_ws (s : string) : list string := split_ws_go None s.

(** [s.splitlines()]: the lines without their ends.  A line ends at LF, VT,
    FF, CR, CR LF, FS, GS, RS, and at NEL, LS and PS, which are the bytes
    [C2 85], [E2 80 A8] and [E2 80 A9]; what follows the last end is a line
    when it is not empty. *)
Definition is_line_boundary (c : ascii) : bool :=
  let n := nat_of_ascii c in
  ((10 <=? n) && (n <=? 12)) || ((28 <=? n) && (n <=? 30)).

Fixpoint splitlines_go (cur : string) (s : string) : list string :=
  match s with
  | EmptyString => match cur with EmptyString => [] | _ => [String.rev cur] end
  | String c s1 =>
      if Ascii.eqb c CR then
        match s1 with
        | String c1 s2 =>
            if Ascii.eqb c1 LF then String.rev cur :: splitlines_go EmptyString s2
            else String.rev cur :: splitlines_go EmptyString s1
        | EmptyString => [String.rev cur]
        end
      else if is_line_boundary c then String.rev cur :: splitlines_go EmptyString s1
      else
        match s1 with
        | String c1 s2 =>
            if Ascii.eqb c "194" && Ascii.eqb c1 "133"
            then String.rev cur :: splitlines_go EmptyString s2
            else
              match s2 with
              | String c2 s3 =>
                  if Ascii.eqb c "226" && Ascii.eqb c1 "128"
                     && (Ascii.eqb c2 "168" || Ascii.eqb c2 "169")
                  then String.rev cur :: splitlines_go EmptyString s3
                  else splitlines_go (String c cur) s1
              | EmptyString => splitlines_go (String c cur) s1
              end
        | EmptyString => splitlines_go (String c cur) s1
        end
  end.

Definition splitlines (s : string) : list string := splitlines_go EmptyString s.

(** [for line in f] on a text file: the lines with their ends; a line ends
    at LF only, the other line ends were translated when the file was read. *)
Fixpoint text_lines_go (cur : string) (s : string) : list string :=
  match s with
  | EmptyString => match cur with EmptyString => [] | _ => [String.rev cur] end
  | String c s' =>
      if Ascii.eqb c LF then String.rev (String c cur) :: text_lines_go EmptyString s'
      else text_lines_go (String c cur) s'
  end.

Definition text_lines (s : string) : list string := text_lines_go EmptyString s.

(** What reading in text mode does to the line ends ([newline=None]): CR LF
    and a lone CR are read as LF. *)
Fixpoint universal_newlines (s : string) : string :=
  match s with
  | EmptyString => EmptyString
  | String c s1 =>
      if Ascii.eqb c CR then
        match s1 with
        | String c1 s2 =>
            if Ascii.eqb c1 LF then String LF (universal_newlines s2)
            else String LF (universal_newlines s1)
        | EmptyString => String LF EmptyString
        end
      else String c (universal_newlines s1)
  end.

(** The bytes that [bytes.decode('utf-8')] accepts: the well-formed
    sequences, without overlong forms, surrogates and code points above
    [10FFFF]. *)
Definition byte_in (lo hi : nat) (c : ascii) : bool :=
  let n := nat_of_ascii c in (lo <=? n) && (n <=? hi).

Definition continuation (c : ascii) : bool := byte_in 128 191 c.

Fixpoint valid_utf8 (s : string) : bool :=
  match s with
  | EmptyString => true
  | String a s1 =>
      if byte_in 0 127 a then valid_utf8 s1
      else
        match s1 with
        | EmptyString => false
        | String b s2 =>
            if byte_in 194 223 a then continuation b && valid_utf8 s2
            else
              match s2 with
              | EmptyString => false
              | String c s3 =>
                  if byte_in 224 239 a then
                    (if byte_in 224 224 a then byte_in 160 191 b
                     else if byte_in 237 237 a then byte_in 128 159 b
                     else continuation b)
                    && continuation c && valid_utf8 s3
                  else
                    match s3 with
                    | EmptyString => false
                    | String d s4 =>
                        byte_in 240 244 a
                        && (if byte_in 240 240 a then byte_in 144 191 b
                            else if byte_in 244 244 a then byte_in 128 143 b
                            else continuation b)
                        && continuation c && continuation d && valid_utf8 s4
                    end
              end
        end
  end.

(** [s.startswith(p)] and [s.endswith(p)] *)
Definition startswith (s p : string) : bool := String.prefix p s.

Definition endswith (s p : string) : bool :=
  String.prefix (String.rev p) (String.rev s).

(** [sep.join(l)] *)
Definition join (sep : string) (l : list string) : string := String.concat sep l.

(** [str(n)] for an [int] *)
Definition str_of_nat (n : nat) : string := pretty n.
Definition str_of_Z (z : Z) : string := pretty z.

(** ** Python values, as [json] produces them (floats are left out) *)

Inductive value : Type :=
  | VNone
  | VBool (b : bool)
  | VInt (z : Z)
  | VStr (s : string)
  | VList (l : list value)
  | VDict (d : list (string * value)).

(** ** Exceptions *)

Inductive exc : Type :=
  | TypeError
  | AttributeError
  | ValueError
  | IndexError
  | KeyError
  | OSError
  | JSONDecodeError
  | UnicodeDecodeError
  | RequestException
  | BrokenPipeError
  | CalledProcessError
  | SystemExit (code : string).

Inductive result (A : Type) : Type :=
  | Ok (a : A)
  | Raise (e : exc).
Arguments Ok {A} a.
Arguments Raise {A} e.

Definition is_Ok {A} (r : result A) : bool :=
  match r with Ok _ => true | Raise _ => false end.

(** The value of a result that is [Ok]. *)
Definition value_of {A} (r : result A) (d : A) : A :=
  match r with Ok a => a | Raise _ => d end.

(** [except Exception] catches everything but [SystemExit]. *)
Definition is_Exception (e : exc) : bool :=
  match e with SystemExit _ => false | _ => true end.

(** ** The commit message synthesizer ([git_push], lines 287-304) *)

(** The dict [changes]: its four keys are fixed and keep their insertion
    order, so it is a record of four lists. *)
Record changes_t : Type := Changes {
  created : list string;
  modified : list string;
  deleted : list string;
  renamed : list string
}.

Definition no_changes : changes_t := Changes [] [] [] [].

(** [changes.items()] *)
Definition changes_items (c : changes_t) : list (string * list string) :=
  [("created", created c); ("modified", modified c);
   ("deleted", deleted c); ("renamed", renamed c)].

(** The unpacking [status, file = line.split(TAB)] raises [ValueError]
    unless the line has exactly two fields. *)
Definition unpack2 (l : list string) : result (string * string) :=
  match l with
  | [a; b] => Ok (a, b)
  | _ => Raise ValueError
  end.

(** [l[i]] on a list *)
Definition index (l : list string) (i : nat) : result string :=
  match l !! i with
  | Some x => Ok x
  | None => Raise IndexError
  end.

(** The body of the loop over the lines of [git diff --cached --name-status]. *)
Definition classify_line (c : changes_t) (line : string) : result changes_t :=
  if String.eqb line "" then Ok c
  else
    match unpack2 (split_on TAB line) with
    | Raise e => Raise e
    | Ok (status, file) =>
        if startswith file "scriptsraw/" then Ok c
        else if startswith status "A" then
          Ok (Changes (created c ++ [file]) (modified c) (deleted c) (renamed c))
        else if startswith status "M" then
          Ok (Changes (created c) (modified c ++ [file]) (deleted c) (renamed c))
        else if startswith status "D" then
          Ok (Changes (created c) (modified c) (deleted c ++ [file]) (renamed c))
        else if startswith status "R" then
          match index (split_ws line) 1 with
          | Raise e => Raise e
          | Ok old =>
              match index (split_ws line) 2 with
              | Raise e => Raise e
              | Ok new =>
                  Ok (Changes (created c) (modified c) (deleted c)
                        (renamed c ++ [old +:+ " -> " +:+ new]))
              end
          end
        else Ok c
    end.

(** [for line in ...: ...], stopping at the first exception. *)
Fixpoint classify_lines (c : changes_t) (lines : list string) : result changes_t :=
  match lines with
  | [] => Ok c
  | line :: rest =>
      match classify_line c line with
      | Ok c' => classify_lines c' rest
      | Raise e => Raise e
      end
  end.

(** The loop as [git_push] runs it, from the output of the diff command. *)
Definition classify_changes (stdout : string) : result changes_t :=
  classify_lines no_changes (split_on LF (strip stdout)).

(** One element of [parts]. *)
Definition clause (max_files : nat) (change_type : string) (files : list string) : string :=
  change_type +:+ " " +:+ str_of_nat (length files) +:+ ": "
    +:+ join ", " (take max_files files)
    +:+ (if max_files <? length files then "..." else "").

Definition nonempty {A} (l : list A) : bool :=
  match l with [] => false | _ => true end.

(** [generate_commit_message(changes, max_files=5)] *)
Definition generate_commit_message (c : changes_t) (max_files : nat) : string :=
  if negb (existsb (fun kv => nonempty (snd kv)) (changes_items c)) then "Minor update"
  else
    join "; "
      (map (fun kv => clause max_files (fst kv) (snd kv))
         (filter (fun kv => nonempty (snd kv) = true) (changes_items c))).

(** [commit_message = generate_commit_message(changes)], from the lines of
    the diff and from its whole output. *)
Definition message_of_lines (lines : list string) : result string :=
  match classify_lines no_changes lines with
  | Ok c => Ok (generate_commit_message c 5)
  | Raise e => Raise e
  end.

Definition commit_message_of (stdout : string) : result string :=
  message_of_lines (split_on LF (strip stdout)).

(** The clause of one category, if it has files. *)
Definition clause_of (change_type : string) (files : list string) : list string :=
  match files with
  | [] => []
  | _ => [clause 5 change_type files]
  end.

(** A line of the diff that names a file under [scriptsraw/]. *)
Definition is_scriptsraw_line (line : string) : bool :=
  match split_on TAB line with
  | [_; file] => startswith file "scriptsraw/"
  | _ => false
  end.

(** ** Operations on Python values *)

(** [bool(v)] *)
Definition truthy (v : value) : bool :=
  match v with
  | VNone => false
  | VBool b => b
  | VInt z => negb (Z.eqb z 0)
  | VStr s => negb (String.eqb s "")
  | VList l => nonempty l
  | VDict d => nonempty d
  end.

(** A dict keeps its keys in insertion order; a key occurs once. *)
Fixpoint dict_lookup (d : list (string * value)) (k : string) : option value :=
  match d with
  | [] => None
  | (k', v) :: d' => if String.eqb k' k then Some v else dict_lookup d' k
  end.

(** [d[k] = v]: in place when the key is there, at the end otherwise. *)
Fixpoint dict_set (d : list (string * value)) (k : string) (v : value) : list (string * value) :=
  match d with
  | [] => [(k, v)]
  | (k', v') :: d' => if String.eqb k' k then (k', v) :: d' else (k', v') :: dict_set d' k v
  end.

Fixpoint dict_remove (d : list (string * value)) (k : string) : list (string * value) :=
  match d with
  | [] => []
  | (k', v') :: d' => if String.eqb k' k then d' else (k', v') :: dict_remove d' k
  end.

(** [{**a, **b}] *)
Definition dict_merge (a b : list (string * value)) : list (string * value) :=
  foldl (fun acc kv => dict_set acc (fst kv) (snd kv)) a b.

(** [v.get(k, dflt)]; only a dict has the method. *)
Definition get (v : value) (k : string) (dflt : value) : result value :=
  match v with
  | VDict d => Ok (default dflt (dict_lookup d k))
  | _ => Raise AttributeError
  end.

(** [v == s] for a string literal [s] *)
Definition eq_str (v : value) (s : string) : bool :=
  match v with VStr s' => String.eqb s' s | _ => false end.

(** [v1 == v2] on hashable values, as a dict compares its keys
    ([True == 1] and [False == 0]). *)
Definition key_eqb (v1 v2 : value) : bool :=
  match v1, v2 with
  | VNone, VNone => true
  | VBool a, VBool b => Bool.eqb a b
  | VBool a, VInt z | VInt z, VBool a => Z.eqb z (if a then 1 else 0)
  | VInt a, VInt b => Z.eqb a b
  | VStr a, VStr b => String.eqb a b
  | _, _ => false
  end.

Definition hashable (v : value) : bool :=
  match v with VList _ | VDict _ => false | _ => true end.

(** [for item in v]: a list gives its items, a dict its keys, a string its
    characters; nothing else is iterable. *)
Definition iterate (v : value) : result (list value) :=
  match v with
  | VList l => Ok l
  | VDict d => Ok (map (fun kv => VStr (fst kv)) d)
  | VStr s => Ok (map (fun c => VStr (String c EmptyString)) (String.list_ascii_of_string s))
  | _ => Raise TypeError
  end.

(** ** Paths ([pathlib.Path]): the list of the parts *)

Definition path : Type := list string.

(** [p / name] for a name that is one part, as [sanitize_filename] returns
    them (it removes the separators). *)
Definition path_join (p : path) (name : string) : path := p ++ [name].

(** [p.name] *)
Definition name_of (p : path) : string := default "" (last p).

Fixpoint find_char (c : ascii) (s : string) : option nat :=
  match s with
  | EmptyString => None
  | String c' s' => if Ascii.eqb c' c then Some 0 else S <$> find_char c s'
  end.

(** [s.rfind(c)] *)
Definition rfind_char (c : ascii) (s : string) : option nat :=
  (fun k => String.length s - 1 - k) <$> find_char c (String.rev s).

(** [PurePath.stem]: the name without its last suffix; a leading or a
    trailing dot starts no suffix. *)
Definition stem_of_name (name : string) : string :=
  match rfind_char "."%char name with
  | Some i =>
      if (0 <? i) && (i <? String.length name - 1)
      then String.substring 0 i name else name
  | None => name
  end.

Definition stem (p : path) : string := stem_of_name (name_of p).

(** [p.relative_to(root)] *)
Definition relative_to (p root : path) : result path :=
  if bool_decide (root `prefix_of` p) then Ok (drop (length root) p)
  else Raise ValueError.

(** [q] lies strictly below [root]. *)
Definition below (root q : path) : bool :=
  bool_decide (root `prefix_of` q) && bool_decide (q ≠ root).

(** [str(p)] for an absolute path *)
Definition path_str (p : path) : string := "/" +:+ join "/" p.

(** [re.sub(r'^\d+ - ', '', s)] *)
Fixpoint drop_digits (s : string) : string :=
  match s with
  | String c s' => if isdigit c then drop_digits s' else s
  | EmptyString => EmptyString
  end.

Definition strip_id_prefix (s : string) : string :=
  match s with
  | String c _ =>
      if isdigit c && startswith (drop_digits s) " - "
      then String.substring 3 (String.length (drop_digits s) - 3) (drop_digits s)
      else s
  | EmptyString => s
  end.

(** ** What lies outside the program *)

(** A [requests.Response]: [r.ok] is false exactly for the statuses 400 to
    599, those for which [raise_for_status] raises. *)
Record response : Type := Response {
  status_code : Z;
  reason : string;
  text : string
}.

Definition ok (r : response) : bool :=
  negb ((400 <=? status_code r)%Z && (status_code r <? 600)%Z).

Definition headers_t : Type := list (string * string).

(** The toggle flags at the top of the module. *)
Record flags : Type := Flags {
  ENABLE_GIT_PULL : bool;
  ENABLE_GIT_PUSH : bool;
  ENABLE_WRITEBACK : bool;
  ENABLE_WRITETOFILE : bool
}.

(** The libraries and the processes the program calls.  [requests_get] and
    [requests_put] answer [None] when the request fails on the network;
    [git] runs one git command on the working tree and gives its return
    code, its output and the tree it leaves. *)
Record Env : Type := {
  sanitize_filename : value -> result string;
  json_dumps : bool -> value -> string;
  json_loads : string -> option value;
  sha256_hexdigest : string -> string;
  repr : value -> string;
  requests_get : string -> headers_t -> option response;
  requests_put : string -> headers_t -> value -> option response;
  may_unlink : path -> bool;
  may_rmdir : path -> bool;
  git : list string -> gmap path string * gset path ->
        (Z * string) * (gmap path string * gset path);
  resolve : string -> path
}.

(** ** The state of a run *)

(** One printed line: the pieces of the f-string, unrendered. *)
Inductive frag : Type :=
  | FS (s : string)
  | FP (p : path)
  | FV (v : value)
  | FN (n : nat)
  | FZ (z : Z)
  | FE (e : exc)
  | FH (h : option string).

Inductive request : Type :=
  | GET (url : string)
  | PUT (url : string) (payload : value).

(** The files with their contents, the directories, the lines printed so
    far and the HTTP requests sent so far. *)
Record world : Type := World {
  files : gmap path string;
  dirs : gset path;
  out : list (list frag);
  net : list request
}.

Definition set_files (f : gmap path string) (w : world) : world :=
  World f (dirs w) (out w) (net w).
Definition set_dirs (d : gset path) (w : world) : world :=
  World (files w) d (out w) (net w).

(** ** The monad: state, and exceptions that keep the state *)

Definition M (A : Type) : Type := world -> result A * world.

Definition ret {A} (a : A) : M A := fun w => (Ok a, w).

Definition raise {A} (e : exc) : M A := fun w => (Raise e, w).

Definition bind {A B} (m : M A) (k : A -> M B) : M B :=
  fun w => match m w with
           | (Ok a, w') => k a w'
           | (Raise e, w') => (Raise e, w')
           end.

Notation "x <- m ;; k" := (bind m (fun x => k))
  (at level 100, m at next level, right associativity).
Notation "m ;;; k" := (bind m (fun _ => k))
  (at level 100, right associativity).

Definition lift {A} (r : result A) : M A := fun w => (r, w).

(** The same sequencing for code that only computes or raises. *)
Notation "x <~ r ;; k" := (match r with Ok x => k | Raise e => Raise e end)
  (at level 100, r at next level, right associativity).

Definition get_world : M world := fun w => (Ok w, w).

(** [try: m except <catches>: h] *)
Definition try_except {A} (m : M A) (catches : exc -> bool) (h : exc -> M A) : M A :=
  fun w => match m w with
           | (Raise e, w') => if catches e then h e w' else (Raise e, w')
           | r => r
           end.

(** [for x in l: ...] over a mutable local state [s] *)
Fixpoint for_fold {A S} (l : list A) (s : S) (body : A -> S -> M S) : M S :=
  match l with
  | [] => ret s
  | x :: l' => s' <- body x s ;; for_fold l' s' body
  end.

Definition for_each {A} (l : list A) (body : A -> M unit) : M unit :=
  for_fold l tt (fun x _ => body x).

Definition print (line : list frag) : M unit :=
  fun w => (Ok tt, World (files w) (dirs w) (out w ++ [line]) (net w)).

(** ** The file system *)

Definition is_file (w : world) (p : path) : bool :=
  bool_decide (is_Some (files w !! p)).

Definition is_dir (w : world) (p : path) : bool :=
  bool_decide (p = [] \/ p ∈ dirs w).

Definition entries (w : world) : list path := elements (dom (files w) ∪ dirs w).

(** [folder.rglob(pattern)]: what lies below [folder] and whose name the
    pattern matches.  Python leaves the order of the scan to the system;
    here it is the order in which the finite set is enumerated. *)
Definition rglob (w : world) (folder : path) (pattern : string -> bool) : list path :=
  filter (fun q => below folder q && pattern (name_of q)) (entries w).

Definition star (_ : string) : bool := true.
Definition star_json (name : string) : bool := endswith name ".json".

(** [any(d.iterdir())] *)
Definition has_entry (w : world) (d : path) : bool :=
  existsb (fun q => bool_decide (removelast q = d /\ q <> [])) (entries w).

Definition ancestors_or_self (p : path) : list path :=
  map (fun k => take k p) (seq 1 (length p)).

(** [p.mkdir(parents=True, exist_ok=True)] *)
Definition mkdir (p : path) : M unit :=
  fun w =>
    if existsb (is_file w) (ancestors_or_self p) then (Raise OSError, w)
    else (Ok tt, set_dirs (dirs w ∪ list_to_set (ancestors_or_self p)) w).

(** [p.write_text(data, encoding="utf-8")]: the type of [data] is checked
    before the file is opened. *)
Definition write_text (p : path) (data : value) : M unit :=
  fun w =>
    match data with
    | VStr s =>
        if is_dir w p || negb (is_dir w (removelast p)) then (Raise OSError, w)
        else (Ok tt, set_files (<[p := s]> (files w)) w)
    | _ => (Raise TypeError, w)
    end.

(** [open(p, 'rb').read()]: the bytes of the file *)
Definition read_bytes (p : path) : M string :=
  fun w => match files w !! p with
           | Some s => (Ok s, w)
           | None => (Raise OSError, w)
           end.

(** [open(p, encoding='utf-8').read()]: the bytes are decoded, which fails
    on bytes that are not UTF-8, and the line ends are translated. *)
Definition read_text (p : path) : M string :=
  fun w => match files w !! p with
           | Some bytes =>
               if valid_utf8 bytes then (Ok (universal_newlines bytes), w)
               else (Raise UnicodeDecodeError, w)
           | None => (Raise OSError, w)
           end.

(** [p.unlink()] and [d.rmdir()] *)
Definition unlink (may : path -> bool) (p : path) : M unit :=
  fun w =>
    if is_file w p && may p then (Ok tt, set_files (delete p (files w)) w)
    else (Raise OSError, w).

Definition rmdir (may : path -> bool) (d : path) : M unit :=
  fun w =>
    if bool_decide (d ∈ dirs w) && negb (has_entry w d) && may d
    then (Ok tt, set_dirs (dirs w ∖ {[d]}) w)
    else (Raise OSError, w).

(** The order of [sorted(..., key=lambda p: -len(p.parts))]: a path comes
    before every path that has fewer parts. *)
Definition deeper_first (a b : path) : Prop := length b <= length a.

#[global] Instance deeper_first_dec a b : Decision (deeper_first a b).
Proof. unfold deeper_first. apply _. Defined.

(** ** The program *)

(** The module globals [domain] and [headers], which [main] sets. *)
Record globals : Type := Globals {
  domain : string;
  headers : headers_t
}.

(** The four folders of [main], in the order of the dict [folders]. *)
Record folders_t : Type := Folders {
  scripts : path;
  scriptsraw : path;
  snippets : path;
  snippetsraw : path
}.

Definition folders_values (f : folders_t) : list path :=
  [scripts f; scriptsraw f; snippets f; snippetsraw f].

(** The [defaultdict(int)] that counts the shells. *)
Definition tally_t : Type := list (value * nat).

Fixpoint tally_incr (t : tally_t) (k : value) : tally_t :=
  match t with
  | [] => [(k, 1)]
  | (k', n) :: t' => if key_eqb k' k then (k', S n) :: t' else (k', n) :: tally_incr t' k
  end.

Section Sync.

Context (E : Env) (F : flags).

(** [f"{v}"] *)
Definition py_str (v : value) : string :=
  match v with
  | VNone => "None"
  | VBool true => "True"
  | VBool false => "False"
  | VInt z => str_of_Z z
  | VStr s => s
  | _ => repr E v
  end.

(** *** [delete_obsolete_files] (lines 102-112) *)

Definition is_obsolete (w : world) (folder : path) (current_scripts : gset path) (f : path) : bool :=
  is_file w f &&
  match relative_to f folder with
  | Ok r => bool_decide (r ∉ current_scripts)
  | Raise _ => false
  end.

Definition delete_obsolete_files (folder : path) (current_scripts : gset path) : M unit :=
  print [FS "Cleaning "; FP folder; FS "..."] ;;;
  w <- get_world ;;
  for_each (filter (fun f => is_obsolete w folder current_scripts f) (rglob w folder star))
    (fun f =>
       try_except
         (unlink (may_unlink E) f ;;; print [FS "Deleted: "; FP f])
         is_Exception
         (fun e => print [FS "Error deleting "; FP f; FS ": "; FE e])) ;;;
  w <- get_world ;;
  for_each (merge_sort deeper_first (rglob w folder star))
    (fun d =>
       w <- get_world ;;
       if is_dir w d && negb (has_entry w d) then
         try_except
           (rmdir (may_rmdir E) d ;;; print [FS "Removed empty dir: "; FP d])
           is_Exception
           (fun e => print [FS "Could not delete dir "; FP d; FS ": "; FE e])
       else ret tt).

(** *** [save_file] (lines 154-160) *)

Definition save_file (p : path) (content : value) (is_json : bool) : M unit :=
  let data := if is_json then VStr (json_dumps E false content) else content in
  if ENABLE_WRITETOFILE F then
    write_text p data ;;;
    print [FS "File saved: "; FP p]
  else
    print [FS "File would be saved (simulation): "; FP p].

(** *** [fetch_data] (lines 162-169) *)

(** [requests.get(url, headers=headers)] *)
Definition get_request (url : string) (hd : headers_t) : M response :=
  fun w =>
    let w' := World (files w) (dirs w) (out w) (net w ++ [GET url]) in
    match requests_get E url hd with
    | Some r => (Ok r, w')
    | None => (Raise RequestException, w')
    end.

(** [r.json()] *)
Definition json_of (r : response) : M value :=
  match json_loads E (text r) with
  | Some v => ret v
  | None => raise JSONDecodeError
  end.

Definition fetch_data (url : string) (hd : headers_t) : M value :=
  print [FS "Fetching: "; FS url] ;;;
  r <- get_request url hd ;;
  if ok r then
    print [FS "Success."] ;;;
    json_of r
  else
    print [FS "Error "; FZ (status_code r)] ;;;
    ret (VList []).

(** *** [compute_hash] (lines 147-152): only a missing file gives [None]. *)

Definition compute_hash (file_path : path) : M (option string) :=
  w <- get_world ;;
  match files w !! file_path with
  | Some bytes => ret (Some (sha256_hexdigest E bytes))
  | None => if is_dir w file_path then raise OSError else ret None
  end.

(** *** [process_scripts] (lines 115-145) *)

(** The table of extensions; a dict lookup hashes its key first. *)
Definition ext_of (shell : value) : result string :=
  if hashable shell then
    Ok (if eq_str shell "powershell" then ".ps1"
        else if eq_str shell "python" then ".py"
        else if eq_str shell "cmd" then ".bat"
        else if eq_str shell "shell" then ".sh"
        else if eq_str shell "nushell" then ".nu"
        else ".txt")
  else Raise TypeError.

(** [v.strip()] *)
Definition py_strip (v : value) : result value :=
  match v with
  | VStr s => Ok (VStr (strip s))
  | _ => Raise AttributeError
  end.

(** [{**data, **s}] *)
Definition merge_payload (data s : value) : result value :=
  match data, s with
  | VDict a, VDict b => Ok (VDict (dict_merge a b))
  | _, _ => Raise TypeError
  end.

(** [name = sanitize_filename(s.get('name', 'Unnamed Script'))] *)
Definition script_name (s : value) : result string :=
  n <~ get s "name" (VStr "Unnamed Script") ;;
  sanitize_filename E n.

(** [cat = sanitize_filename(s.get('category', '').strip()) if s.get('category') else ''] *)
Definition script_category (s : value) : result string :=
  c <~ get s "category" VNone ;;
  if truthy c then
    c' <~ get s "category" (VStr "") ;;
    c'' <~ py_strip c' ;;
    sanitize_filename E c''
  else Ok "".

(** [root / cat if cat else root] *)
Definition in_category (root : path) (cat : string) : path :=
  if String.eqb cat "" then root else path_join root cat.

(** [raw_name = f"{sid} - {name}.json"] *)
Definition raw_name_of (sid : value) (name : string) : string :=
  py_str sid +:+ " - " +:+ name +:+ ".json".

Definition download_url (G : globals) (sid : value) : string :=
  domain G +:+ "/scripts/" +:+ py_str sid +:+ "/download/?with_snippets=false".

(** The body of the loop; its state is the set [current] and the tally. *)
Definition process_scripts_body (G : globals) (script_folder script_raw_folder : path)
    (is_snippet : bool) (s : value) (st : gset path * tally_t) : M (gset path * tally_t) :=
  sid <- lift (get s "id" VNone) ;;
  name <- lift (script_name s) ;;
  cat <- lift (script_category s) ;;
  let folder := in_category script_folder cat in
  let raw_folder := in_category script_raw_folder cat in
  mkdir folder ;;;
  mkdir raw_folder ;;;
  data <- (if is_snippet then ret s else fetch_data (download_url G sid) (headers G)) ;;
  if negb (truthy data) then ret st
  else
    code <- lift (get data "code" VNone) ;;
    shell <- lift (get s "shell" VNone) ;;
    ext <- lift (ext_of shell) ;;
    let shell_summary := if is_snippet then snd st else tally_incr (snd st) shell in
    let fname := name +:+ ext in
    save_file (path_join folder fname) code false ;;;
    let raw_name := raw_name_of sid name in
    merged <- lift (merge_payload data s) ;;
    save_file (path_join raw_folder raw_name) merged true ;;;
    e <- lift (relative_to (path_join folder fname) script_folder) ;;
    r <- lift (relative_to (path_join raw_folder raw_name) script_raw_folder) ;;
    ret (fst st ∪ {[e]} ∪ {[r]}, shell_summary).

Definition kind_word (is_snippet : bool) (plural other : string) : string :=
  if is_snippet then plural else other.

(** The function returns [current]; the tally it was handed is mutated in
    place, so the caller sees it too. *)
Definition process_scripts (G : globals) (scripts_v : value)
    (script_folder script_raw_folder : path) (shell_summary : tally_t)
    (is_snippet : bool) : M (gset path * tally_t) :=
  print [FS "Processing "; FS (kind_word is_snippet "snippets" "user-defined scripts"); FS "..."] ;;;
  items <- lift (iterate scripts_v) ;;
  st <- for_fold items (∅, shell_summary)
          (process_scripts_body G script_folder script_raw_folder is_snippet) ;;
  print [FS "Processed "; FN (size (fst st)); FS " ";
         FS (kind_word is_snippet "snippets" "scripts"); FS "."] ;;;
  ret st.

(** *** [update_api] (lines 223-238) *)

(** [requests.put(url, headers=headers, json=payload, timeout=120)] *)
Definition put_request (url : string) (hd : headers_t) (payload : value) : M response :=
  fun w =>
    let w' := World (files w) (dirs w) (out w) (net w ++ [PUT url payload]) in
    match requests_put E url hd payload with
    | Some r => (Ok r, w')
    | None => (Raise RequestException, w')
    end.

(** [len(body)] and [body[:1000]] in the printed line: a string or a list
    has both. *)
Definition preview (body : value) : result (list frag) :=
  match body with
  | VStr b =>
      Ok [FN (String.length b); FS ", preview: "; FS (String.substring 0 1000 b);
          FS (if 1000 <? String.length b then "..." else "")]
  | VList l =>
      Ok [FN (length l); FS ", preview: "; FV (VList (take 1000 l));
          FS (if 1000 <? length l then "..." else "")]
  | _ => Raise TypeError
  end.

(** The body of [update_api(script_id, payload)].  The first statement is
    [payload['script_body'] = payload.pop('code', '')]. *)
Definition update_api_body (G : globals) (script_id payload : value) : M unit :=
  match payload with
  | VDict d =>
      let body := default (VStr "") (dict_lookup d "code") in
      let payload' := VDict (dict_set (dict_remove d "code") "script_body" body) in
      let url := domain G +:+ "/scripts/" +:+ py_str script_id +:+ "/" in
      pv <- lift (preview body) ;;
      print ([FS "Updating "; FV script_id; FS ", length: "] ++ pv) ;;;
      try_except
        (res <- put_request url (headers G) payload' ;;
         print [FV script_id; FS " update: "; FZ (status_code res); FS " "; FS (reason res)] ;;;
         if negb (status_code res =? 200)%Z then print [FS (text res)] else ret tt)
        (fun e => match e with RequestException => true | _ => false end)
        (fun e => print [FS "Request error for "; FV script_id; FS ": "; FE e])
  | _ => raise AttributeError
  end.

(** A function as [def] makes it: its parameters and its body. *)
Record pydef : Type := Def {
  params : list string;
  body : list value -> M unit
}.

(** A call with positional arguments: Python binds them to the parameters
    and raises [TypeError] when there are too many or too few. *)
Definition call (f : pydef) (args : list value) : M unit :=
  if length args =? length (params f) then body f args else raise TypeError.

(** [def update_api(script_id, payload):] *)
Definition update_api (G : globals) : pydef :=
  Def ["script_id"; "payload"]
    (fun args =>
       match args with
       | [script_id; payload] => update_api_body G script_id payload
       | _ => raise TypeError
       end).

(** *** [write_modifications_to_api] (lines 171-221) *)

(** [code.encode('utf-8')]; only a string has the method. *)
Definition encode_utf8 (v : value) : result string :=
  match v with VStr s => Ok s | _ => Raise AttributeError end.

(** [next((p for p in scripts.rglob('*') if p.is_file() and p.stem.lower() == raw_name), None)] *)
Definition find_match (w : world) (scripts_folder : path) (raw_name : string) : option path :=
  head (filter (fun p => is_file w p && String.eqb (lower (stem p)) raw_name)
          (rglob w scripts_folder star)).

(** [json.load(f)] on the file at [p], opened as text.  [json_loads] has a
    value for a JSON text in UTF-8 only, and the value of a JSON text does
    not depend on how its line ends are read (they stand between its tokens
    only), so it is given the bytes of the file; bytes that are not UTF-8
    fail in the decoding, before the parse. *)
Definition json_load (p : path) : M value :=
  bytes <- read_bytes p ;;
  match json_loads E bytes with
  | Some v => ret v
  | None => raise (if valid_utf8 bytes then JSONDecodeError else UnicodeDecodeError)
  end.

(** The body of the loop over the raw snapshots.  The matched file is
    opened as text twice, for the preview and for the payload; the model
    decodes the whole file each time (Python decodes it piece by piece, so
    on a file that is not UTF-8 it can print some preview lines before the
    same exception). *)
Definition reconcile_one (G : globals) (folders : folders_t) (api_token : string)
    (raw_path : path) : M unit :=
  let raw_name := lower (strip_id_prefix (stem raw_path)) in
  w <- get_world ;;
  match find_match w (scripts folders) raw_name with
  | None => print [FS "No match for: "; FP raw_path]
  | Some match_ =>
      print [FS "Matched: "; FP match_; FS " <-> "; FP raw_path] ;;;
      script_hash <- compute_hash match_ ;;
      raw_data <- json_load raw_path ;;
      code <- lift (get raw_data "code" (VStr "")) ;;
      code_bytes <- lift (encode_utf8 code) ;;
      let code_hash := sha256_hexdigest E code_bytes in
      print [FS "Script hash: "; FH script_hash; FS "JSON hash:   "; FS code_hash] ;;;
      if bool_decide (script_hash <> Some code_hash) then
        print [FS "--- Script (first 10 lines) ---"] ;;;
        content <- read_text match_ ;;
        for_each (take 10 (text_lines content)) (fun line => print [FS (strip line)]) ;;;
        print [FS "--- JSON Code (first 10 lines) ---"] ;;;
        for_each (take 10 (splitlines code_bytes)) (fun line => print [FS (strip line)]) ;;;
        content <- read_text match_ ;;
        updated_payload <- lift (merge_payload raw_data (VDict [("code", VStr content)])) ;;
        try_except
          (if ENABLE_WRITEBACK F then
             print [FS "Updating API for "; FP match_; FS "..."] ;;;
             sid <- lift (get raw_data "id" VNone) ;;
             call (update_api G) [sid; updated_payload; VStr api_token]
           else
             print [FS "Simulated push for "; FP match_; FS ":"] ;;;
             match updated_payload with
             | VDict d =>
                 match dict_lookup d "code" with
                 | Some c =>
                     print [FS (json_dumps E true
                                  (VDict (dict_set (dict_remove d "code") "script_body" c)))]
                 | None => raise KeyError
                 end
             | _ => raise AttributeError
             end)
          (fun e => match e with BrokenPipeError => true | _ => false end)
          (fun _ => ret tt)
      else ret tt
  end.

Definition write_modifications_to_api (G : globals) (base_dir : path)
    (folders : folders_t) (api_token : string) : M unit :=
  print [FS "Comparing script files with JSON files..."] ;;;
  w <- get_world ;;
  for_each (rglob w (scriptsraw folders) star_json) (reconcile_one G folders api_token).

(** *** [git_pull] and [git_push] (lines 240-318) *)

(** [subprocess.run(args, capture_output=True, text=True)]: the return code
    and the output; the command may change the working tree. *)
Definition subprocess_run (args : list string) : M (Z * string) :=
  fun w =>
    let '(r, (f, d)) := git E args (files w, dirs w) in
    (Ok r, World f d (out w) (net w)).

(** [subprocess.check_call(args)], and [subprocess.run(..., check=True)] *)
Definition check_call (args : list string) : M string :=
  r <- subprocess_run args ;;
  if (fst r =? 0)%Z then ret (snd r) else raise CalledProcessError.

Definition is_CalledProcessError (e : exc) : bool :=
  match e with CalledProcessError => true | _ => false end.

Definition git_cmd (base_dir : path) (args : list string) : list string :=
  ["git"; "-C"; path_str base_dir] ++ args.

Definition git_pull (base_dir : path) : M unit :=
  if ENABLE_GIT_PULL F then
    print [FS "Starting force pull..."] ;;;
    try_except
      (check_call (git_cmd base_dir ["fetch"; "origin"]) ;;;
       check_call (git_cmd base_dir ["reset"; "--hard"; "origin/master"]) ;;;
       print [FS "Successfully force-pulled the latest changes from the repository."])
      is_CalledProcessError
      (fun e => print [FS "Failed to force-pull changes from Git: "; FE e] ;;;
                raise (SystemExit "1"))
  else print [FS "Git pull is disabled."].

Definition git_push (base_dir : path) : M unit :=
  if ENABLE_GIT_PUSH F then
    try_except
      (rebase <- subprocess_run (git_cmd base_dir ["rebase"; "--show-current-patch"]) ;;
       (if (fst rebase =? 0)%Z
        then raise (SystemExit "Rebase in progress. Complete or abort it.")
        else ret tt) ;;;
       head_name <- subprocess_run (git_cmd base_dir ["rev-parse"; "--abbrev-ref"; "HEAD"]) ;;
       let branch_name :=
         if String.eqb (strip (snd head_name)) "" then "update-scripts"
         else strip (snd head_name) in
       (if String.eqb branch_name "HEAD"
        then check_call (git_cmd base_dir ["checkout"; "-b"; branch_name]) ;;; ret tt
        else ret tt) ;;;
       status_result <- subprocess_run (git_cmd base_dir ["status"; "--porcelain"]) ;;
       if negb (String.eqb (snd status_result) "") then
         check_call (git_cmd base_dir ["add"; "."]) ;;;
         stdout <- check_call (git_cmd base_dir ["diff"; "--cached"; "--name-status"]) ;;
         commit_message <- lift (commit_message_of stdout) ;;
         check_call (git_cmd base_dir ["commit"; "-m"; commit_message]) ;;;
         print [FS "Committed changes to branch '"; FS branch_name; FS "': "; FS commit_message] ;;;
         check_call (git_cmd base_dir ["push"; "origin"; branch_name]) ;;;
         print [FS "Changes pushed to branch '"; FS branch_name; FS "'"]
       else print [FS "No changes to commit."])
      is_CalledProcessError
      (fun e => print [FS "Git operation failed: "; FE e])
  else print [FS "Git push is disabled."].

(** *** [main] (lines 320-379) *)

(** [[item for item in v if item.get('script_type') == 'userdefined']] *)
Fixpoint userdefined (items : list value) : result (list value) :=
  match items with
  | [] => Ok []
  | item :: rest =>
      t <~ get item "script_type" VNone ;;
      rest' <~ userdefined rest ;;
      Ok (if eq_str t "userdefined" then item :: rest' else rest')
  end.

(** Step 3: fetch and export the scripts, then the snippets.  The result is
    the set [current_scripts] and the tally. *)
Definition main_export (G : globals) (folders : folders_t) : M (gset path * tally_t) :=
  print [FS "Fetching user-defined scripts..."] ;;;
  listed <- fetch_data (domain G +:+ "/scripts/?showHiddenScripts=true") (headers G) ;;
  items <- lift (iterate listed) ;;
  user_defined_scripts <- lift (userdefined items) ;;
  st1 <- process_scripts G (VList user_defined_scripts)
           (scripts folders) (scriptsraw folders) [] false ;;
  print [FS "Fetching snippets..."] ;;;
  snippets_v <- fetch_data (domain G +:+ "/scripts/snippets/") (headers G) ;;
  st2 <- process_scripts G snippets_v (snippets folders) (snippetsraw folders) (snd st1) true ;;
  ret (fst st1 ∪ fst st2, snd st2).

(** The loop that removes the obsolete files: every folder is cleaned
    against the same set. *)
Definition main_prune (folders : folders_t) (current_scripts : gset path) : M unit :=
  for_each (folders_values folders)
    (fun folder => delete_obsolete_files folder current_scripts).

Definition nonempty_env (v : option string) : bool :=
  match v with Some s => negb (String.eqb s "") | None => false end.

(** [folders = {name: base_dir / name for name in [...]}] *)
Definition main_folders (base_dir : path) : folders_t :=
  Folders (path_join base_dir "scripts") (path_join base_dir "scriptsraw")
          (path_join base_dir "snippets") (path_join base_dir "snippetsraw").

(** [main], from the three environment variables [os.getenv] reads. *)
Definition main (env_DOMAIN env_API_TOKEN env_SCRIPTPATH : option string) : M unit :=
  if negb (nonempty_env env_DOMAIN && nonempty_env env_API_TOKEN && nonempty_env env_SCRIPTPATH)
  then
    print [FS "Error: DOMAIN, API_TOKEN, and SCRIPTPATH must be set in the environment."] ;;;
    raise (SystemExit "1")
  else
    let api_token := default "" env_API_TOKEN in
    let G := Globals (default "" env_DOMAIN) [("X-API-KEY", api_token)] in
    let base_dir := resolve E (default "" env_SCRIPTPATH) in
    let folders := main_folders base_dir in
    for_each (folders_values folders) mkdir ;;;
    (if ENABLE_GIT_PULL F then git_pull base_dir
     else print [FS "Git pull is disabled."]) ;;;
    write_modifications_to_api G base_dir folders api_token ;;;
    st <- main_export G folders ;;
    main_prune folders (fst st) ;;;
    (if ENABLE_GIT_PUSH F then git_push base_dir
     else print [FS "Git push is disabled."]) ;;;
    print [FS "Total number of scripts exported: "; FN (size (fst st))] ;;;
    print (FS "Shell summary:" ::
           concat (map (fun kv => [FV (fst kv); FS ": "; FN (snd kv)]) (snd st))).

End Sync.

(** ** The export, read off its inputs

    The definitions below are not part of the program: they say, from the
    server and the listed records alone, what a run of the export fetches
    and which paths it records.  The properties relate the program to them. *)

(** What [fetch_data] gives for a URL: it depends on the server alone. *)
Definition fetched (E : Env) (url : string) (hd : headers_t) : result value :=
  match requests_get E url hd with
  | None => Raise RequestException
  | Some r =>
      if ok r then
        match json_loads E (text r) with
        | Some v => Ok v
        | None => Raise JSONDecodeError
        end
      else Ok (VList [])
  end.

(** The payload [data] of a record: the record itself for a snippet, the
    download for a script. *)
Definition payload_of (E : Env) (G : globals) (is_snippet : bool) (s : value) : result value :=
  if is_snippet then Ok s
  else
    sid <~ get s "id" VNone ;;
    fetched E (download_url E G sid) (headers G).

(** A record is exported when its payload is there and is not empty. *)
Definition exported (E : Env) (G : globals) (is_snippet : bool) (s : value) : bool :=
  match payload_of E G is_snippet s with
  | Ok data => truthy data
  | Raise _ => false
  end.

(** The category as a relative path. *)
Definition rel_category (cat : string) : path :=
  if String.eqb cat "" then [] else [cat].

(** The two relative paths of a record: the editable file and the raw
    snapshot. *)
Definition planned_paths (E : Env) (s : value) : result (path * path) :=
  sid <~ get s "id" VNone ;;
  name <~ script_name E s ;;
  cat <~ script_category E s ;;
  shell <~ get s "shell" VNone ;;
  ext <~ ext_of shell ;;
  Ok (rel_category cat ++ [name +:+ ext],
      rel_category cat ++ [py_str E sid +:+ " - " +:+ name +:+ ".json"]).

Definition paths_of (E : Env) (G : globals) (is_snippet : bool) (s : value) : list path :=
  if exported E G is_snippet s then
    match planned_paths E s with
    | Ok (e, r) => [e; r]
    | Raise _ => []
    end
  else [].

(** The paths of all the records, in their order. *)
Definition manifest_of (E : Env) (G : globals) (is_snippet : bool) (items : list value) : list path :=
  concat (map (paths_of E G is_snippet) items).

(** The number of records of a list that are exported. *)
Definition exported_count (E : Env) (G : globals) (is_snippet : bool) (items : list value) : nat :=
  length (filter (fun s => exported E G is_snippet s = true) items).

(** The records [main] hands to the two calls of [process_scripts]. *)
Definition listed_scripts (E : Env) (G : globals) : result (list value) :=
  listed <~ fetched E (domain G +:+ "/scripts/?showHiddenScripts=true") (headers G) ;;
  items <~ iterate listed ;;
  userdefined items.

Definition listed_snippets (E : Env) (G : globals) : result (list value) :=
  v <~ fetched E (domain G +:+ "/scripts/snippets/") (headers G) ;;
  iterate v.

(** ** A small installation for the examples

    One script (id 1, [foo], PowerShell) and one snippet (id 7, [bar],
    Python) on the server [https://rmm], a working tree at [/repo].  The JSON
    codec and the hash are tables with just the entries the examples use. *)

Definition demo_script : value :=
  VDict [("id", VInt 1); ("name", VStr "foo"); ("shell", VStr "powershell");
         ("script_type", VStr "userdefined")].

Definition demo_detail : value := VDict [("id", VInt 1); ("code", VStr "Write-Host hi")].

Definition demo_snippet : value :=
  VDict [("id", VInt 7); ("name", VStr "bar"); ("shell", VStr "python");
         ("code", VStr "print(1)")].

Definition demo_loads (t : string) : option value :=
  if String.eqb t "LIST" then Some (VList [demo_script])
  else if String.eqb t "DETAIL" then Some demo_detail
  else if String.eqb t "DETAIL-WITHOUT-CODE" then Some (VDict [("id", VInt 1)])
  else if String.eqb t "SNIPPETS" then Some (VList [demo_snippet])
  else if String.eqb t "NONE" then Some (VList [])
  else if String.eqb t "RAW" then Some (VDict [("id", VInt 1); ("code", VStr "Write-Host hi")])
  else None.

(** The names of a dict's keys stand for its serialization. *)
Definition demo_dumps (_ : bool) (v : value) : string :=
  match v with
  | VDict d => "{" +:+ join "," (map fst d) +:+ "}"
  | _ => "?"
  end.

(** [sanitize_filename] on a string removes the slashes. *)
Fixpoint demo_remove_slash (s : string) : string :=
  match s with
  | EmptyString => EmptyString
  | String c s' =>
      if Ascii.eqb c "/"%char then demo_remove_slash s' else String c (demo_remove_slash s')
  end.

Definition demo_sanitize (v : value) : result string :=
  match v with
  | VStr s => Ok (demo_remove_slash s)
  | _ => Raise ValueError
  end.

Definition demo_get (detail snippets_text : string) (url : string) (_ : headers_t) : option response :=
  if String.eqb url "https://rmm/scripts/?showHiddenScripts=true" then Some (Response 200 "OK" "LIST")
  else if String.eqb url "https://rmm/scripts/1/download/?with_snippets=false"
       then Some (Response 200 "OK" detail)
  else if String.eqb url "https://rmm/scripts/snippets/" then Some (Response 200 "OK" snippets_text)
  else if String.eqb url "https://rmm/moved" then Some (Response 304 "Not Modified" "LIST")
  else if String.eqb url "https://rmm/missing" then Some (Response 404 "Not Found" "")
  else None.

(** git: nothing to rebase, branch [master], a clean status. *)
Definition demo_git (args : list string) (t : gmap path string * gset path) :
    (Z * string) * (gmap path string * gset path) :=
  match args with
  | [_; _; _; "rebase"; _] => ((1%Z, ""), t)
  | [_; _; _; "rev-parse"; _; _] => ((0%Z, "master"), t)
  | _ => ((0%Z, ""), t)
  end.

Definition demo_env (detail snippets_text : string) : Env :=
  {| sanitize_filename := demo_sanitize;
     json_dumps := demo_dumps;
     json_loads := demo_loads;
     sha256_hexdigest := fun bytes => "sha256:" +:+ bytes;
     repr := fun _ => "?";
     requests_get := demo_get detail snippets_text;
     requests_put := fun _ _ _ => Some (Response 200 "OK" "");
     may_unlink := fun _ => true;
     may_rmdir := fun _ => true;
     git := demo_git;
     resolve := fun s => [s] |}.

Definition demo_globals : globals := Globals "https://rmm" [("X-API-KEY", "key")].

Definition demo_folders : folders_t := main_folders ["repo"].

Definition wet : flags := Flags true true true true.
Definition dry : flags := Flags true true true false.

(** The four folders, empty. *)
Definition demo_world : world :=
  World ∅ {[ ["repo"]; ["repo"; "scripts"]; ["repo"; "scriptsraw"];
             ["repo"; "snippets"]; ["repo"; "snippetsraw"] ]} [] [].

(** The tree a former run left: the script [foo], edited since, and a
    snippet [foo.ps1] that the server no longer has. *)
Definition demo_edited_world : world :=
  World {[ ["repo"; "scripts"; "foo.ps1"] := "Write-Host edited";
           ["repo"; "scriptsraw"; "1 - foo.json"] := "RAW";
           ["repo"; "snippets"; "foo.ps1"] := "stale";
           ["repo"; "snippets"; "old"; "gone.py"] := "stale" ]}
        {[ ["repo"]; ["repo"; "scripts"]; ["repo"; "scriptsraw"];
           ["repo"; "snippets"]; ["repo"; "snippets"; "old"]; ["repo"; "snippetsraw"] ]} [] [].

(** ** Definitions the properties are stated with *)

(** A relation between the world before and after that every step of a
    computation keeps. *)
Definition preserves (R : world -> world -> Prop) {A} (m : M A) : Prop :=
  forall w, R w (snd (m w)).

Definition same_net (w w' : world) : Prop := net w' = net w.

Definition same_files (w w' : world) : Prop := files w' = files w.

(** The dry run against any other run from the same tree: where the other
    run wrote files the dry run has none, the directories are the same. *)
Definition behind (wd ww : world) : Prop :=
  dirs wd = dirs ww /\ dom (files wd) ⊆ dom (files ww).

(** Whenever [mw] returns, [md] returns the same value from a world that
    is behind. *)
Definition follows {A} (md mw : M A) : Prop :=
  forall wd ww a ww',
    behind wd ww -> mw ww = (Ok a, ww') ->
    exists wd', md wd = (Ok a, wd') /\ behind wd' ww'.

(** One turn of the loop over the directories, deepest first. *)
Definition rmdir_turn (E : Env) (d : path) : M unit :=
  w <- get_world ;;
  if is_dir w d && negb (has_entry w d) then
    try_except
      (rmdir (may_rmdir E) d ;;; print [FS "Removed empty dir: "; FP d])
      is_Exception
      (fun e => print [FS "Could not delete dir "; FP d; FS ": "; FE e])
  else ret tt.

(** The run of the examples, with writeback and writing to files disabled. *)
Definition simulate : flags := Flags true true false false.

Definition demo_export : result (gset path * tally_t) * world :=
  main_export (demo_env "DETAIL" "SNIPPETS") simulate demo_globals demo_folders demo_edited_world.

(** The export of the script of the examples into the empty folders. *)
Definition demo_scripts_run : result (gset path * tally_t) * world :=
  process_scripts (demo_env "DETAIL" "SNIPPETS") simulate demo_globals (VList [demo_script])
    ["repo"; "scripts"] ["repo"; "scriptsraw"] [] false demo_world.

Definition demo_prune : result unit * world :=
  main_prune (demo_env "DETAIL" "SNIPPETS") demo_folders
    (fst (value_of (fst demo_export) (∅, []))) (snd demo_export).

(** The turn of the loop for the snippet [bar] of the examples. *)
Definition demo_snippet_turn : result (gset path * tally_t) * world :=
  process_scripts_body (demo_env "DETAIL" "SNIPPETS") wet demo_globals
    ["repo"; "snippets"] ["repo"; "snippetsraw"] true demo_snippet (∅, []) demo_world.

(** ** Further definitions for the properties *)

(** The file system of a world is that of another. *)
Definition same_tree (w w' : world) : Prop :=
  files w' = files w /\ dirs w' = dirs w.

(** The server of the examples when it is down: every request is answered
    with the status 500. *)
Definition demo_down_env : Env :=
  {| sanitize_filename := demo_sanitize;
     json_dumps := demo_dumps;
     json_loads := demo_loads;
     sha256_hexdigest := fun bytes => "sha256:" +:+ bytes;
     repr := fun _ => "?";
     requests_get := fun _ _ => Some (Response 500 "Internal Server Error" "");
     requests_put := fun _ _ _ => Some (Response 500 "Internal Server Error" "");
     may_unlink := fun _ => true;
     may_rmdir := fun _ => true;
     git := demo_git;
     resolve := fun s => [s] |}.


(** The server of the examples when it cannot be reached: every request
    fails on the network. *)
Definition demo_unreachable_env : Env :=
  {| sanitize_filename := demo_sanitize; json_dumps := demo_dumps; json_loads := demo_loads;
     sha256_hexdigest := fun bytes => "sha256:" +:+ bytes; repr := fun _ => "?";
     requests_get := fun _ _ => None;
     requests_put := fun _ _ _ => None;
     may_unlink := fun _ => true; may_rmdir := fun _ => true;
     git := demo_git; resolve := fun s => [s] |}.

(** The working tree of a world, as the git commands see and change it. *)
Definition tree (w : world) : gmap path string * gset path := (files w, dirs w).

(** The working tree after a sequence of git commands, run one after the
    other. *)
Definition git_run (E : Env) (cmds : list (list string))
    (t : gmap path string * gset path) : gmap path string * gset path :=
  foldl (fun t args => snd (git E args t)) t cmds.

(** A line of [git diff --name-status] for a rename or a copy: the status
    with its score, the old path and the new one, separated by tabs. *)
Definition rename_line (status old new : string) : string :=
  status +:+ String TAB (old +:+ String TAB new).

(** git with one staged rename. *)
Definition demo_rename_git (args : list string) (t : gmap path string * gset path) :
    (Z * string) * (gmap path string * gset path) :=
  match args with
  | [_; _; _; "rebase"; _] => ((1%Z, ""), t)
  | [_; _; _; "rev-parse"; _; _] => ((0%Z, "master" +:+ String LF ""), t)
  | [_; _; _; "status"; _] => ((0%Z, "R  old.ps1 -> new.ps1" +:+ String LF ""), t)
  | [_; _; _; "diff"; _; _] => ((0%Z, rename_line "R100" "old.ps1" "new.ps1" +:+ String LF ""), t)
  | _ => ((0%Z, ""), t)
  end.

(** git without a remote: [fetch] fails. *)
Definition demo_offline_git (args : list string) (t : gmap path string * gset path) :
    (Z * string) * (gmap path string * gset path) :=
  match args with
  | [_; _; _; "fetch"; _] => ((128%Z, ""), t)
  | _ => demo_git args t
  end.

Definition with_git (E : Env)
    (g : list string -> gmap path string * gset path ->
         (Z * string) * (gmap path string * gset path)) : Env :=
  {| sanitize_filename := sanitize_filename E; json_dumps := json_dumps E;
     json_loads := json_loads E; sha256_hexdigest := sha256_hexdigest E; repr := repr E;
     requests_get := requests_get E; requests_put := requests_put E;
     may_unlink := may_unlink E; may_rmdir := may_rmdir E;
     git := g; resolve := resolve E |}.

(** A string of decimal digits. *)
Fixpoint all_digits (s : string) : bool :=
  match s with
  | EmptyString => true
  | String c s' => isdigit c && all_digits s'
  end.

(** The sum of the counts of a tally. *)
Definition tally_total (t : tally_t) : nat := sum_list (snd <$> t).

(** The run of the examples that writes the files, into the empty folders. *)
Definition demo_wet_turn : result (gset path * tally_t) * world :=
  process_scripts_body (demo_env "DETAIL" "SNIPPETS") wet demo_globals
    ["repo"; "scripts"] ["repo"; "scriptsraw"] false demo_script (∅, []) demo_world.

(** The request for the payload of a script. *)
Definition download_request (E : Env) (G : globals) (s : value) : request :=
  GET (download_url E G (value_of (get s "id" VNone) VNone)).

(** The list item is a user-defined script, as [main] tests it. *)
Definition is_userdefined (item : value) : bool :=
  eq_str (value_of (get item "script_type" VNone) VNone) "userdefined".

(** A tree with two scripts of the same name in two categories. *)
Definition demo_twins_world : world :=
  World {[ ["repo"; "scripts"; "A"; "foo.ps1"] := "a";
           ["repo"; "scripts"; "B"; "foo.ps1"] := "b";
           ["repo"; "scriptsraw"; "A"; "1 - foo.json"] := "RAW";
           ["repo"; "scriptsraw"; "B"; "2 - foo.json"] := "RAW" ]}
        {[ ["repo"]; ["repo"; "scripts"]; ["repo"; "scripts"; "A"]; ["repo"; "scripts"; "B"];
           ["repo"; "scriptsraw"]; ["repo"; "scriptsraw"; "A"]; ["repo"; "scriptsraw"; "B"] ]}
        [] [].

(** The tree of the examples with the edited script saved with CR LF and
    CR line ends. *)
Definition demo_crlf_world : world :=
  World {[ ["repo"; "scripts"; "foo.ps1"]
             := "Write-Host edited" +:+ String CR (String LF "exit" +:+ String CR "");
           ["repo"; "scriptsraw"; "1 - foo.json"] := "RAW" ]}
        (dirs demo_world) [] [].

(** The tree of the examples when nothing was edited since the export. *)
Definition demo_synced_world : world :=
  World {[ ["repo"; "scripts"; "foo.ps1"] := "Write-Host hi";
           ["repo"; "scriptsraw"; "1 - foo.json"] := "RAW" ]}
        (dirs demo_world) [] [].

(** [branch_name = <output of rev-parse>.strip() or "update-scripts"] *)
Definition branch_of (head : string) : string :=
  if String.eqb (strip head) "" then "update-scripts" else strip head.

(** git on the branch [master] with one modified script staged.  A commit
    leaves its message in [.git/COMMIT_EDITMSG], a push leaves the name of
    the branch in [.git/pushed]. *)
Definition demo_commit_git (args : list string) (t : gmap path string * gset path) :
    (Z * string) * (gmap path string * gset path) :=
  match args with
  | [_; _; _; "rebase"; _] => ((1%Z, ""), t)
  | [_; _; _; "rev-parse"; _; _] => ((0%Z, "master" +:+ String LF ""), t)
  | [_; _; _; "status"; _] => ((0%Z, " M scripts/foo.ps1" +:+ String LF ""), t)
  | [_; _; _; "diff"; _; _] =>
      ((0%Z, "M" +:+ String TAB "scripts/foo.ps1" +:+ String LF
               ("M" +:+ String TAB "scriptsraw/1 - foo.json" +:+ String LF "")), t)
  | [_; _; _; "commit"; _; msg] =>
      ((0%Z, ""), (<[ [".git"; "COMMIT_EDITMSG"] := msg ]> (fst t), snd t))
  | [_; _; _; "push"; _; branch] =>
      ((0%Z, ""), (<[ [".git"; "pushed"] := branch ]> (fst t), snd t))
  | _ => ((0%Z, ""), t)
  end.

(** The same git when nothing can be staged: [git add] fails. *)
Definition demo_failing_add_git (args : list string) (t : gmap path string * gset path) :
    (Z * string) * (gmap path string * gset path) :=
  match args with
  | [_; _; _; "add"; _] => ((128%Z, ""), t)
  | _ => demo_commit_git args t
  end.

(** The requests that only read from the server. *)
Definition is_GET (r : request) : bool :=
  match r with GET _ => true | PUT _ _ => false end.

(** Between two worlds, only GET requests were sent. *)
Definition reads_only (w w' : world) : Prop :=
  exists l, net w' = net w ++ l /\ Forall (fun r => is_GET r = true) l.

(* ================================================================== *)
(** * Properties *)

Example split_on_example :
  split_on TAB ("A" +:+ String TAB "a.ps1") = ["A"; "a.ps1"].
Proof. reflexivity. Qed.

Example strip_example : strip ("  a b " +:+ String LF "") = "a b".
Proof. reflexivity. Qed.

Example split_ws_example : split_ws (" R100  old " +:+ String TAB "new") = ["R100"; "old"; "new"].
Proof. reflexivity. Qed.

Example gcm_example :
  commit_message_of ("A" +:+ String TAB "a.ps1" +:+ String LF "D" +:+ String TAB "b.py" +:+ String LF "")
  = Ok "created 1: a.ps1; deleted 1: b.py".
Proof. vm_compute. reflexivity. Qed.

Example stem_examples :
  stem ["scriptsraw"; "12 - foo.bar.json"] = "12 - foo.bar" /\ stem [".json"] = ".json"
  /\ stem ["foo."] = "foo." /\ stem ["foo"] = "foo".
Proof. vm_compute. auto. Qed.

Example strip_id_prefix_examples :
  strip_id_prefix "12 - foo" = "foo" /\ strip_id_prefix "12 -foo" = "12 -foo"
  /\ strip_id_prefix " - foo" = " - foo" /\ strip_id_prefix "7 - " = "".
Proof. vm_compute. auto. Qed.


(** ** The commit message synthesizer *)

Lemma classify_line_scriptsraw c line :
  is_scriptsraw_line line = true -> classify_line c line = Ok c.
Proof.
  unfold is_scriptsraw_line, classify_line.
  destruct (String.eqb line ""); [done|].
  destruct (split_on TAB line) as [|a [|b [|? ?]]]; simpl; try discriminate.
  by intros ->.
Qed.

Lemma append_cons x (a b : string) : String x a +:+ b = String x (a +:+ b).
Proof. reflexivity. Qed.

Lemma append_nil_l (b : string) : "" +:+ b = b.
Proof. reflexivity. Qed.

(** A line of two fields: no tab but the one between them. *)
Lemma split_on_field sep (a b : string) :
  find_char sep a = None -> split_on sep (a +:+ String sep b) = a :: split_on sep b.
Proof.
  induction a as [|x a IH]; intros Ha.
  - rewrite append_nil_l. simpl. by rewrite Ascii.eqb_refl.
  - rewrite append_cons. simpl in *. destruct (Ascii.eqb x sep); [done|].
    rewrite IH; [done|]. by destruct (find_char sep a).
Qed.

Lemma split_on_one sep (a : string) : find_char sep a = None -> split_on sep a = [a].
Proof.
  induction a as [|x a IH]; intros Ha; [done|].
  simpl in *. destruct (Ascii.eqb x sep); [done|].
  rewrite IH; [done|]. by destruct (find_char sep a).
Qed.

Lemma split_on_two_fields (status file : string) :
  find_char TAB status = None -> find_char TAB file = None ->
  split_on TAB (status +:+ String TAB file) = [status; file].
Proof. intros Hs Hf. by rewrite split_on_field, (split_on_one TAB file). Qed.



(** Lines that add nothing without being under [scriptsraw/] (a change of
    type, status [T]), and a path under [scriptsraw/] that git prints
    between quotes because of its characters: it is summarized. *)
Example lines_by_status_and_quoted_paths :
  classify_changes ("T" +:+ String TAB "scripts/foo.ps1") = Ok no_changes
  /\ commit_message_of ("T" +:+ String TAB "scripts/foo.ps1") = Ok "Minor update"
  /\ classify_changes
       ("M" +:+ String TAB (String "034" ("scriptsraw/caf\303\251.json" +:+ String "034" "")))
     = Ok (Changes []
             [String "034" ("scriptsraw/caf\303\251.json" +:+ String "034" "")] [] [])
  /\ classify_changes ("M" +:+ String TAB "scriptsraw/1 - foo.json") = Ok no_changes.
Proof. repeat split; vm_compute; reflexivity. Qed.




(** ** The monad *)

Lemma bind_Ok_inv {A B} (m : M A) (k : A -> M B) w b w' :
  bind m k w = (Ok b, w') ->
  exists a w1, m w = (Ok a, w1) /\ k a w1 = (Ok b, w').
Proof.
  unfold bind. destruct (m w) as [[a|e] w1]; [eauto | discriminate].
Qed.

Lemma bind_run {A B} (m : M A) (k : A -> M B) w a w1 :
  m w = (Ok a, w1) -> bind m k w = k a w1.
Proof. unfold bind. by intros ->. Qed.

Lemma bind_raise {A B} (m : M A) (k : A -> M B) w e w1 :
  m w = (Raise e, w1) -> bind m k w = (Raise e, w1).
Proof. unfold bind. by intros ->. Qed.

Lemma lift_Ok_inv {A} (r : result A) w a w' :
  lift r w = (Ok a, w') -> r = Ok a /\ w' = w.
Proof. unfold lift. by intros [= -> ->]. Qed.

Section Preserves.

Context (R : world -> world -> Prop) `{!Reflexive R} `{!Transitive R}.

Lemma preserves_ret {A} (a : A) : preserves R (ret a).
Proof. intros w. simpl. reflexivity. Qed.

Lemma preserves_raise {A} e : preserves R (@raise A e).
Proof. intros w. simpl. reflexivity. Qed.

Lemma preserves_lift {A} (r : result A) : preserves R (lift r).
Proof. intros w. simpl. reflexivity. Qed.

Lemma preserves_get_world : preserves R get_world.
Proof. intros w. simpl. reflexivity. Qed.

Lemma preserves_bind {A B} (m : M A) (k : A -> M B) :
  preserves R m -> (forall a, preserves R (k a)) -> preserves R (bind m k).
Proof.
  intros Hm Hk w. unfold bind. specialize (Hm w).
  destruct (m w) as [[a|e] w1]; simpl in *; [|done].
  etrans; [exact Hm | apply Hk].
Qed.

Lemma preserves_try_except {A} (m : M A) catches h :
  preserves R m -> (forall e, preserves R (h e)) -> preserves R (try_except m catches h).
Proof.
  intros Hm Hh w. unfold try_except. specialize (Hm w).
  destruct (m w) as [[a|e] w1]; simpl in *; [done|].
  destruct (catches e); simpl; [|done].
  etrans; [exact Hm | apply Hh].
Qed.

Lemma preserves_for_fold {A S} (l : list A) (s : S) body :
  (forall x s', preserves R (body x s')) -> preserves R (for_fold l s body).
Proof.
  intros Hb. revert s. induction l as [|x l IH]; intros s; simpl.
  - apply preserves_ret.
  - apply preserves_bind; [apply Hb | intros; apply IH].
Qed.

Lemma preserves_for_each {A} (l : list A) body :
  (forall x, preserves R (body x)) -> preserves R (for_each l body).
Proof. intros Hb. apply preserves_for_fold. intros; apply Hb. Qed.

Lemma preserves_if {A} (b : bool) (m1 m2 : M A) :
  preserves R m1 -> preserves R m2 -> preserves R (if b then m1 else m2).
Proof. by destruct b. Qed.

End Preserves.

(** ** [fetch_data] *)

Lemma fetch_data_fetched E url hd w :
  fst (fetch_data E url hd w) = fetched E url hd
  /\ files (snd (fetch_data E url hd w)) = files w
  /\ dirs (snd (fetch_data E url hd w)) = dirs w
  /\ net (snd (fetch_data E url hd w)) = net w ++ [GET url].
Proof.
  unfold fetch_data, fetched, bind, print, get_request, json_of, ret, raise; simpl.
  destruct (requests_get E url hd) as [r|]; simpl; [|done].
  destruct (ok r); simpl; [|done].
  destruct (json_loads E (text r)); done.
Qed.



(** The two branches on the server of the examples. *)
Example fetch_data_examples :
  fst (fetch_data (demo_env "DETAIL" "NONE") "https://rmm/missing" [] demo_world) = Ok (VList [])
  /\ out (snd (fetch_data (demo_env "DETAIL" "NONE") "https://rmm/missing" [] demo_world))
     = [[FS "Fetching: "; FS "https://rmm/missing"]; [FS "Error "; FZ 404]]
  /\ fst (fetch_data (demo_env "DETAIL" "NONE") "https://rmm/scripts/snippets/" [] demo_world)
     = Ok (VList []).
Proof. repeat (split; [vm_compute; reflexivity|]). vm_compute; reflexivity. Qed.


(** ** The reconciler *)

#[local] Instance same_net_refl : Reflexive same_net.
Proof. by intros w. Qed.

#[local] Instance same_net_trans : Transitive same_net.
Proof. intros a b c Hab Hbc. unfold same_net in *. congruence. Qed.

Lemma print_same_net line : preserves same_net (print line).
Proof. by intros w. Qed.

Lemma read_bytes_same_net p : preserves same_net (read_bytes p).
Proof. intros w. unfold read_bytes. by destruct (files w !! p). Qed.

Lemma read_text_same_net p : preserves same_net (read_text p).
Proof.
  intros w. unfold read_text. destruct (files w !! p) as [bytes|]; [|done].
  by destruct (valid_utf8 bytes).
Qed.

Lemma compute_hash_same_net E p : preserves same_net (compute_hash E p).
Proof.
  intros w. unfold compute_hash, bind, get_world; simpl.
  destruct (files w !! p); simpl; [done|]. by destruct (is_dir w p).
Qed.

Lemma json_load_same_net E p : preserves same_net (json_load E p).
Proof.
  apply preserves_bind; [apply _ | apply read_bytes_same_net |].
  intros t. destruct (json_loads E t); [apply preserves_ret | apply preserves_raise]; apply _.
Qed.

(** The call in [write_modifications_to_api] hands three arguments to the
    two parameters of [update_api]. *)
Lemma update_api_call_raises E G sid payload token w :
  call (update_api E G) [sid; payload; token] w = (Raise TypeError, w).
Proof. reflexivity. Qed.

Lemma reconcile_one_same_net E F G folders token raw_path :
  preserves same_net (reconcile_one E F G folders token raw_path).
Proof.
  unfold reconcile_one.
  apply preserves_bind; [apply _ | apply preserves_get_world; apply _ |]. intros w0.
  destruct (find_match w0 (scripts folders) _) as [m|]; [|apply print_same_net].
  apply preserves_bind; [apply _ | apply print_same_net |]. intros _.
  apply preserves_bind; [apply _ | apply compute_hash_same_net |]. intros script_hash.
  apply preserves_bind; [apply _ | apply json_load_same_net |]. intros raw_data.
  apply preserves_bind; [apply _ | apply preserves_lift; apply _ |]. intros code.
  apply preserves_bind; [apply _ | apply preserves_lift; apply _ |]. intros code_bytes.
  apply preserves_bind; [apply _ | apply print_same_net |]. intros _.
  apply preserves_if; [|apply preserves_ret; apply _].
  apply preserves_bind; [apply _ | apply print_same_net |]. intros _.
  apply preserves_bind; [apply _ | apply read_text_same_net |]. intros content.
  apply preserves_bind; [apply _ | |].
  { apply preserves_for_each; [apply _ ..|]. intros; apply print_same_net. }
  intros _.
  apply preserves_bind; [apply _ | apply print_same_net |]. intros _.
  apply preserves_bind; [apply _ | |].
  { apply preserves_for_each; [apply _ ..|]. intros; apply print_same_net. }
  intros _.
  apply preserves_bind; [apply _ | apply read_text_same_net |]. intros content'.
  apply preserves_bind; [apply _ | apply preserves_lift; apply _ |]. intros updated_payload.
  apply preserves_try_except; [apply _ | | intros; apply preserves_ret; apply _].
  apply preserves_if.
  - apply preserves_bind; [apply _ | apply print_same_net |]. intros _.
    apply preserves_bind; [apply _ | apply preserves_lift; apply _ |]. intros sid.
    intros w. by rewrite update_api_call_raises.
  - apply preserves_bind; [apply _ | apply print_same_net |]. intros _.
    destruct updated_payload; try (apply preserves_raise; apply _).
    destruct (dict_lookup d "code"); [apply print_same_net | apply preserves_raise; apply _].
Qed.

(** C1 fails on the code: whatever the flags and the files,
    [write_modifications_to_api] sends no request at all, and in the
    installation of the examples, where [foo.ps1] was edited since its
    snapshot was taken, the run with writeback enabled ends in [TypeError]
    at the call of [update_api], before the export. *)
Theorem writeback_sends_no_update :
  (forall E F G base_dir folders token w,
     net (snd (write_modifications_to_api E F G base_dir folders token w)) = net w)
  /\ fst (main (demo_env "DETAIL" "SNIPPETS") wet (Some "https://rmm") (Some "key")
            (Some "repo") demo_edited_world) = Raise TypeError
  /\ net (snd (main (demo_env "DETAIL" "SNIPPETS") wet (Some "https://rmm") (Some "key")
                 (Some "repo") demo_edited_world)) = []
  /\ last (out (snd (main (demo_env "DETAIL" "SNIPPETS") wet (Some "https://rmm") (Some "key")
                       (Some "repo") demo_edited_world)))
     = Some [FS "Updating API for "; FP ["repo"; "scripts"; "foo.ps1"]; FS "..."].
Proof.
  split; [|split; [|split]].
  - intros E F G base_dir folders token.
    change (preserves same_net (write_modifications_to_api E F G base_dir folders token)).
    unfold write_modifications_to_api.
    apply preserves_bind; [apply _ | apply print_same_net |]. intros _.
    apply preserves_bind; [apply _ | apply preserves_get_world; apply _ |]. intros w0.
    apply preserves_for_each; [apply _ ..|]. intros; apply reconcile_one_same_net.
  - vm_compute; reflexivity.
  - vm_compute; reflexivity.
  - vm_compute; reflexivity.
Qed.

(** ** The exporter *)

Lemma relative_to_in_category root cat n :
  relative_to (path_join (in_category root cat) n) root = Ok (rel_category cat ++ [n]).
Proof.
  unfold relative_to, in_category, rel_category, path_join.
  destruct (String.eqb cat ""); simpl.
  - rewrite bool_decide_eq_true_2 by (by apply prefix_app_r).
    by rewrite drop_app_length.
  - rewrite <- app_assoc.
    rewrite bool_decide_eq_true_2 by (by apply prefix_app_r).
    by rewrite drop_app_length.
Qed.

Lemma save_file_Ok E F p c j w w' :
  save_file E F p c j w = (Ok tt, w') ->
  dirs w' = dirs w /\ net w' = net w /\
  if ENABLE_WRITETOFILE F then
    exists s, (if j then VStr (json_dumps E false c) else c) = VStr s
              /\ files w' = <[p := s]> (files w)
  else files w' = files w.
Proof.
  unfold save_file. destruct (ENABLE_WRITETOFILE F).
  - intros H. apply bind_Ok_inv in H as (? & w1 & Hw & Hp).
    unfold print in Hp. injection Hp as <-.
    unfold write_text in Hw.
    destruct (if j then VStr (json_dumps E false c) else c) as [| | |s| |]; try discriminate.
    destruct (is_dir w p || negb (is_dir w (removelast p))); [discriminate|].
    injection Hw as _ <-. unfold set_files; simpl. split; [done|]. split; [done|]. by exists s.
  - unfold print. by intros [= <-].
Qed.

Lemma mkdir_Ok p w w' :
  mkdir p w = (Ok tt, w') ->
  files w' = files w /\ net w' = net w /\ dirs w' = dirs w ∪ list_to_set (ancestors_or_self p).
Proof.
  unfold mkdir. destruct (existsb (is_file w) (ancestors_or_self p)); [discriminate|].
  by intros [= <-].
Qed.

Tactic Notation "inv_bind" hyp(H) "as" ident(a) ident(w) ident(Ha) :=
  apply bind_Ok_inv in H as (a & w & Ha & H).

Tactic Notation "inv_lift" hyp(H) "as" ident(a) ident(Ha) :=
  let w := fresh "w" in
  apply bind_Ok_inv in H as (a & w & Ha & H);
  apply lift_Ok_inv in Ha as [Ha ->].

(** What a turn of the loop that returns has done. *)
Lemma process_scripts_body_Ok E F G sf srf is_snippet s st w st' w' :
  process_scripts_body E F G sf srf is_snippet s st w = (Ok st', w') ->
  exists sid name cat data,
    get s "id" VNone = Ok sid /\ script_name E s = Ok name
    /\ script_category E s = Ok cat /\ payload_of E G is_snippet s = Ok data
    /\ (truthy data = false /\ st' = st
        \/ truthy data = true /\
           exists code shell ext merged,
             get data "code" VNone = Ok code /\ get s "shell" VNone = Ok shell
             /\ ext_of shell = Ok ext /\ merge_payload data s = Ok merged
             /\ st' = (fst st ∪ {[rel_category cat ++ [name +:+ ext]]}
                         ∪ {[rel_category cat ++ [py_str E sid +:+ " - " +:+ name +:+ ".json"]]},
                       if is_snippet then snd st else tally_incr (snd st) shell)
             /\ (ENABLE_WRITETOFILE F = true ->
                 (exists c, code = VStr c)
                 /\ files w' !! (in_category srf cat ++ [py_str E sid +:+ " - " +:+ name +:+ ".json"])
                    = Some (json_dumps E false merged))).
Proof.
  unfold process_scripts_body. intros H.
  inv_lift H as sid Hsid. inv_lift H as name Hname. inv_lift H as cat Hcat.
  inv_bind H as u1 w1 Hmk1. inv_bind H as u2 w2 Hmk2. inv_bind H as data w3 Hdata.
  exists sid, name, cat, data. repeat split; try done.
  { unfold payload_of. destruct is_snippet.
    - unfold ret in Hdata. by injection Hdata as -> _.
    - rewrite Hsid. destruct (fetch_data_fetched E (download_url E G sid) (headers G) w2) as [Hf _].
      rewrite Hdata in Hf. simpl in Hf. by rewrite <- Hf. }
  destruct (truthy data); simpl in H.
  2:{ left. unfold ret in H. by injection H as <- _. }
  right. split; [done|].
  inv_lift H as code Hcode. inv_lift H as shell Hshell. inv_lift H as ext Hext.
  inv_bind H as u3 w4 Hsave1. inv_lift H as merged Hmerged. inv_bind H as u4 w5 Hsave2.
  rewrite !relative_to_in_category in H.
  inv_lift H as e He. injection He as <-.
  inv_lift H as r Hr. injection Hr as <-.
  unfold ret in H. injection H as <- <-.
  exists code, shell, ext, merged. repeat split; try done.
  - destruct u3. apply save_file_Ok in Hsave1 as (_ & _ & Hs). rewrite H in Hs.
    destruct Hs as (c & Hc & _). simpl in Hc. eauto.
  - destruct u4. apply save_file_Ok in Hsave2 as (_ & _ & Hs). rewrite H in Hs.
    destruct Hs as (c & Hc & ->). simpl in Hc. injection Hc as <-.
    unfold raw_name_of, path_join. apply lookup_insert_eq.
Qed.

Lemma process_scripts_body_manifest E F G sf srf is_snippet s st w st' w' :
  process_scripts_body E F G sf srf is_snippet s st w = (Ok st', w') ->
  fst st' = fst st ∪ list_to_set (paths_of E G is_snippet s)
  /\ (exported E G is_snippet s = true -> exists e r, planned_paths E s = Ok (e, r)).
Proof.
  intros H. apply process_scripts_body_Ok in H
    as (sid & name & cat & data & Hsid & Hname & Hcat & Hdata & Hcase).
  unfold paths_of, exported. rewrite Hdata.
  destruct Hcase as [[Ht ->] | [Ht (code & shell & ext & merged & Hcode & Hshell & Hext & _ & -> & _)]];
    rewrite Ht.
  - split; [set_solver | done].
  - assert (Hp : planned_paths E s
                 = Ok (rel_category cat ++ [name +:+ ext],
                       rel_category cat ++ [py_str E sid +:+ " - " +:+ name +:+ ".json"])).
    { unfold planned_paths. by rewrite Hsid, Hname, Hcat, Hshell, Hext. }
    rewrite Hp. split; [simpl; set_solver | eauto].
Qed.

Lemma export_loop_manifest E F G sf srf is_snippet items st w st' w' :
  for_fold items st (process_scripts_body E F G sf srf is_snippet) w = (Ok st', w') ->
  fst st' = fst st ∪ list_to_set (manifest_of E G is_snippet items)
  /\ Forall (fun s => exported E G is_snippet s = true ->
                      exists e r, planned_paths E s = Ok (e, r)) items.
Proof.
  revert st w. induction items as [|s items IH]; intros st w H; simpl in H.
  - unfold ret in H. injection H as <- _. split; [set_solver | constructor].
  - inv_bind H as st1 w1 Hb.
    apply process_scripts_body_manifest in Hb as [Hst1 Hp].
    apply IH in H as [Hst' Hall]. split; [|by constructor].
    rewrite Hst', Hst1. unfold manifest_of. simpl. rewrite list_to_set_app_L.
    by rewrite (assoc_L (∪)).
Qed.

(** What a run of [process_scripts] that returns has recorded and printed. *)
Lemma process_scripts_Ok E F G v sf srf tally is_snippet w st w' :
  process_scripts E F G v sf srf tally is_snippet w = (Ok st, w') ->
  exists items,
    iterate v = Ok items
    /\ fst st = list_to_set (manifest_of E G is_snippet items)
    /\ Forall (fun s => exported E G is_snippet s = true ->
                        exists e r, planned_paths E s = Ok (e, r)) items
    /\ last (out w') = Some [FS "Processed "; FN (size (fst st)); FS " ";
                             FS (kind_word is_snippet "snippets" "scripts"); FS "."].
Proof.
  unfold process_scripts. intros H.
  inv_bind H as u1 w1 Hp1. inv_lift H as items Hit. inv_bind H as st1 w2 Hloop.
  inv_bind H as u2 w3 Hp2. unfold ret in H. injection H as <- <-.
  exists items. apply export_loop_manifest in Hloop as [Hm Hall].
  repeat split; try done.
  - rewrite Hm. simpl. set_solver.
  - unfold print in Hp2. injection Hp2 as _ <-. simpl. by rewrite last_snoc.
Qed.

Lemma manifest_of_length E G is_snippet items :
  Forall (fun s => exported E G is_snippet s = true ->
                   exists e r, planned_paths E s = Ok (e, r)) items ->
  length (manifest_of E G is_snippet items) = 2 * exported_count E G is_snippet items.
Proof.
  unfold manifest_of, exported_count. induction 1 as [|s items Hs _ IH]; [done|].
  simpl. rewrite length_app, IH, filter_cons. unfold paths_of.
  destruct (decide (exported E G is_snippet s = true)) as [He|He].
  - rewrite He. destruct (Hs He) as (e & r & ->). simpl. lia.
  - apply not_true_is_false in He. rewrite He. simpl. lia.
Qed.

Lemma returns_eta {A} (m : result A * world) (d : A) :
  is_Ok (fst m) = true -> m = (Ok (value_of (fst m) d), snd m).
Proof. destruct m as [[a|e] w]; simpl; [done | discriminate]. Qed.




Lemma save_file_raises_on_non_string E F p c w :
  ENABLE_WRITETOFILE F = true ->
  (forall s, c <> VStr s) ->
  save_file E F p c false w = (Raise TypeError, w).
Proof.
  intros HF Hc. unfold save_file, bind, write_text. rewrite HF.
  destruct c; try done. by destruct (Hc s).
Qed.

(** C10: the script [foo] whose download is the non-empty payload
    [{"id": 1}], without a [code] field.  With writing enabled the export
    raises [TypeError] ([write_text] is handed [None]), nothing catches it
    and [main] ends with it, no file written; the same export on a dry run
    returns. *)
Theorem export_raises_on_payload_without_code :
  payload_of (demo_env "DETAIL-WITHOUT-CODE" "NONE") demo_globals false demo_script
    = Ok (VDict [("id", VInt 1)])
  /\ truthy (VDict [("id", VInt 1)]) = true
  /\ get (VDict [("id", VInt 1)]) "code" VNone = Ok VNone
  /\ fst (process_scripts (demo_env "DETAIL-WITHOUT-CODE" "NONE") wet demo_globals
            (VList [demo_script]) ["repo"; "scripts"] ["repo"; "scriptsraw"] [] false demo_world)
     = Raise TypeError
  /\ fst (main (demo_env "DETAIL-WITHOUT-CODE" "NONE") wet (Some "https://rmm") (Some "key")
            (Some "repo") demo_world)
     = Raise TypeError
  /\ map_to_list (files (snd (main (demo_env "DETAIL-WITHOUT-CODE" "NONE") wet
                                 (Some "https://rmm") (Some "key") (Some "repo") demo_world)))
     = []
  /\ is_Ok (fst (process_scripts (demo_env "DETAIL-WITHOUT-CODE" "NONE") dry demo_globals
                   (VList [demo_script]) ["repo"; "scripts"] ["repo"; "scriptsraw"] [] false
                   demo_world))
     = true.
Proof. repeat (split; [vm_compute; reflexivity|]). vm_compute; reflexivity. Qed.

(** ** Dry runs of the export *)

#[local] Instance same_files_refl : Reflexive same_files.
Proof. by intros w. Qed.

#[local] Instance same_files_trans : Transitive same_files.
Proof. intros a b c Hab Hbc. unfold same_files in *. congruence. Qed.

Lemma print_same_files line : preserves same_files (print line).
Proof. by intros w. Qed.

Lemma mkdir_same_files p : preserves same_files (mkdir p).
Proof. intros w. unfold mkdir. by destruct (existsb _ _). Qed.

Lemma fetch_data_same_files E url hd : preserves same_files (fetch_data E url hd).
Proof. intros w. apply fetch_data_fetched. Qed.

Lemma save_file_dry_same_files E F p c j :
  ENABLE_WRITETOFILE F = false -> preserves same_files (save_file E F p c j).
Proof. intros HF w. unfold save_file. by rewrite HF. Qed.

Lemma process_scripts_body_dry_same_files E F G sf srf is_snippet s st :
  ENABLE_WRITETOFILE F = false ->
  preserves same_files (process_scripts_body E F G sf srf is_snippet s st).
Proof.
  intros HF. unfold process_scripts_body.
  do 3 (apply preserves_bind; [apply _ | apply preserves_lift; apply _ | intros ?]).
  do 2 (apply preserves_bind; [apply _ | apply mkdir_same_files | intros ?]).
  apply preserves_bind; [apply _ | |intros data].
  { destruct is_snippet; [apply preserves_ret; apply _ | apply fetch_data_same_files]. }
  apply preserves_if; [apply preserves_ret; apply _|].
  do 3 (apply preserves_bind; [apply _ | apply preserves_lift; apply _ | intros ?]).
  apply preserves_bind; [apply _ | by apply save_file_dry_same_files | intros ?].
  apply preserves_bind; [apply _ | apply preserves_lift; apply _ | intros ?].
  apply preserves_bind; [apply _ | by apply save_file_dry_same_files | intros ?].
  do 2 (apply preserves_bind; [apply _ | apply preserves_lift; apply _ | intros ?]).
  apply preserves_ret; apply _.
Qed.

Lemma process_scripts_dry_same_files E F G v sf srf tally is_snippet :
  ENABLE_WRITETOFILE F = false ->
  preserves same_files (process_scripts E F G v sf srf tally is_snippet).
Proof.
  intros HF. unfold process_scripts.
  apply preserves_bind; [apply _ | apply print_same_files | intros ?].
  apply preserves_bind; [apply _ | apply preserves_lift; apply _ | intros items].
  apply preserves_bind; [apply _ | | intros st].
  { apply preserves_for_fold; [apply _ ..|]. intros.
    by apply process_scripts_body_dry_same_files. }
  apply preserves_bind; [apply _ | apply print_same_files | intros ?].
  apply preserves_ret; apply _.
Qed.

Lemma follows_bind {A B} (md mw : M A) (kd kw : A -> M B) :
  follows md mw -> (forall a, follows (kd a) (kw a)) -> follows (bind md kd) (bind mw kw).
Proof.
  intros Hm Hk wd ww b ww' Hb H.
  inv_bind H as a w1 Hmw.
  destruct (Hm _ _ _ _ Hb Hmw) as (wd1 & Hmd & Hb1).
  destruct (Hk a _ _ _ _ Hb1 H) as (wd' & Hkd & Hb').
  exists wd'. split; [|done]. by rewrite (bind_run _ _ _ _ _ Hmd).
Qed.

Lemma follows_ret {A} (a : A) : follows (ret a) (ret a).
Proof. intros wd ww a' ww' Hb [= <- <-]. by exists wd. Qed.

Lemma follows_lift {A} (r : result A) : follows (lift r) (lift r).
Proof. intros wd ww a ww' Hb H. apply lift_Ok_inv in H as [-> ->]. by exists wd. Qed.

Lemma follows_print line : follows (print line) (print line).
Proof. intros wd ww a ww' Hb [= <- <-]. eexists. split; [reflexivity | done]. Qed.

Lemma follows_if {A} (b : bool) (md1 md2 mw1 mw2 : M A) :
  follows md1 mw1 -> follows md2 mw2 ->
  follows (if b then md1 else md2) (if b then mw1 else mw2).
Proof. by destruct b. Qed.

Lemma follows_for_fold {A S} (l : list A) (s : S) bd bw :
  (forall x s', follows (bd x s') (bw x s')) -> follows (for_fold l s bd) (for_fold l s bw).
Proof.
  intros Hb. revert s. induction l as [|x l IH]; intros s; simpl.
  - apply follows_ret.
  - apply follows_bind; [apply Hb | intros; apply IH].
Qed.

Lemma behind_is_file wd ww p : behind wd ww -> is_file wd p = true -> is_file ww p = true.
Proof.
  intros [_ Hsub]. unfold is_file. rewrite !bool_decide_eq_true, <- !elem_of_dom. apply Hsub.
Qed.

Lemma follows_mkdir p : follows (mkdir p) (mkdir p).
Proof.
  intros wd ww [] ww' Hb H. unfold mkdir in *.
  destruct (existsb (is_file ww) (ancestors_or_self p)) eqn:Hw; [discriminate|].
  injection H as <-.
  assert (Hd : existsb (is_file wd) (ancestors_or_self p) = false).
  { apply not_true_is_false. intros He. apply existsb_exists in He as (q & Hq & Hf).
    assert (existsb (is_file ww) (ancestors_or_self p) = true); [|congruence].
    apply existsb_exists. exists q. split; [done|]. by eapply behind_is_file. }
  rewrite Hd. eexists. split; [reflexivity|].
  destruct Hb as [Hdirs Hsub]. split; simpl; [by rewrite Hdirs | done].
Qed.

Lemma follows_fetch_data E url hd : follows (fetch_data E url hd) (fetch_data E url hd).
Proof.
  intros wd ww a ww' [Hdirs Hsub] H.
  destruct (fetch_data_fetched E url hd ww) as (Hr & Hf & Hd & _).
  destruct (fetch_data_fetched E url hd wd) as (Hr' & Hf' & Hd' & _).
  rewrite H in Hr, Hf, Hd. simpl in *.
  destruct (fetch_data E url hd wd) as [r wd'] eqn:Hrun. simpl in *.
  exists wd'. split; [congruence|].
  split; [congruence|]. by rewrite Hf, Hf'.
Qed.

Lemma follows_save_file E Fd Fw p c j :
  ENABLE_WRITETOFILE Fd = false -> follows (save_file E Fd p c j) (save_file E Fw p c j).
Proof.
  intros HF wd ww [] ww' [Hdirs Hsub] H.
  apply save_file_Ok in H as (Hd & _ & Hf).
  unfold save_file at 1. rewrite HF. eexists. split; [reflexivity|].
  split; simpl; [congruence|].
  destruct (ENABLE_WRITETOFILE Fw).
  - destruct Hf as (s & _ & ->). rewrite dom_insert. set_solver.
  - by rewrite Hf.
Qed.

Lemma follows_process_scripts E Fd Fw G v sf srf tally is_snippet :
  ENABLE_WRITETOFILE Fd = false ->
  follows (process_scripts E Fd G v sf srf tally is_snippet)
          (process_scripts E Fw G v sf srf tally is_snippet).
Proof.
  intros HF. unfold process_scripts.
  apply follows_bind; [apply follows_print | intros ?].
  apply follows_bind; [apply follows_lift | intros items].
  apply follows_bind; [|intros st].
  2:{ apply follows_bind; [apply follows_print | intros; apply follows_ret]. }
  apply follows_for_fold. intros s st. unfold process_scripts_body.
  do 3 (apply follows_bind; [apply follows_lift | intros ?]).
  do 2 (apply follows_bind; [apply follows_mkdir | intros ?]).
  apply follows_bind; [|intros data].
  { destruct is_snippet; [apply follows_ret | apply follows_fetch_data]. }
  apply follows_if; [apply follows_ret|].
  do 3 (apply follows_bind; [apply follows_lift | intros ?]).
  apply follows_bind; [by apply follows_save_file | intros ?].
  apply follows_bind; [apply follows_lift | intros ?].
  apply follows_bind; [by apply follows_save_file | intros ?].
  do 2 (apply follows_bind; [apply follows_lift | intros ?]).
  apply follows_ret.
Qed.

Lemma behind_refl w : behind w w.
Proof. by split. Qed.

Lemma elem_of_manifest_of E G is_snippet items s x :
  s ∈ items -> x ∈ paths_of E G is_snippet s -> x ∈ manifest_of E G is_snippet items.
Proof.
  unfold manifest_of. induction 1 as [s items | s s' items _ IH]; intros Hx; simpl;
    apply elem_of_app; [by left | right; by apply IH].
Qed.



(** ** The pruner *)

Lemma has_entry_spec w d :
  has_entry w d = true <->
  exists q, (is_Some (files w !! q) \/ q ∈ dirs w) /\ removelast q = d /\ q <> [].
Proof.
  unfold has_entry, entries. rewrite existsb_exists. split.
  - intros (q & Hq & Hd). apply list_elem_of_In, elem_of_elements, elem_of_union in Hq.
    apply bool_decide_eq_true in Hd. exists q. split; [|done].
    destruct Hq as [Hq|Hq]; [left; by apply elem_of_dom | by right].
  - intros (q & Hq & Hd). exists q. split; [|by apply bool_decide_eq_true].
    apply list_elem_of_In, elem_of_elements, elem_of_union.
    destruct Hq as [Hq|Hq]; [left; by apply elem_of_dom | by right].
Qed.

Lemma child_length (q d : path) : removelast q = d -> q <> [] -> length q = S (length d).
Proof.
  intros <- Hq. destruct (exists_last Hq) as (l & x & ->).
  rewrite removelast_last, length_app. simpl. lia.
Qed.

Lemma child_below (root q d : path) :
  removelast q = d -> q <> [] -> below root d = true -> below root q = true.
Proof.
  intros <- Hq. destruct (exists_last Hq) as (l & x & ->). rewrite removelast_last.
  unfold below. rewrite !andb_true_iff, !bool_decide_eq_true. intros [Hp Hne]. split.
  - by apply prefix_app_r.
  - intros <-. apply prefix_length in Hp. rewrite length_app in Hp. simpl in Hp. lia.
Qed.

Lemma elem_of_rglob_star w folder q :
  q ∈ rglob w folder star <->
  (is_Some (files w !! q) \/ q ∈ dirs w) /\ below folder q = true.
Proof.
  unfold rglob, entries, star. rewrite list_elem_of_filter, elem_of_elements, elem_of_union, elem_of_dom.
  rewrite andb_true_r. unfold Is_true. destruct (below folder q); naive_solver.
Qed.

(** One turn of the loop over the obsolete files. *)
Lemma unlink_turn E f w :
  exists w',
    try_except (unlink (may_unlink E) f ;;; print [FS "Deleted: "; FP f]) is_Exception
      (fun e => print [FS "Error deleting "; FP f; FS ": "; FE e]) w = (Ok tt, w')
    /\ dirs w' = dirs w
    /\ files w' = if may_unlink E f then delete f (files w) else files w.
Proof.
  unfold try_except, bind, unlink, print.
  destruct (is_file w f) eqn:Hf; destruct (may_unlink E f) eqn:Hm; simpl;
    eexists; (split; [reflexivity|]); split; try done. simpl.
  symmetry. apply delete_id.
  unfold is_file in Hf. apply bool_decide_eq_false in Hf.
  by apply eq_None_not_Some.
Qed.

Lemma unlink_loop E (l : list path) w :
  exists w',
    for_each l (fun f =>
      try_except (unlink (may_unlink E) f ;;; print [FS "Deleted: "; FP f]) is_Exception
        (fun e => print [FS "Error deleting "; FP f; FS ": "; FE e])) w = (Ok tt, w')
    /\ dirs w' = dirs w
    /\ forall p, files w' !! p
                 = if bool_decide (p ∈ l /\ may_unlink E p = true) then None else files w !! p.
Proof.
  unfold for_each. revert w. induction l as [|f l IH]; intros w; simpl.
  - exists w. by repeat split.
  - destruct (unlink_turn E f w) as (w1 & Hrun & Hd1 & Hf1).
    destruct (IH w1) as (w' & Hloop & Hd & Hf).
    exists w'. split; [by rewrite (bind_run _ _ _ _ _ Hrun)|].
    split; [congruence|]. intros p. rewrite Hf, Hf1.
    destruct (decide (p = f)) as [->|Hne].
    + destruct (may_unlink E f) eqn:Hm.
      * rewrite lookup_delete_eq. rewrite (bool_decide_eq_true_2 (f ∈ f :: l /\ _));
          [by case_bool_decide | split; [left | done]].
      * rewrite !bool_decide_eq_false_2; naive_solver.
    + assert (Hdel : (if may_unlink E f then delete f (files w) else files w) !! p = files w !! p).
      { destruct (may_unlink E f); [by apply lookup_delete_ne | done]. }
      rewrite Hdel.
      rewrite (bool_decide_ext (p ∈ f :: l /\ may_unlink E p = true)
                 (p ∈ l /\ may_unlink E p = true)); [done|].
      rewrite elem_of_cons. naive_solver.
Qed.

Lemma rmdir_turn_spec E d w :
  exists w',
    rmdir_turn E d w = (Ok tt, w')
    /\ files w' = files w
    /\ (dirs w' = dirs w \/ dirs w' = dirs w ∖ {[d]})
    /\ (d ∈ dirs w' -> may_rmdir E d = true -> has_entry w d = true).
Proof.
  unfold rmdir_turn, bind, get_world, try_except, rmdir, print, ret. simpl.
  destruct (is_dir w d) eqn:Hd; destruct (has_entry w d) eqn:He; simpl;
    try (exists w; repeat split; auto; fail).
  - destruct (bool_decide (d ∈ dirs w)) eqn:Hin; simpl.
    2:{ eexists. split; [reflexivity|]. simpl. repeat split; auto.
        intros Hd'. apply bool_decide_eq_false in Hin. done. }
    destruct (may_rmdir E d) eqn:Hm; rewrite ?He; simpl.
    + eexists. split; [reflexivity|]. simpl. repeat split; auto. set_solver.
    + eexists. split; [reflexivity|]. simpl. repeat split; auto.
  - exists w. repeat split; auto. intros Hin. unfold is_dir in Hd.
    apply bool_decide_eq_false in Hd. naive_solver.
Qed.

Lemma rmdir_loop E (l : list path) w :
  StronglySorted deeper_first l ->
  exists w',
    for_each l (rmdir_turn E) w = (Ok tt, w')
    /\ files w' = files w
    /\ dirs w' ⊆ dirs w
    /\ (forall d, d ∈ dirs w -> d ∉ l -> d ∈ dirs w')
    /\ (forall d, d ∈ l -> d ∈ dirs w' -> may_rmdir E d = true -> has_entry w' d = true).
Proof.
  unfold for_each. intros Hs. revert w.
  induction Hs as [|e l _ IH Hall]; intros w; simpl.
  - exists w. repeat split; auto. intros d Hd. by apply elem_of_nil in Hd.
  - destruct (rmdir_turn_spec E e w) as (w1 & Hrun & Hf1 & Hd1 & He1).
    destruct (IH w1) as (w' & Hloop & Hf & Hsub & Hkeep & Hfull).
    assert (Hsub1 : dirs w1 ⊆ dirs w) by (destruct Hd1 as [-> | ->]; set_solver).
    exists w'. split; [by rewrite (bind_run _ _ _ _ _ Hrun)|].
    split; [congruence|]. split; [set_solver|]. split.
    + intros d Hd Hnl. apply not_elem_of_cons in Hnl as [Hne Hnl].
      apply Hkeep; [|done]. destruct Hd1 as [-> | ->]; set_solver.
    + intros d Hd Hd' Hm. apply elem_of_cons in Hd as [-> | Hd]; [|by apply Hfull].
      assert (Hin1 : e ∈ dirs w1) by set_solver.
      specialize (He1 Hin1 Hm). apply has_entry_spec in He1 as (q & Hq & Hr & Hne).
      apply has_entry_spec. exists q. split; [|done].
      destruct Hq as [Hq | Hq]; [left; congruence | right].
      pose proof (child_length q e Hr Hne) as Hlen.
      apply Hkeep.
      * destruct Hd1 as [-> | ->]; [done|]. apply elem_of_difference. split; [done|].
        intros ->%elem_of_singleton. lia.
      * intros Hql. rewrite Forall_forall in Hall. specialize (Hall q Hql).
        unfold deeper_first in Hall. lia.
Qed.

#[local] Instance deeper_first_trans : Transitive deeper_first.
Proof. intros a b c. unfold deeper_first. lia. Qed.

#[local] Instance deeper_first_total : Total deeper_first.
Proof. intros a b. unfold deeper_first. lia. Qed.

Lemma relative_to_below folder p :
  below folder p = true -> relative_to p folder = Ok (drop (length folder) p).
Proof.
  unfold below, relative_to. intros [Hp _]%andb_true_iff. by rewrite Hp.
Qed.

(** What [delete_obsolete_files] does to one folder: it always returns; a
    file goes exactly when it lies below the folder, its relative path is
    not in the set it was handed, and it can be unlinked; no directory
    outside the folder goes, and no directory below the folder that can be
    removed is left empty. *)
Lemma delete_obsolete_files_spec E folder current w :
  exists w',
    delete_obsolete_files E folder current w = (Ok tt, w')
    /\ (forall p, files w' !! p
                  = if bool_decide (below folder p = true /\ (drop (length folder) p ∉ current)
                                    /\ may_unlink E p = true)
                    then None else files w !! p)
    /\ dirs w' ⊆ dirs w
    /\ (forall d, d ∈ dirs w -> below folder d = false -> d ∈ dirs w')
    /\ (forall d, below folder d = true -> d ∈ dirs w' -> may_rmdir E d = true ->
                  has_entry w' d = true).
Proof.
  unfold delete_obsolete_files.
  set (w0 := World (files w) (dirs w) (out w ++ [[FS "Cleaning "; FP folder; FS "..."]]) (net w)).
  destruct (unlink_loop E
              (filter (fun f => is_obsolete w0 folder current f) (rglob w0 folder star)) w0)
    as (w1 & Hrun1 & Hd1 & Hf1).
  destruct (rmdir_loop E (merge_sort deeper_first (rglob w1 folder star)) w1)
    as (w' & Hrun2 & Hf2 & Hsub & Hkeep & Hfull).
  { apply StronglySorted_merge_sort; apply _. }
  exists w'. split.
  { unfold bind at 1. unfold print at 1. fold w0.
    unfold bind at 1. unfold get_world at 1.
    rewrite (bind_run _ _ _ _ _ Hrun1).
    unfold bind at 1. unfold get_world at 1. exact Hrun2. }
  split; [|split; [|split]].
  - intros p. rewrite Hf2, Hf1. simpl.
    destruct (files w !! p) as [c|] eqn:Hp; [|by case_bool_decide; case_bool_decide].
    apply (f_equal (fun b : bool => if b then None else Some c)).
    apply bool_decide_ext. rewrite list_elem_of_filter, elem_of_rglob_star. simpl.
    unfold is_obsolete, is_file. simpl. rewrite Hp.
    rewrite (bool_decide_eq_true_2 (is_Some (Some c))) by eauto. simpl.
    split.
    + intros [[Hob [_ Hb]] Hm]. rewrite (relative_to_below _ _ Hb) in Hob.
      apply Is_true_true, bool_decide_eq_true in Hob. done.
    + intros (Hb & Hn & Hm). rewrite (relative_to_below _ _ Hb).
      split; [|done]. split; [by apply Is_true_true, bool_decide_eq_true | eauto].
  - rewrite Hd1 in Hsub. exact Hsub.
  - intros d Hd Hb. apply Hkeep; [by rewrite Hd1|].
    rewrite merge_sort_Permutation, elem_of_rglob_star. intros [_ Hb']. congruence.
  - intros d Hb Hd Hm. apply Hfull; [|done..].
    rewrite merge_sort_Permutation, elem_of_rglob_star. split; [|done]. right. by apply Hsub.
Qed.

(** The folders of [main] are side by side: nothing lies below two of them. *)
Lemma main_folders_disjoint base r r' p :
  r ∈ folders_values (main_folders base) -> r' ∈ folders_values (main_folders base) ->
  below r p = true -> below r' p = true -> r = r'.
Proof.
  assert (Hname : forall x, x ∈ folders_values (main_folders base) -> exists a, x = base ++ [a]).
  { intros x Hx. unfold folders_values, main_folders, path_join in Hx. simpl in Hx.
    repeat (apply elem_of_cons in Hx as [-> | Hx]; [eauto|]). by apply elem_of_nil in Hx. }
  intros (a & ->)%Hname (b & ->)%Hname.
  unfold below. rewrite !andb_true_iff, !bool_decide_eq_true.
  intros [[k ->] _] [[k' Hk] _].
  rewrite <- !app_assoc in Hk. apply app_inv_head in Hk. simpl in Hk. congruence.
Qed.

(** The loop of [main] over folders that lie side by side. *)
Lemma prune_loop_spec E (roots : list path) current w :
  (forall r r' p, r ∈ roots -> r' ∈ roots -> below r p = true -> below r' p = true -> r = r') ->
  exists w',
    for_each roots (fun folder => delete_obsolete_files E folder current) w = (Ok tt, w')
    /\ (forall p,
          (forall r, r ∈ roots -> below r p = true ->
                     drop (length r) p ∈ current \/ may_unlink E p = false) ->
          files w' !! p = files w !! p)
    /\ (forall r p, r ∈ roots -> below r p = true -> drop (length r) p ∉ current ->
                    may_unlink E p = true -> files w' !! p = None)
    /\ dirs w' ⊆ dirs w
    /\ (forall d, d ∈ dirs w -> (forall r, r ∈ roots -> below r d = false) -> d ∈ dirs w')
    /\ (forall r d, r ∈ roots -> below r d = true -> d ∈ dirs w' -> may_rmdir E d = true ->
                    has_entry w' d = true).
Proof.
  unfold for_each. revert w. induction roots as [|f roots IH]; intros w Hdis; simpl.
  - exists w. repeat split; auto; intros; exfalso; eapply elem_of_nil; eauto.
  - destruct (delete_obsolete_files_spec E f current w) as (w1 & Hrun & Hf1 & Hsub1 & Hkeep1 & Hfull1).
    destruct (IH w1) as (w' & Hloop & Hsame & Hgone & Hsub & Hkeep & Hfull).
    { intros r r' p Hr Hr'. apply Hdis; by right. }
    assert (Hout : f ∉ roots -> forall q, below f q = true ->
                   forall r, r ∈ roots -> below r q = false).
    { intros Hnf q Hq r Hr. apply not_true_is_false. intros Hrq.
      apply Hnf. rewrite (Hdis f r q); [done | by left | by right | done..]. }
    exists w'. split; [by rewrite (bind_run _ _ _ _ _ Hrun)|].
    split; [|split; [|split; [|split]]].
    + intros p Hp. rewrite Hsame by (intros; apply Hp; [by right | done]).
      rewrite Hf1. case_bool_decide as Hc; [|done].
      destruct Hc as (Hb & Hn & Hm). destruct (Hp f) as [?|?]; [by left | done | done | congruence].
    + intros r p Hr Hb Hn Hm. apply elem_of_cons in Hr as [-> | Hr]; [|by eapply Hgone].
      destruct (decide (f ∈ roots)) as [Hin | Hnin]; [by eapply Hgone|].
      rewrite Hsame.
      * rewrite Hf1. by rewrite bool_decide_eq_true_2.
      * intros r Hr Hrp. rewrite (Hout Hnin p Hb r Hr) in Hrp. discriminate.
    + set_solver.
    + intros d Hd Hnb. apply Hkeep.
      * apply Hkeep1; [done|]. apply Hnb. by left.
      * intros r Hr. apply Hnb. by right.
    + intros r d Hr Hb Hd Hm. apply elem_of_cons in Hr as [-> | Hr]; [|by eapply Hfull].
      destruct (decide (f ∈ roots)) as [Hin | Hnin]; [by eapply Hfull|].
      assert (Hd1 : d ∈ dirs w1) by set_solver.
      specialize (Hfull1 d Hb Hd1 Hm). apply has_entry_spec in Hfull1 as (q & Hq & Hqd & Hne).
      apply has_entry_spec. exists q. split; [|done].
      pose proof (child_below f q d Hqd Hne Hb) as Hbq.
      destruct Hq as [Hq | Hq].
      * left. rewrite Hsame; [done|].
        intros r Hr Hrq. rewrite (Hout Hnin q Hbq r Hr) in Hrq. discriminate.
      * right. apply Hkeep; [done|]. by apply Hout.
Qed.

(** ** [main] *)

Lemma fetch_data_Ok E url hd w v w' :
  fetch_data E url hd w = (Ok v, w') -> fetched E url hd = Ok v /\ files w' = files w.
Proof.
  intros H. destruct (fetch_data_fetched E url hd w) as (Hr & Hf & _).
  rewrite H in Hr, Hf. by simpl in *.
Qed.

(** What a run of the export step of [main] that returns has recorded. *)
Lemma main_export_Ok E F G folders w st w' :
  main_export E F G folders w = (Ok st, w') ->
  exists scripts_items snippet_items,
    listed_scripts E G = Ok scripts_items
    /\ listed_snippets E G = Ok snippet_items
    /\ fst st = list_to_set (manifest_of E G false scripts_items
                             ++ manifest_of E G true snippet_items)
    /\ Forall (fun s => exported E G false s = true ->
                        exists e r, planned_paths E s = Ok (e, r)) scripts_items
    /\ Forall (fun s => exported E G true s = true ->
                        exists e r, planned_paths E s = Ok (e, r)) snippet_items.
Proof.
  unfold main_export. intros H.
  inv_bind H as u1 w1 Hp1. inv_bind H as listed w2 Hfetch1.
  inv_lift H as items Hitems. inv_lift H as uds Huds.
  inv_bind H as st1 w3 Hps1. inv_bind H as u2 w4 Hp2.
  inv_bind H as snippets_v w5 Hfetch2. inv_bind H as st2 w6 Hps2.
  unfold ret in H. injection H as <- <-.
  apply fetch_data_Ok in Hfetch1 as [Hl1 _]. apply fetch_data_Ok in Hfetch2 as [Hl2 _].
  apply process_scripts_Ok in Hps1 as (items1 & Hit1 & Hm1 & Hall1 & _).
  apply process_scripts_Ok in Hps2 as (items2 & Hit2 & Hm2 & Hall2 & _).
  simpl in Hit1. injection Hit1 as <-.
  exists uds, items2. repeat split; try done.
  - unfold listed_scripts. by rewrite Hl1, Hitems.
  - unfold listed_snippets. by rewrite Hl2.
  - simpl. by rewrite Hm1, Hm2, list_to_set_app_L.
Qed.

Lemma main_export_dry_same_files E F G folders :
  ENABLE_WRITETOFILE F = false -> preserves same_files (main_export E F G folders).
Proof.
  intros HF. unfold main_export.
  apply preserves_bind; [apply _ | apply print_same_files | intros ?].
  apply preserves_bind; [apply _ | apply fetch_data_same_files | intros ?].
  do 2 (apply preserves_bind; [apply _ | apply preserves_lift; apply _ | intros ?]).
  apply preserves_bind; [apply _ | by apply process_scripts_dry_same_files | intros ?].
  apply preserves_bind; [apply _ | apply print_same_files | intros ?].
  apply preserves_bind; [apply _ | apply fetch_data_same_files | intros ?].
  apply preserves_bind; [apply _ | by apply process_scripts_dry_same_files | intros ?].
  apply preserves_ret; apply _.
Qed.

(** A run of [main] that returns went through the export, and its last
    two lines are the total and the shell summary. *)
Lemma main_Ok E F d t sp w w' :
  main E F d t sp w = (Ok tt, w') ->
  exists dom tok spath w1 st w2,
    d = Some dom /\ t = Some tok /\ sp = Some spath
    /\ main_export E F (Globals dom [("X-API-KEY", tok)]) (main_folders (resolve E spath)) w1
       = (Ok st, w2)
    /\ exists pre summary,
         out w' = pre ++ [[FS "Total number of scripts exported: "; FN (size (fst st))]; summary].
Proof.
  unfold main. intros H.
  destruct (negb (nonempty_env d && nonempty_env t && nonempty_env sp)) eqn:Henv.
  { inv_bind H as u w1 Hp. discriminate. }
  destruct d as [dom|], t as [tok|], sp as [spath|]; simpl in Henv;
    rewrite ?andb_false_r in Henv; try discriminate.
  simpl in H.
  inv_bind H as u1 w1 Hmk. inv_bind H as u2 w2 Hpull. inv_bind H as u3 w3 Hrec.
  inv_bind H as st w4 Hexp. inv_bind H as u4 w5 Hprune. inv_bind H as u5 w6 Hpush.
  inv_bind H as u6 w7 Htotal.
  exists dom, tok, spath, w3, st, w4. repeat split; try done.
  unfold print in Htotal, H. injection Htotal as _ <-. injection H as <-. simpl.
  eexists _, _. rewrite <- app_assoc. reflexivity.
Qed.

(** ** The claims about the prune stage and the totals *)

(** C2, as the code has it: the Manifest is one set for the whole run, the
    union of the paths recorded for the scripts and for the snippets, and
    each root is pruned against all of it.  After the Prune stage, a file
    under a root is left, as it was, exactly when its root-relative path is
    in that set (or it cannot be unlinked); every other file under the root
    is gone. *)
Theorem prune_keeps_the_combined_manifest E F G base w0 st w root p :
  main_export E F G (main_folders base) w0 = (Ok st, w) ->
  root ∈ folders_values (main_folders base) ->
  below root p = true ->
  (exists scripts_items snippet_items,
     listed_scripts E G = Ok scripts_items /\ listed_snippets E G = Ok snippet_items
     /\ fst st = list_to_set (manifest_of E G false scripts_items)
                 ∪ list_to_set (manifest_of E G true snippet_items))
  /\ fst (main_prune E (main_folders base) (fst st) w) = Ok tt
  /\ files (snd (main_prune E (main_folders base) (fst st) w)) !! p
     = if bool_decide (drop (length root) p ∈ fst st \/ may_unlink E p = false)
       then files w !! p else None.
Proof.
  intros Hexp Hroot Hb. split.
  { apply main_export_Ok in Hexp as (l1 & l2 & H1 & H2 & Hm & _).
    exists l1, l2. by rewrite Hm, list_to_set_app_L. }
  unfold main_prune.
  destruct (prune_loop_spec E (folders_values (main_folders base)) (fst st) w)
    as (w' & Hrun & Hsame & Hgone & _).
  { apply main_folders_disjoint. }
  rewrite Hrun. simpl. split; [done|].
  case_bool_decide as Hc.
  - apply Hsame. intros r Hr Hrp.
    by rewrite (main_folders_disjoint base r root p Hr Hroot Hrp Hb).
  - apply (Hgone root p Hroot Hb).
    + intros Hin. apply Hc. by left.
    + apply not_false_is_true. intros Hm. apply Hc. by right.
Qed.

Lemma prune_keeps_the_combined_manifest_witness :
  (exists scripts_items snippet_items,
     listed_scripts (demo_env "DETAIL" "SNIPPETS") demo_globals = Ok scripts_items
     /\ listed_snippets (demo_env "DETAIL" "SNIPPETS") demo_globals = Ok snippet_items
     /\ fst (value_of (fst demo_export) (∅, []))
        = list_to_set (manifest_of (demo_env "DETAIL" "SNIPPETS") demo_globals false scripts_items)
          ∪ list_to_set (manifest_of (demo_env "DETAIL" "SNIPPETS") demo_globals true snippet_items))
  /\ fst demo_prune = Ok tt
  /\ files (snd demo_prune) !! ["repo"; "snippets"; "old"; "gone.py"]
     = if bool_decide (drop (length ["repo"; "snippets"]) ["repo"; "snippets"; "old"; "gone.py"]
                         ∈ fst (value_of (fst demo_export) (∅, []))
                       \/ may_unlink (demo_env "DETAIL" "SNIPPETS") ["repo"; "snippets"; "old"; "gone.py"]
                          = false)
       then files (snd demo_export) !! ["repo"; "snippets"; "old"; "gone.py"] else None.
Proof.
  apply (prune_keeps_the_combined_manifest (demo_env "DETAIL" "SNIPPETS") simulate demo_globals
           ["repo"] demo_edited_world (value_of (fst demo_export) (∅, [])) (snd demo_export)
           ["repo"; "snippets"] ["repo"; "snippets"; "old"; "gone.py"]).
  - apply (returns_eta demo_export). vm_compute. reflexivity.
  - vm_compute. do 2 right. left.
  - vm_compute. reflexivity.
Defined.

(** C2, as the specification states it, fails: no snippet of the server is named
    [foo], so [foo.ps1] is no member of the Manifest of the snippets, yet
    the stale file [snippets/foo.ps1] is still there after the run, because
    the script [foo] put [foo.ps1] into the one set all roots are pruned
    against. *)
Lemma stale_snippet_file_survives_prune :
  listed_snippets (demo_env "DETAIL" "SNIPPETS") demo_globals = Ok [demo_snippet]
  /\ manifest_of (demo_env "DETAIL" "SNIPPETS") demo_globals true [demo_snippet]
     = [["bar.py"]; ["7 - bar.json"]]
  /\ fst (main (demo_env "DETAIL" "SNIPPETS") (Flags true true false true)
            (Some "https://rmm") (Some "key") (Some "repo") demo_edited_world) = Ok tt
  /\ files (snd (main (demo_env "DETAIL" "SNIPPETS") (Flags true true false true)
                   (Some "https://rmm") (Some "key") (Some "repo") demo_edited_world))
       !! ["repo"; "snippets"; "foo.ps1"] = Some "stale".
Proof. repeat (split; [vm_compute; reflexivity|]). vm_compute; reflexivity. Qed.

(** C9: with writing to files disabled the export writes nothing, and the
    Prune stage that follows still deletes: it returns, every file under a
    root whose root-relative path is not in the Manifest and that can be
    unlinked is gone, and no directory below a root that can be removed is
    left empty. *)
Theorem prune_is_not_gated_by_the_dry_run E F G base w st w1 :
  ENABLE_WRITETOFILE F = false ->
  main_export E F G (main_folders base) w = (Ok st, w1) ->
  files w1 = files w
  /\ fst (main_prune E (main_folders base) (fst st) w1) = Ok tt
  /\ (forall root p,
        root ∈ folders_values (main_folders base) -> below root p = true ->
        drop (length root) p ∉ fst st -> may_unlink E p = true ->
        files (snd (main_prune E (main_folders base) (fst st) w1)) !! p = None)
  /\ (forall root d,
        root ∈ folders_values (main_folders base) -> below root d = true ->
        d ∈ dirs (snd (main_prune E (main_folders base) (fst st) w1)) ->
        may_rmdir E d = true ->
        has_entry (snd (main_prune E (main_folders base) (fst st) w1)) d = true).
Proof.
  intros HF Hexp. split.
  { pose proof (main_export_dry_same_files E F G (main_folders base) HF w) as Hs.
    rewrite Hexp in Hs. exact Hs. }
  unfold main_prune.
  destruct (prune_loop_spec E (folders_values (main_folders base)) (fst st) w1)
    as (w' & Hrun & _ & Hgone & _ & _ & Hfull).
  { apply main_folders_disjoint. }
  rewrite Hrun. simpl. split; [done|]. split; [exact Hgone | exact Hfull].
Qed.

Lemma prune_is_not_gated_by_the_dry_run_witness :
  files (snd demo_export) = files demo_edited_world
  /\ fst demo_prune = Ok tt
  /\ (forall root p,
        root ∈ folders_values (main_folders ["repo"]) -> below root p = true ->
        drop (length root) p ∉ fst (value_of (fst demo_export) (∅, [])) ->
        may_unlink (demo_env "DETAIL" "SNIPPETS") p = true ->
        files (snd demo_prune) !! p = None)
  /\ (forall root d,
        root ∈ folders_values (main_folders ["repo"]) -> below root d = true ->
        d ∈ dirs (snd demo_prune) ->
        may_rmdir (demo_env "DETAIL" "SNIPPETS") d = true ->
        has_entry (snd demo_prune) d = true).
Proof.
  apply (prune_is_not_gated_by_the_dry_run (demo_env "DETAIL" "SNIPPETS") simulate demo_globals
           ["repo"] demo_edited_world (value_of (fst demo_export) (∅, [])) (snd demo_export)).
  - reflexivity.
  - apply (returns_eta demo_export). vm_compute. reflexivity.
Defined.

(** The dry run of the examples: the stale [snippets/old/gone.py] is
    deleted and its directory removed, although nothing was written. *)
Example dry_run_still_deletes :
  fst (main (demo_env "DETAIL" "SNIPPETS") simulate (Some "https://rmm") (Some "key")
         (Some "repo") demo_edited_world) = Ok tt
  /\ map_to_list (files (snd (main (demo_env "DETAIL" "SNIPPETS") simulate (Some "https://rmm")
                                (Some "key") (Some "repo") demo_edited_world)))
     = [(["repo"; "scriptsraw"; "1 - foo.json"], "RAW");
        (["repo"; "scripts"; "foo.ps1"], "Write-Host edited");
        (["repo"; "snippets"; "foo.ps1"], "stale")]
  /\ elements (dirs (snd (main (demo_env "DETAIL" "SNIPPETS") simulate (Some "https://rmm")
                            (Some "key") (Some "repo") demo_edited_world)))
     = [["repo"; "scriptsraw"]; ["repo"; "snippetsraw"]; ["repo"; "scripts"];
        ["repo"; "snippets"]; ["repo"]].
Proof. repeat (split; [vm_compute; reflexivity|]). vm_compute; reflexivity. Qed.

(** C8: the export step counts paths, not Definitions.  When the paths
    of the exported records are pairwise distinct, the set [process_scripts]
    returns has twice as many members as records were exported, the line it
    prints says so, and the total that [main] reports at its end is twice
    the number of the scripts and snippets exported. *)
Theorem export_counts_two_paths_per_definition E F :
  (forall G v sf srf tally is_snippet w st w' items,
     process_scripts E F G v sf srf tally is_snippet w = (Ok st, w') ->
     iterate v = Ok items ->
     NoDup (manifest_of E G is_snippet items) ->
     size (fst st) = 2 * exported_count E G is_snippet items
     /\ last (out w')
        = Some [FS "Processed "; FN (2 * exported_count E G is_snippet items); FS " ";
                FS (kind_word is_snippet "snippets" "scripts"); FS "."])
  /\ (forall dom tok spath w w' scripts_items snippet_items,
        main E F (Some dom) (Some tok) (Some spath) w = (Ok tt, w') ->
        listed_scripts E (Globals dom [("X-API-KEY", tok)]) = Ok scripts_items ->
        listed_snippets E (Globals dom [("X-API-KEY", tok)]) = Ok snippet_items ->
        NoDup (manifest_of E (Globals dom [("X-API-KEY", tok)]) false scripts_items
               ++ manifest_of E (Globals dom [("X-API-KEY", tok)]) true snippet_items) ->
        exists pre summary,
          out w' = pre ++
            [[FS "Total number of scripts exported: ";
              FN (2 * (exported_count E (Globals dom [("X-API-KEY", tok)]) false scripts_items
                       + exported_count E (Globals dom [("X-API-KEY", tok)]) true snippet_items))];
             summary]).
Proof.
  split.
  - intros G v sf srf tally is_snippet w st w' items H Hit Hnd.
    apply process_scripts_Ok in H as (items' & Hit' & Hm & Hall & Hlast).
    rewrite Hit in Hit'. injection Hit' as <-.
    assert (Hsize : size (fst st) = 2 * exported_count E G is_snippet items).
    { rewrite Hm, size_list_to_set by done. by apply manifest_of_length. }
    split; [done|]. by rewrite <- Hsize.
  - intros dom tok spath w w' l1 l2 H Hl1 Hl2 Hnd.
    apply main_Ok in H as (dom' & tok' & spath' & w1 & st & w2 & [= <-] & [= <-] & [= <-]
                           & Hexp & pre & summary & Hout).
    apply main_export_Ok in Hexp as (l1' & l2' & Hl1' & Hl2' & Hm & Hall1 & Hall2).
    rewrite Hl1 in Hl1'. injection Hl1' as <-. rewrite Hl2 in Hl2'. injection Hl2' as <-.
    exists pre, summary. rewrite Hout.
    assert (Hsize : size (fst st)
                    = 2 * (exported_count E (Globals dom [("X-API-KEY", tok)]) false l1
                           + exported_count E (Globals dom [("X-API-KEY", tok)]) true l2)).
    { rewrite Hm, size_list_to_set by done.
      rewrite length_app, !manifest_of_length by done. lia. }
    by rewrite Hsize.
Qed.

Lemma export_counts_witness :
  (size (fst (value_of (fst demo_scripts_run) (∅, [])))
     = 2 * exported_count (demo_env "DETAIL" "SNIPPETS") demo_globals false [demo_script]
   /\ last (out (snd demo_scripts_run))
      = Some [FS "Processed ";
              FN (2 * exported_count (demo_env "DETAIL" "SNIPPETS") demo_globals false [demo_script]);
              FS " "; FS (kind_word false "snippets" "scripts"); FS "."])
  /\ exists pre summary,
       out (snd (main (demo_env "DETAIL" "SNIPPETS") simulate (Some "https://rmm") (Some "key")
                   (Some "repo") demo_edited_world))
       = pre ++
           [[FS "Total number of scripts exported: ";
             FN (2 * (exported_count (demo_env "DETAIL" "SNIPPETS")
                        (Globals "https://rmm" [("X-API-KEY", "key")]) false [demo_script]
                      + exported_count (demo_env "DETAIL" "SNIPPETS")
                          (Globals "https://rmm" [("X-API-KEY", "key")]) true [demo_snippet]))];
            summary].
Proof.
  destruct (export_counts_two_paths_per_definition (demo_env "DETAIL" "SNIPPETS") simulate)
    as [Hexport Hmain].
  split.
  - apply (Hexport demo_globals (VList [demo_script]) ["repo"; "scripts"] ["repo"; "scriptsraw"]
             [] false demo_world).
    + apply (returns_eta demo_scripts_run). vm_compute. reflexivity.
    + reflexivity.
    + apply (bool_decide_unpack _). vm_compute. exact I.
  - apply (Hmain "https://rmm" "key" "repo" demo_edited_world).
    + apply (returns_eta (main (demo_env "DETAIL" "SNIPPETS") simulate (Some "https://rmm")
                            (Some "key") (Some "repo") demo_edited_world) tt).
      vm_compute. reflexivity.
    + vm_compute. reflexivity.
    + vm_compute. reflexivity.
    + apply (bool_decide_unpack _). vm_compute. exact I.
Defined.

(** In the examples one script and one snippet are exported, and the
    counts are two, two and four. *)
Example export_counts_example :
  exported_count (demo_env "DETAIL" "SNIPPETS") demo_globals false [demo_script] = 1
  /\ exported_count (demo_env "DETAIL" "SNIPPETS") demo_globals true [demo_snippet] = 1
  /\ last (out (snd demo_scripts_run))
     = Some [FS "Processed "; FN 2; FS " "; FS "scripts"; FS "."]
  /\ nth_error (rev (out (snd (main (demo_env "DETAIL" "SNIPPETS") simulate (Some "https://rmm")
                                 (Some "key") (Some "repo") demo_edited_world)))) 1
     = Some [FS "Total number of scripts exported: "; FN 4].
Proof. repeat (split; [vm_compute; reflexivity|]). vm_compute; reflexivity. Qed.

(** The dry run and the run that writes record the same paths. *)
Example dry_run_records_the_same_paths :
  elements (fst (value_of (fst demo_scripts_run) (∅, [])))
    = [["1 - foo.json"]; ["foo.ps1"]]
  /\ elements (fst (value_of (fst (process_scripts (demo_env "DETAIL" "SNIPPETS") wet demo_globals
                                     (VList [demo_script]) ["repo"; "scripts"]
                                     ["repo"; "scriptsraw"] [] false demo_world)) (∅, [])))
    = [["1 - foo.json"]; ["foo.ps1"]]
  /\ map_to_list (files (snd demo_scripts_run)) = [].
Proof. repeat (split; [vm_compute; reflexivity|]). vm_compute; reflexivity. Qed.

(* ================================================================== *)
(** * Further properties *)

(** ** The pruner and what it leaves alone *)

(** X1: [delete_obsolete_files] works below its folder only.  Whatever is
    not strictly below the folder is, after the call, as it was before: a
    file keeps its content, a directory stays a directory; in particular
    the folder itself is never removed, even when the pruning empties it. *)
Theorem delete_obsolete_files_frame E folder current w p :
  below folder p = false ->
  files (snd (delete_obsolete_files E folder current w)) !! p = files w !! p
  /\ (p ∈ dirs (snd (delete_obsolete_files E folder current w)) <-> p ∈ dirs w)
  /\ below folder folder = false.
Proof.
  intros Hb.
  destruct (delete_obsolete_files_spec E folder current w)
    as (w' & Hrun & Hfiles & Hsub & Hkeep & _).
  rewrite Hrun. simpl. split; [|split].
  - rewrite Hfiles. rewrite bool_decide_eq_false_2; [done|].
    intros (Hb' & _). congruence.
  - split; [apply Hsub | intros Hd; by apply Hkeep].
  - unfold below. rewrite andb_false_iff. right. by apply bool_decide_eq_false_2; intros [].
Qed.

Lemma delete_obsolete_files_frame_witness :
  files (snd (delete_obsolete_files (demo_env "DETAIL" "SNIPPETS") ["repo"; "snippets"] ∅
                   demo_edited_world)) !! ["repo"; "scripts"; "foo.ps1"]
     = files demo_edited_world !! ["repo"; "scripts"; "foo.ps1"]
  /\ (["repo"; "scripts"; "foo.ps1"]
        ∈ dirs (snd (delete_obsolete_files (demo_env "DETAIL" "SNIPPETS") ["repo"; "snippets"] ∅
                       demo_edited_world))
      <-> ["repo"; "scripts"; "foo.ps1"] ∈ dirs demo_edited_world)
  /\ below ["repo"; "snippets"] ["repo"; "snippets"] = false.
Proof.
  apply (delete_obsolete_files_frame (demo_env "DETAIL" "SNIPPETS") ["repo"; "snippets"] ∅
           demo_edited_world ["repo"; "scripts"; "foo.ps1"]).
  vm_compute. reflexivity.
Defined.

(** Pruning the snippets of the examples against the empty set: the two
    stale files go, the directory [old] goes, the folder itself and the
    other folders stay. *)
Example prune_against_the_empty_set :
  map_to_list (files (snd (delete_obsolete_files (demo_env "DETAIL" "SNIPPETS")
                             ["repo"; "snippets"] ∅ demo_edited_world)))
  = [(["repo"; "scriptsraw"; "1 - foo.json"], "RAW");
     (["repo"; "scripts"; "foo.ps1"], "Write-Host edited")]
  /\ elements (dirs (snd (delete_obsolete_files (demo_env "DETAIL" "SNIPPETS")
                            ["repo"; "snippets"] ∅ demo_edited_world)))
     = [["repo"; "scriptsraw"]; ["repo"; "snippetsraw"]; ["repo"; "scripts"];
        ["repo"; "snippets"]; ["repo"]].
Proof. split; vm_compute; reflexivity. Qed.

Lemma process_scripts_nothing E F G sf srf tally is_snippet w :
  process_scripts E F G (VList []) sf srf tally is_snippet w
  = (Ok (∅, tally), snd (process_scripts E F G (VList []) sf srf tally is_snippet w))
  /\ files (snd (process_scripts E F G (VList []) sf srf tally is_snippet w)) = files w.
Proof. split; reflexivity. Qed.

Lemma userdefined_nil : userdefined [] = Ok [].
Proof. reflexivity. Qed.

Lemma fetch_data_error_run E url hd w r :
  requests_get E url hd = Some r ->
  (400 <= status_code r < 600)%Z ->
  exists w', fetch_data E url hd w = (Ok (VList []), w') /\ files w' = files w.
Proof.
  intros Hr Hs. exists (snd (fetch_data E url hd w)).
  destruct (fetch_data_fetched E url hd w) as (Hv & Hf & _). split; [|done].
  rewrite (surjective_pairing (fetch_data E url hd w)), Hv at 1.
  unfold fetched. rewrite Hr. unfold ok.
  replace (400 <=? status_code r)%Z with true by lia.
  replace (status_code r <? 600)%Z with true by lia. reflexivity.
Qed.

(** X2: when the server answers both list requests with an error status
    (400 to 599), the export still returns, with nothing recorded, and the
    prune that follows deletes every file below the four folders that can
    be unlinked: a server that is down empties the working tree. *)
Theorem failed_listing_empties_the_folders E F G base w r1 r2 root p :
  requests_get E (domain G +:+ "/scripts/?showHiddenScripts=true") (headers G) = Some r1 ->
  (400 <= status_code r1 < 600)%Z ->
  requests_get E (domain G +:+ "/scripts/snippets/") (headers G) = Some r2 ->
  (400 <= status_code r2 < 600)%Z ->
  root ∈ folders_values (main_folders base) ->
  below root p = true ->
  may_unlink E p = true ->
  exists w1,
    main_export E F G (main_folders base) w = (Ok (∅, []), w1)
    /\ files w1 = files w
    /\ fst (main_prune E (main_folders base) ∅ w1) = Ok tt
    /\ files (snd (main_prune E (main_folders base) ∅ w1)) !! p = None.
Proof.
  intros Hr1 Hs1 Hr2 Hs2 Hroot Hb Hm.
  assert (Hexp : exists w1, main_export E F G (main_folders base) w = (Ok (∅ ∪ ∅, []), w1)
                            /\ files w1 = files w).
  { unfold main_export.
    erewrite bind_run by reflexivity.
    destruct (fetch_data_error_run E _ (headers G) (snd (print [FS "Fetching user-defined scripts..."] w)) r1 Hr1 Hs1) as (wa & Ha & Hfa).
    erewrite bind_run by exact Ha.
    erewrite bind_run by reflexivity.
    erewrite bind_run by reflexivity.
    erewrite bind_run by (apply process_scripts_nothing).
    erewrite bind_run by reflexivity.
    match goal with |- context [bind (fetch_data E ?u ?h) ?k ?w0] =>
      destruct (fetch_data_error_run E u h w0 r2 Hr2 Hs2) as (wb & Hb2 & Hfb) end.
    erewrite bind_run by exact Hb2.
    erewrite bind_run by (apply process_scripts_nothing).
    eexists. split; [reflexivity|]. simpl. rewrite Hfb. simpl. exact Hfa. }
  destruct Hexp as (w1 & Hexp & Hf). rewrite (left_id_L ∅ (∪)) in Hexp.
  exists w1. split; [done|]. split; [done|].
  unfold main_prune.
  destruct (prune_loop_spec E (folders_values (main_folders base)) ∅ w1)
    as (w' & Hrun & _ & Hgone & _).
  { apply main_folders_disjoint. }
  rewrite Hrun. simpl. split; [done|].
  apply (Hgone root p Hroot Hb); [apply not_elem_of_empty | done].
Qed.

Lemma failed_listing_witness :
  exists w1,
    main_export demo_down_env simulate demo_globals (main_folders ["repo"]) demo_edited_world
      = (Ok (∅, []), w1)
    /\ files w1 = files demo_edited_world
    /\ fst (main_prune demo_down_env (main_folders ["repo"]) ∅ w1) = Ok tt
    /\ files (snd (main_prune demo_down_env (main_folders ["repo"]) ∅ w1))
         !! ["repo"; "scripts"; "foo.ps1"] = None.
Proof.
  apply (failed_listing_empties_the_folders demo_down_env simulate demo_globals ["repo"]
           demo_edited_world (Response 500 "Internal Server Error" "")
           (Response 500 "Internal Server Error" "") ["repo"; "scripts"]
           ["repo"; "scripts"; "foo.ps1"]).
  - reflexivity.
  - simpl. lia.
  - reflexivity.
  - simpl. lia.
  - vm_compute. left.
  - vm_compute. reflexivity.
  - reflexivity.
Defined.

(** A whole run against the server that is down, writing enabled: it
    returns, and no file is left below the four folders. *)
Example run_against_a_server_that_is_down :
  fst (main demo_down_env (Flags true true false true) (Some "https://rmm") (Some "key")
         (Some "repo") demo_edited_world) = Ok tt
  /\ map_to_list (files (snd (main demo_down_env (Flags true true false true)
                                (Some "https://rmm") (Some "key") (Some "repo")
                                demo_edited_world))) = [].
Proof. split; vm_compute; reflexivity. Qed.

(** ** The reconciler and the working tree *)

#[local] Instance same_tree_refl : Reflexive same_tree.
Proof. by intros w. Qed.

#[local] Instance same_tree_trans : Transitive same_tree.
Proof. intros a b c [Hf Hd] [Hf' Hd']. split; congruence. Qed.

Lemma print_same_tree line : preserves same_tree (print line).
Proof. by intros w. Qed.

Lemma read_bytes_same_tree p : preserves same_tree (read_bytes p).
Proof. intros w. unfold read_bytes. by destruct (files w !! p). Qed.

Lemma read_text_same_tree p : preserves same_tree (read_text p).
Proof.
  intros w. unfold read_text. destruct (files w !! p) as [bytes|]; [|done].
  by destruct (valid_utf8 bytes).
Qed.

Lemma compute_hash_same_tree E p : preserves same_tree (compute_hash E p).
Proof.
  intros w. unfold compute_hash, bind, get_world; simpl.
  destruct (files w !! p); simpl; [done|]. by destruct (is_dir w p).
Qed.

Lemma json_load_same_tree E p : preserves same_tree (json_load E p).
Proof.
  apply preserves_bind; [apply _ | apply read_bytes_same_tree |].
  intros t. destruct (json_loads E t); [apply preserves_ret | apply preserves_raise]; apply _.
Qed.

Lemma put_request_same_tree E url hd payload : preserves same_tree (put_request E url hd payload).
Proof. intros w. unfold put_request. by destruct (requests_put E url hd payload). Qed.

Lemma update_api_body_same_tree E G sid payload :
  preserves same_tree (update_api_body E G sid payload).
Proof.
  unfold update_api_body. destruct payload; try (apply preserves_raise; apply _).
  apply preserves_bind; [apply _ | apply preserves_lift; apply _ | intros pv].
  apply preserves_bind; [apply _ | apply print_same_tree | intros _].
  apply preserves_try_except; [apply _ | | intros; apply print_same_tree].
  apply preserves_bind; [apply _ | apply put_request_same_tree | intros res].
  apply preserves_bind; [apply _ | apply print_same_tree | intros _].
  apply preserves_if; [apply print_same_tree | apply preserves_ret; apply _].
Qed.

Lemma call_same_tree (f : pydef) args :
  (forall a, preserves same_tree (body f a)) -> preserves same_tree (call f args).
Proof.
  intros Hf. unfold call. apply preserves_if; [apply Hf | apply preserves_raise; apply _].
Qed.

Lemma reconcile_one_same_tree E F G folders token raw_path :
  preserves same_tree (reconcile_one E F G folders token raw_path).
Proof.
  unfold reconcile_one.
  apply preserves_bind; [apply _ | apply preserves_get_world; apply _ |]. intros w0.
  destruct (find_match w0 (scripts folders) _) as [m|]; [|apply print_same_tree].
  apply preserves_bind; [apply _ | apply print_same_tree |]. intros _.
  apply preserves_bind; [apply _ | apply compute_hash_same_tree |]. intros script_hash.
  apply preserves_bind; [apply _ | apply json_load_same_tree |]. intros raw_data.
  apply preserves_bind; [apply _ | apply preserves_lift; apply _ |]. intros code.
  apply preserves_bind; [apply _ | apply preserves_lift; apply _ |]. intros code_bytes.
  apply preserves_bind; [apply _ | apply print_same_tree |]. intros _.
  apply preserves_if; [|apply preserves_ret; apply _].
  apply preserves_bind; [apply _ | apply print_same_tree |]. intros _.
  apply preserves_bind; [apply _ | apply read_text_same_tree |]. intros content.
  apply preserves_bind; [apply _ | |].
  { apply preserves_for_each; [apply _ ..|]. intros; apply print_same_tree. }
  intros _.
  apply preserves_bind; [apply _ | apply print_same_tree |]. intros _.
  apply preserves_bind; [apply _ | |].
  { apply preserves_for_each; [apply _ ..|]. intros; apply print_same_tree. }
  intros _.
  apply preserves_bind; [apply _ | apply read_text_same_tree |]. intros content'.
  apply preserves_bind; [apply _ | apply preserves_lift; apply _ |]. intros updated_payload.
  apply preserves_try_except; [apply _ | | intros; apply preserves_ret; apply _].
  apply preserves_if.
  - apply preserves_bind; [apply _ | apply print_same_tree |]. intros _.
    apply preserves_bind; [apply _ | apply preserves_lift; apply _ |]. intros sid.
    apply call_same_tree. intros a. simpl.
    destruct a as [|x [|y [|? ?]]]; try (apply preserves_raise; apply _).
    apply update_api_body_same_tree.
  - apply preserves_bind; [apply _ | apply print_same_tree |]. intros _.
    destruct updated_payload; try (apply preserves_raise; apply _).
    destruct (dict_lookup d "code"); [apply print_same_tree | apply preserves_raise; apply _].
Qed.

(** X3: the reconciler reads the working tree and never writes to it.
    Whatever the flags, the snapshots and the server, after
    [write_modifications_to_api] every file has the content it had and the
    directories are the same; the same holds for [update_api] however it is
    called.  A raw snapshot is refreshed by the export only. *)
Theorem reconciler_leaves_the_tree E F G :
  (forall base_dir folders token w,
     files (snd (write_modifications_to_api E F G base_dir folders token w)) = files w
     /\ dirs (snd (write_modifications_to_api E F G base_dir folders token w)) = dirs w)
  /\ (forall args w,
        files (snd (call (update_api E G) args w)) = files w
        /\ dirs (snd (call (update_api E G) args w)) = dirs w).
Proof.
  split.
  - intros base_dir folders token.
    change (preserves same_tree (write_modifications_to_api E F G base_dir folders token)).
    unfold write_modifications_to_api.
    apply preserves_bind; [apply _ | apply print_same_tree |]. intros _.
    apply preserves_bind; [apply _ | apply preserves_get_world; apply _ |]. intros w0.
    apply preserves_for_each; [apply _ ..|]. intros; apply reconcile_one_same_tree.
  - intros args. change (preserves same_tree (call (update_api E G) args)).
    apply call_same_tree. intros a. simpl.
    destruct a as [|x [|y [|? ?]]]; try (apply preserves_raise; apply _).
    apply update_api_body_same_tree.
Qed.

(** ** Dicts *)

Lemma dict_lookup_set_eq d k v : dict_lookup (dict_set d k v) k = Some v.
Proof.
  induction d as [|[k' v'] d IH]; simpl.
  - by rewrite String.eqb_refl.
  - destruct (String.eqb k' k) eqn:Hk; simpl; by rewrite Hk.
Qed.

Lemma dict_lookup_set_ne d k v k' :
  k' <> k -> dict_lookup (dict_set d k v) k' = dict_lookup d k'.
Proof.
  intros Hne. induction d as [|[k0 v0] d IH]; simpl.
  - by rewrite (proj2 (String.eqb_neq k k')).
  - destruct (String.eqb k0 k) eqn:Hk; simpl; [|by rewrite IH].
    apply String.eqb_eq in Hk as ->. by rewrite (proj2 (String.eqb_neq k k')).
Qed.

Lemma dict_lookup_remove_ne d k k' :
  k' <> k -> dict_lookup (dict_remove d k) k' = dict_lookup d k'.
Proof.
  intros Hne. induction d as [|[k0 v0] d IH]; simpl; [done|].
  destruct (String.eqb k0 k) eqn:Hk; simpl; [|by rewrite IH].
  apply String.eqb_eq in Hk as ->. by rewrite (proj2 (String.eqb_neq k k')).
Qed.

Lemma dict_lookup_None d k : k ∉ d.*1 -> dict_lookup d k = None.
Proof.
  induction d as [|[k0 v0] d IH]; simpl; [done|].
  intros Hn. rewrite not_elem_of_cons in Hn. destruct Hn as [Hne Hn].
  rewrite (proj2 (String.eqb_neq k0 k)) by done. by apply IH.
Qed.

Lemma dict_lookup_remove_eq d k : NoDup d.*1 -> dict_lookup (dict_remove d k) k = None.
Proof.
  induction d as [|[k0 v0] d IH]; simpl; [done|].
  intros Hnd. apply NoDup_cons in Hnd as [Hn Hnd].
  destruct (String.eqb k0 k) eqn:Hk; simpl.
  - apply String.eqb_eq in Hk as ->. by apply dict_lookup_None.
  - rewrite Hk. by apply IH.
Qed.

Lemma dict_set_keys d k v :
  (dict_set d k v).*1 = if bool_decide (k ∈ d.*1) then d.*1 else d.*1 ++ [k].
Proof.
  induction d as [|[k0 v0] d IH]; [done|].
  cbn [dict_set]. destruct (String.eqb k0 k) eqn:Hk; rewrite !fmap_cons; cbn [fst].
  - apply String.eqb_eq in Hk as ->. by rewrite bool_decide_eq_true_2 by left.
  - apply String.eqb_neq in Hk. rewrite IH.
    destruct (bool_decide (k ∈ d.*1)) eqn:Hd.
    + apply bool_decide_eq_true in Hd. by rewrite bool_decide_eq_true_2 by (by right).
    + apply bool_decide_eq_false in Hd.
      rewrite bool_decide_eq_false_2; [done|]. rewrite elem_of_cons. naive_solver.
Qed.

Lemma dict_set_NoDup d k v : NoDup d.*1 -> NoDup (dict_set d k v).*1.
Proof.
  intros Hnd. rewrite dict_set_keys. case_bool_decide as Hk; [done|].
  apply NoDup_app. split; [done|]. split; [|apply NoDup_singleton].
  intros x Hx ->%list_elem_of_singleton. done.
Qed.

(** What [payload['script_body'] = payload.pop('code', dflt)] leaves: the
    key [script_body] holds the code, the key [code] is gone, the other
    keys are as they were. *)
Lemma renamed_payload d body sent :
  NoDup d.*1 ->
  sent = dict_set (dict_remove d "code") "script_body" body ->
  dict_lookup sent "script_body" = Some body
  /\ dict_lookup sent "code" = None
  /\ (forall k, k <> "code" -> k <> "script_body" -> dict_lookup sent k = dict_lookup d k).
Proof.
  intros Hnd ->. split; [apply dict_lookup_set_eq|]. split.
  - rewrite dict_lookup_set_ne by done. by apply dict_lookup_remove_eq.
  - intros k Hc Hs. rewrite dict_lookup_set_ne by done. by apply dict_lookup_remove_ne.
Qed.

(** ** [update_api], called as it is defined *)

(** X4: [update_api] called with its two arguments, on a payload whose code
    is a string or a list (or is missing).  It always returns, whatever the
    server does (an answer other than 200 or a failure of the request is
    logged), and it sends exactly one request: a PUT to
    [{domain}/scripts/{script_id}/] whose payload is the given one with the
    key [code] renamed to [script_body]. *)
Theorem update_api_sends_the_renamed_payload E G sid d w :
  NoDup d.*1 ->
  is_Ok (preview (default (VStr "") (dict_lookup d "code"))) = true ->
  exists sent,
    fst (call (update_api E G) [sid; VDict d] w) = Ok tt
    /\ net (snd (call (update_api E G) [sid; VDict d] w))
       = net w ++ [PUT (domain G +:+ "/scripts/" +:+ py_str E sid +:+ "/") (VDict sent)]
    /\ dict_lookup sent "script_body" = Some (default (VStr "") (dict_lookup d "code"))
    /\ dict_lookup sent "code" = None
    /\ (forall k, k <> "code" -> k <> "script_body" -> dict_lookup sent k = dict_lookup d k).
Proof.
  intros Hnd Hpv.
  exists (dict_set (dict_remove d "code") "script_body" (default (VStr "") (dict_lookup d "code"))).
  assert (Hrun :
    fst (call (update_api E G) [sid; VDict d] w) = Ok tt
    /\ net (snd (call (update_api E G) [sid; VDict d] w))
       = net w ++ [PUT (domain G +:+ "/scripts/" +:+ py_str E sid +:+ "/")
                     (VDict (dict_set (dict_remove d "code") "script_body"
                               (default (VStr "") (dict_lookup d "code"))))]).
  { unfold call, update_api; simpl. unfold update_api_body.
    destruct (preview (default (VStr "") (dict_lookup d "code"))) as [pv|]; [|discriminate].
    unfold bind, lift, print, try_except, put_request; simpl.
    destruct (requests_put E _ _ _) as [res|]; simpl; [|done].
    by destruct (negb (status_code res =? 200)%Z). }
  destruct Hrun as [Hv Hn]. split; [done|]. split; [done|].
  by apply renamed_payload.
Qed.

Lemma update_api_sends_the_renamed_payload_witness :
  exists sent,
    fst (call (update_api demo_down_env demo_globals)
           [VInt 1; VDict [("id", VInt 1); ("code", VStr "Write-Host edited")]] demo_world) = Ok tt
    /\ net (snd (call (update_api demo_down_env demo_globals)
                   [VInt 1; VDict [("id", VInt 1); ("code", VStr "Write-Host edited")]]
                   demo_world))
       = net demo_world ++ [PUT ("https://rmm" +:+ "/scripts/" +:+ py_str demo_down_env (VInt 1) +:+ "/")
                              (VDict sent)]
    /\ dict_lookup sent "script_body"
       = Some (default (VStr "")
                 (dict_lookup [("id", VInt 1); ("code", VStr "Write-Host edited")] "code"))
    /\ dict_lookup sent "code" = None
    /\ (forall k, k <> "code" -> k <> "script_body" ->
          dict_lookup sent k
          = dict_lookup [("id", VInt 1); ("code", VStr "Write-Host edited")] k).
Proof.
  apply (update_api_sends_the_renamed_payload demo_down_env demo_globals (VInt 1)
           [("id", VInt 1); ("code", VStr "Write-Host edited")] demo_world).
  - apply (bool_decide_unpack _). vm_compute. exact I.
  - reflexivity.
Defined.

(** The same call on the server that is down and on the one that cannot be
    reached: the answer is logged, nothing is raised. *)
Example update_api_logs_the_failure :
  out (snd (call (update_api demo_down_env demo_globals)
              [VInt 1; VDict [("id", VInt 1); ("code", VStr "hi")]] demo_world))
  = [[FS "Updating "; FV (VInt 1); FS ", length: "; FN 2; FS ", preview: "; FS "hi"; FS ""];
     [FV (VInt 1); FS " update: "; FZ 500; FS " "; FS "Internal Server Error"];
     [FS ""]]
  /\ call (update_api demo_unreachable_env demo_globals)
       [VInt 1; VDict [("id", VInt 1); ("code", VStr "hi")]] demo_world
     = (Ok tt,
        World ∅ (dirs demo_world)
          [[FS "Updating "; FV (VInt 1); FS ", length: "; FN 2; FS ", preview: "; FS "hi"; FS ""];
           [FS "Request error for "; FV (VInt 1); FS ": "; FE RequestException]]
          [PUT "https://rmm/scripts/1/" (VDict [("id", VInt 1); ("script_body", VStr "hi")])]).
Proof. split; reflexivity. Qed.

(** ** The simulated push *)

Lemma for_each_print {A} (l : list A) (f : A -> list frag) w :
  for_each l (fun x => print (f x)) w
  = (Ok tt, World (files w) (dirs w) (out w ++ map f l) (net w)).
Proof.
  revert w. induction l as [|x l IH]; intros w; unfold for_each in *; simpl.
  - unfold ret. rewrite app_nil_r. by destruct w.
  - unfold bind at 1. unfold print at 1. simpl. rewrite IH. simpl.
    by rewrite <- app_assoc.
Qed.

(** X5: with the writeback disabled, a snapshot whose script was edited is
    not sent anywhere.  For a script file that is UTF-8,
    [write_modifications_to_api]'s turn returns, issues no request, and the
    last line it prints is the payload it would have sent: the snapshot with
    the key [code] renamed to [script_body], holding the text of the edited
    file as the text mode reads it, its line ends translated to LF. *)
Theorem simulated_push_prints_the_renamed_payload
    E F G folders token raw_path w m content t d c :
  ENABLE_WRITEBACK F = false ->
  find_match w (scripts folders) (lower (strip_id_prefix (stem raw_path))) = Some m ->
  files w !! m = Some content ->
  valid_utf8 content = true ->
  files w !! raw_path = Some t ->
  json_loads E t = Some (VDict d) ->
  NoDup d.*1 ->
  default (VStr "") (dict_lookup d "code") = VStr c ->
  sha256_hexdigest E content <> sha256_hexdigest E c ->
  exists sent,
    fst (reconcile_one E F G folders token raw_path w) = Ok tt
    /\ last (out (snd (reconcile_one E F G folders token raw_path w)))
       = Some [FS (json_dumps E true (VDict sent))]
    /\ net (snd (reconcile_one E F G folders token raw_path w)) = net w
    /\ dict_lookup sent "script_body" = Some (VStr (universal_newlines content))
    /\ dict_lookup sent "code" = None
    /\ (forall k, k <> "code" -> k <> "script_body" -> dict_lookup sent k = dict_lookup d k).
Proof.
  intros HF Hmatch Hm Hvalid Hraw Hjson Hnd Hcode Hne.
  set (text := universal_newlines content).
  set (d' := dict_set d "code" (VStr text)).
  exists (dict_set (dict_remove d' "code") "script_body" (VStr text)).
  assert (Hread : forall w0, files w0 = files w -> read_text m w0 = (Ok text, w0)).
  { intros w0 Hw0. unfold read_text. by rewrite Hw0, Hm, Hvalid. }
  assert (Hrun : exists o,
    reconcile_one E F G folders token raw_path w
    = (Ok tt, World (files w) (dirs w)
                (o ++ [[FS (json_dumps E true
                              (VDict (dict_set (dict_remove d' "code") "script_body"
                                        (VStr text))))]])
                (net w))).
  { unfold reconcile_one.
    erewrite bind_run by reflexivity. rewrite Hmatch.
    erewrite bind_run by reflexivity.
    erewrite bind_run by (unfold compute_hash, bind, get_world; simpl; rewrite Hm; reflexivity).
    erewrite bind_run
      by (unfold json_load, bind, read_bytes; simpl; rewrite Hraw, Hjson; reflexivity).
    erewrite bind_run by reflexivity. simpl default. rewrite Hcode.
    erewrite bind_run by reflexivity.
    erewrite bind_run by reflexivity.
    rewrite bool_decide_eq_true_2 by congruence.
    erewrite bind_run by reflexivity.
    erewrite bind_run by (by apply Hread).
    erewrite bind_run by apply for_each_print.
    erewrite bind_run by reflexivity.
    erewrite bind_run by apply for_each_print.
    erewrite bind_run by (by apply Hread).
    erewrite bind_run by reflexivity.
    rewrite HF. unfold try_except.
    erewrite bind_run by reflexivity.
    change (dict_merge d [("code", VStr text)]) with d'.
    unfold d' at 1. rewrite dict_lookup_set_eq.
    unfold print; simpl. eexists. reflexivity. }
  destruct Hrun as (o & ->). simpl. split; [done|]. split; [by rewrite last_snoc|].
  split; [done|].
  destruct (renamed_payload d' (VStr text) _ (dict_set_NoDup d "code" (VStr text) Hnd) eq_refl)
    as (Hs & Hc & Hk).
  split; [done|]. split; [done|].
  intros k Hkc Hks. rewrite Hk by done. by apply dict_lookup_set_ne.
Qed.

Lemma simulated_push_witness :
  exists sent,
    fst (reconcile_one (demo_env "DETAIL" "SNIPPETS") simulate demo_globals demo_folders "key"
           ["repo"; "scriptsraw"; "1 - foo.json"] demo_crlf_world) = Ok tt
    /\ last (out (snd (reconcile_one (demo_env "DETAIL" "SNIPPETS") simulate demo_globals
                         demo_folders "key" ["repo"; "scriptsraw"; "1 - foo.json"]
                         demo_crlf_world)))
       = Some [FS (json_dumps (demo_env "DETAIL" "SNIPPETS") true (VDict sent))]
    /\ net (snd (reconcile_one (demo_env "DETAIL" "SNIPPETS") simulate demo_globals
                   demo_folders "key" ["repo"; "scriptsraw"; "1 - foo.json"]
                   demo_crlf_world)) = net demo_crlf_world
    /\ dict_lookup sent "script_body"
       = Some (VStr (universal_newlines
                       ("Write-Host edited" +:+ String CR (String LF "exit" +:+ String CR ""))))
    /\ dict_lookup sent "code" = None
    /\ (forall k, k <> "code" -> k <> "script_body" ->
          dict_lookup sent k = dict_lookup [("id", VInt 1); ("code", VStr "Write-Host hi")] k).
Proof.
  apply (simulated_push_prints_the_renamed_payload (demo_env "DETAIL" "SNIPPETS") simulate
           demo_globals demo_folders "key" ["repo"; "scriptsraw"; "1 - foo.json"]
           demo_crlf_world ["repo"; "scripts"; "foo.ps1"]
           ("Write-Host edited" +:+ String CR (String LF "exit" +:+ String CR "")) "RAW"
           [("id", VInt 1); ("code", VStr "Write-Host hi")] "Write-Host hi").
  - reflexivity.
  - vm_compute. reflexivity.
  - vm_compute. reflexivity.
  - vm_compute. reflexivity.
  - vm_compute. reflexivity.
  - reflexivity.
  - apply (bool_decide_unpack _). vm_compute. exact I.
  - reflexivity.
  - simpl. discriminate.
Defined.

(** The lines of that turn on the tree of the examples, and on the same
    tree with the script saved with CR LF and CR line ends: the text that
    would be pushed has LF line ends; a script that is not UTF-8 ends the
    turn when it is read. *)
Example simulated_push_example :
  out (snd (reconcile_one (demo_env "DETAIL" "SNIPPETS") simulate demo_globals demo_folders "key"
              ["repo"; "scriptsraw"; "1 - foo.json"] demo_edited_world))
  = [[FS "Matched: "; FP ["repo"; "scripts"; "foo.ps1"]; FS " <-> ";
      FP ["repo"; "scriptsraw"; "1 - foo.json"]];
     [FS "Script hash: "; FH (Some "sha256:Write-Host edited"); FS "JSON hash:   ";
      FS "sha256:Write-Host hi"];
     [FS "--- Script (first 10 lines) ---"];
     [FS "Write-Host edited"];
     [FS "--- JSON Code (first 10 lines) ---"];
     [FS "Write-Host hi"];
     [FS "Simulated push for "; FP ["repo"; "scripts"; "foo.ps1"]; FS ":"];
     [FS "{id,script_body}"]]
  /\ universal_newlines ("Write-Host edited" +:+ String CR (String LF "exit" +:+ String CR ""))
     = "Write-Host edited" +:+ String LF ("exit" +:+ String LF "")
  /\ text_lines ("Write-Host edited" +:+ String LF ("exit" +:+ String LF ""))
     = ["Write-Host edited" +:+ String LF ""; "exit" +:+ String LF ""]
  /\ splitlines ("a" +:+ String CR (String LF "b" +:+ String CR ("c" +:+ String LF "")))
     = ["a"; "b"; "c"]
  /\ valid_utf8 (String "195" (String "169" "")) = true
  /\ valid_utf8 (String "233" "") = false
  /\ fst (read_text ["f"] (World {[ ["f"] := String "233" "" ]} ∅ [] []))
     = Raise UnicodeDecodeError.
Proof. repeat split; vm_compute; reflexivity. Qed.

(** ** The exceptions of the parsing of the staged changes *)

Lemma classify_line_raises c line e :
  classify_line c line = Raise e -> e = ValueError \/ e = IndexError.
Proof.
  unfold classify_line. destruct (String.eqb line ""); [discriminate|].
  unfold unpack2. destruct (split_on TAB line) as [|a [|b [|? ?]]]; try (intros [= <-]; by left).
  repeat (case_match; try discriminate); unfold index in *;
    repeat (case_match; try discriminate); simplify_eq; intros [= <-]; by right.
Qed.

Lemma classify_lines_raises lines c e :
  classify_lines c lines = Raise e -> e = ValueError \/ e = IndexError.
Proof.
  revert c. induction lines as [|line rest IH]; intros c; simpl; [discriminate|].
  destruct (classify_line c line) as [c'|e'] eqn:Hl; [apply IH|].
  intros [= <-]. by apply classify_line_raises in Hl.
Qed.

Lemma commit_message_of_raises stdout e :
  commit_message_of stdout = Raise e -> e = ValueError \/ e = IndexError.
Proof.
  unfold commit_message_of, message_of_lines.
  destruct (classify_lines no_changes _) eqn:Hc; [discriminate|].
  intros [= <-]. by apply classify_lines_raises in Hc.
Qed.

(** ** Renames in the staged changes *)

Lemma split_on_not_nil sep s : split_on sep s <> [].
Proof.
  destruct s as [|c s]; simpl; [done|].
  destruct (Ascii.eqb c sep); [done|]. by destruct (split_on sep s).
Qed.

Lemma split_on_app_length sep a b :
  length (split_on sep (a +:+ String sep b))
  = length (split_on sep a) + length (split_on sep b).
Proof.
  induction a as [|c a IH]; simpl.
  - by rewrite Ascii.eqb_refl.
  - destruct (Ascii.eqb c sep); simpl; [by rewrite IH|].
    pose proof (split_on_not_nil sep (a +:+ String sep b)) as Hn.
    pose proof (split_on_not_nil sep a) as Hn'.
    destruct (split_on sep (a +:+ String sep b)), (split_on sep a); try done; simpl in *; lia.
Qed.

Lemma split_on_length_pos sep s : 0 < length (split_on sep s).
Proof. pose proof (split_on_not_nil sep s). destruct (split_on sep s); [done | simpl; lia]. Qed.

Lemma classify_line_rename c status old new :
  classify_line c (rename_line status old new) = Raise ValueError.
Proof.
  unfold classify_line, rename_line.
  assert (Hne : String.eqb (status +:+ String TAB (old +:+ String TAB new)) "" = false)
    by (by destruct status).
  rewrite Hne.
  pose proof (split_on_app_length TAB status (old +:+ String TAB new)) as Hl.
  rewrite (split_on_app_length TAB old new) in Hl.
  pose proof (split_on_length_pos TAB status).
  pose proof (split_on_length_pos TAB old).
  pose proof (split_on_length_pos TAB new).
  destruct (split_on TAB (status +:+ String TAB (old +:+ String TAB new)))
    as [|a [|b [|? ?]]]; simpl in *; try done; lia.
Qed.

Lemma classify_lines_stops c lines line :
  line ∈ lines ->
  (forall c', classify_line c' line = Raise ValueError) ->
  exists e, classify_lines c lines = Raise e.
Proof.
  intros Hin Hline. revert c. induction lines as [|l rest IH]; intros c.
  - by apply elem_of_nil in Hin.
  - simpl. destruct (classify_line c l) as [c'|e] eqn:Hl; [|eauto].
    apply elem_of_cons in Hin as [->|Hin]; [|by apply IH].
    rewrite Hline in Hl. discriminate.
Qed.

Lemma subprocess_run_run E args w :
  exists w', subprocess_run E args w = (Ok (fst (git E args (files w, dirs w))), w')
             /\ out w' = out w /\ net w' = net w.
Proof.
  unfold subprocess_run. destruct (git E args (files w, dirs w)) as [r [f d]]. eauto.
Qed.

Lemma check_call_run E args w :
  (forall t, fst (fst (git E args t)) = 0%Z) ->
  exists w', check_call E args w = (Ok (snd (fst (git E args (files w, dirs w)))), w')
             /\ out w' = out w /\ net w' = net w.
Proof.
  intros H0. destruct (subprocess_run_run E args w) as (w' & Hrun & Ho & Hn).
  exists w'. split; [|done]. unfold check_call. erewrite bind_run by exact Hrun.
  by rewrite H0.
Qed.



(** A whole run on the tree of the examples with a rename staged: the
    export and the prune are done, then the run ends with [ValueError]; an
    added file with its two fields is summarized. *)
Example run_with_a_staged_rename :
  fst (main (with_git (demo_env "DETAIL" "SNIPPETS") demo_rename_git) (Flags true true false true)
         (Some "https://rmm") (Some "key") (Some "repo") demo_world) = Raise ValueError
  /\ commit_message_of ("A" +:+ String TAB "new.ps1" +:+ String LF "") = Ok "created 1: new.ps1".
Proof. split; vm_compute; reflexivity. Qed.

(** ** A pull that fails *)

Lemma mkdir_same_net p : preserves same_net (mkdir p).
Proof. intros w. unfold mkdir. by destruct (existsb (is_file w) (ancestors_or_self p)). Qed.

Lemma check_call_fails E args w :
  (forall t, fst (fst (git E args t)) <> 0%Z) ->
  exists w', check_call E args w = (Raise CalledProcessError, w')
             /\ out w' = out w /\ net w' = net w.
Proof.
  intros Hf. destruct (subprocess_run_run E args w) as (w' & Hrun & Ho & Hn).
  exists w'. split; [|done]. unfold check_call. erewrite bind_run by exact Hrun.
  by rewrite (proj2 (Z.eqb_neq _ _)) by apply Hf.
Qed.

Lemma git_pull_fails E F base w :
  ENABLE_GIT_PULL F = true ->
  (forall t, fst (fst (git E (git_cmd base ["fetch"; "origin"]) t)) <> 0%Z)
  \/ (forall t, fst (fst (git E (git_cmd base ["fetch"; "origin"]) t)) = 0%Z)
     /\ (forall t, fst (fst (git E (git_cmd base ["reset"; "--hard"; "origin/master"]) t)) <> 0%Z) ->
  exists w', git_pull E F base w = (Raise (SystemExit "1"), w')
             /\ net w' = net w
             /\ out w' = out w ++ [[FS "Starting force pull..."];
                                   [FS "Failed to force-pull changes from Git: ";
                                    FE CalledProcessError]].
Proof.
  intros HF Hgit. unfold git_pull. rewrite HF.
  erewrite bind_run by reflexivity. unfold try_except.
  destruct Hgit as [Hfetch | [Hfetch Hreset]].
  - destruct (check_call_fails E _ (snd (print [FS "Starting force pull..."] w)) Hfetch)
      as (w1 & H1 & Ho1 & Hn1).
    erewrite bind_raise by exact H1. simpl.
    eexists. split; [reflexivity|]. simpl. rewrite Ho1, Hn1. simpl.
    split; [done|]. by rewrite <- app_assoc.
  - destruct (check_call_run E _ (snd (print [FS "Starting force pull..."] w)) Hfetch)
      as (w1 & H1 & Ho1 & Hn1).
    erewrite bind_run by exact H1.
    destruct (check_call_fails E _ w1 Hreset) as (w2 & H2 & Ho2 & Hn2).
    erewrite bind_raise by exact H2. simpl.
    eexists. split; [reflexivity|]. simpl. rewrite Ho2, Hn2, Ho1, Hn1. simpl.
    split; [done|]. by rewrite <- app_assoc.
Qed.



(** ** The names of the export and the matching of the reconciler *)

Lemma append_assoc (a b c : string) : (a +:+ b) +:+ c = a +:+ (b +:+ c).
Proof. induction a as [|x a IH]; [done|]. by rewrite !append_cons, IH. Qed.

Lemma append_nil_r (a : string) : a +:+ "" = a.
Proof. induction a as [|x a IH]; [done|]. by rewrite append_cons, IH. Qed.

Lemma length_append (a b : string) :
  String.length (a +:+ b) = String.length a + String.length b.
Proof. induction a as [|x a IH]; [done|]. rewrite append_cons. simpl. by rewrite IH. Qed.

Lemma rev_app_acc s acc : String.rev_app s acc = String.rev s +:+ acc.
Proof.
  unfold String.rev. revert acc. induction s as [|c s IH]; intros acc; [done|].
  cbn [String.rev_app]. rewrite (IH (String c acc)), (IH (String c "")).
  by rewrite append_assoc.
Qed.

Lemma rev_cons c (s : string) : String.rev (String c s) = String.rev s +:+ String c "".
Proof. unfold String.rev at 1. cbn [String.rev_app]. apply rev_app_acc. Qed.

Lemma rev_append (a b : string) : String.rev (a +:+ b) = String.rev b +:+ String.rev a.
Proof.
  induction a as [|c a IH].
  - by rewrite append_nil_l, append_nil_r.
  - by rewrite append_cons, !rev_cons, IH, append_assoc.
Qed.

Lemma length_rev (s : string) : String.length (String.rev s) = String.length s.
Proof.
  induction s as [|c s IH]; [done|].
  rewrite rev_cons, length_append, IH. simpl. lia.
Qed.

Lemma find_char_append c (a b : string) :
  find_char c (a +:+ b)
  = match find_char c a with
    | Some i => Some i
    | None => (fun k => String.length a + k) <$> find_char c b
    end.
Proof.
  induction a as [|x a IH].
  - rewrite append_nil_l. simpl. by destruct (find_char c b).
  - rewrite append_cons. simpl. destruct (Ascii.eqb x c); [done|]. rewrite IH.
    destruct (find_char c a); [done|]. by destruct (find_char c b).
Qed.

Lemma find_char_rev_None c (s : string) :
  find_char c s = None -> find_char c (String.rev s) = None.
Proof.
  induction s as [|x s IH]; [done|]. simpl.
  destruct (Ascii.eqb x c) eqn:Hx; [done|].
  destruct (find_char c s) eqn:Hs; [done|]. intros _.
  rewrite rev_cons, find_char_append, (IH eq_refl).
  simpl. by rewrite Hx.
Qed.

Lemma substring_prefix (a b : string) : String.substring 0 (String.length a) (a +:+ b) = a.
Proof.
  induction a as [|x a IH].
  - rewrite append_nil_l. simpl. by destruct b.
  - rewrite append_cons. simpl. by rewrite IH.
Qed.

Lemma substring_all (s : string) : String.substring 0 (String.length s) s = s.
Proof. rewrite <- (append_nil_r s) at 2. apply substring_prefix. Qed.

(** The stem of a name with a suffix: the name without it. *)
Lemma stem_of_name_suffix (base e : string) :
  base <> "" -> e <> "" -> find_char "."%char e = None ->
  stem_of_name (base +:+ String "."%char e) = base.
Proof.
  intros Hb He Hdot. unfold stem_of_name, rfind_char.
  rewrite rev_append, rev_cons, append_assoc, find_char_append,
    (find_char_rev_None _ _ Hdot).
  rewrite append_cons, append_nil_l. simpl find_char. rewrite ?Ascii.eqb_refl.
  simpl fmap. rewrite length_rev, length_append. simpl String.length.
  assert (0 < String.length base) by (destruct base; [done | simpl; lia]).
  assert (0 < String.length e) by (destruct e; [done | simpl; lia]).
  replace (String.length base + S (String.length e) - 1 - (String.length e + 0))
    with (String.length base) by lia.
  replace (0 <? String.length base) with true by (symmetry; apply Nat.ltb_lt; lia).
  replace (String.length base <? String.length base + S (String.length e) - 1) with true
    by (symmetry; apply Nat.ltb_lt; lia).
  simpl andb. cbv iota. apply substring_prefix.
Qed.

Lemma drop_digits_prefix (ds rest : string) :
  all_digits ds = true -> drop_digits (ds +:+ String " "%char rest) = String " "%char rest.
Proof.
  induction ds as [|c ds IH]; [done|]. simpl all_digits.
  intros [Hc Hds]%andb_true_iff. rewrite append_cons. simpl. rewrite Hc. by apply IH.
Qed.

Lemma strip_id_prefix_digits (ds name : string) :
  ds <> "" -> all_digits ds = true ->
  strip_id_prefix (ds +:+ " - " +:+ name) = name.
Proof.
  intros Hne Hds. unfold strip_id_prefix.
  change (" - " +:+ name) with (String " " (String "-" (String " " name))).
  rewrite (drop_digits_prefix ds _ Hds).
  destruct ds as [|c ds]; [done|]. rewrite append_cons.
  simpl in Hds. apply andb_true_iff in Hds as [Hc _]. rewrite Hc.
  simpl. unfold startswith. simpl. rewrite ?Nat.sub_0_r.
  replace (String.prefix "" name) with true by (by destruct name).
  apply substring_all.
Qed.

Lemma pretty_N_char_digit x : isdigit (pretty_N_char x) = true.
Proof. unfold pretty_N_char. by repeat case_match. Qed.

Lemma pretty_N_go_digits x s :
  all_digits s = true -> all_digits (pretty_N_go x s) = true.
Proof.
  revert s. induction (N.lt_wf_0 x) as [x _ IH]; intros s Hs.
  assert (x = 0 \/ 0 < x)%N as [->|Hx] by lia.
  - by rewrite pretty_N_go_0.
  - rewrite pretty_N_go_step by done. apply IH.
    + by apply N.div_lt.
    + simpl. by rewrite pretty_N_char_digit.
Qed.

Lemma pretty_N_go_not_empty x s : s <> "" -> pretty_N_go x s <> "".
Proof.
  revert s. induction (N.lt_wf_0 x) as [x _ IH]; intros s Hs.
  assert (x = 0 \/ 0 < x)%N as [->|Hx] by lia.
  - by rewrite pretty_N_go_0.
  - rewrite pretty_N_go_step by done. apply IH; [by apply N.div_lt | done].
Qed.

Lemma str_of_Z_digits (z : Z) :
  (0 <= z)%Z -> str_of_Z z <> "" /\ all_digits (str_of_Z z) = true.
Proof.
  intros Hz. unfold str_of_Z, pretty, pretty_Z. destruct z as [|p|p]; [done| |lia].
  unfold pretty, pretty_positive, pretty, pretty_N.
  destruct (decide (N.pos p = 0%N)) as [|_]; [done|].
  rewrite (pretty_N_go_step (N.pos p) "") by lia. split.
  - by apply pretty_N_go_not_empty.
  - apply pretty_N_go_digits. simpl. by rewrite pretty_N_char_digit.
Qed.

Lemma ext_of_suffix shell ext :
  ext_of shell = Ok ext ->
  exists e, ext = String "."%char e /\ e <> "" /\ find_char "."%char e = None.
Proof.
  unfold ext_of. destruct (hashable shell); [|discriminate].
  repeat case_match; intros [= <-]; eexists; (split; [reflexivity|]); by split.
Qed.

Lemma lower_length (s : string) : String.length (lower s) = String.length s.
Proof. induction s as [|c s IH]; simpl; [done | by rewrite IH]. Qed.

(** The names of the two files of a record, as the reconciler compares
    them. *)
Lemma export_names_agree E z name shell ext :
  (0 <= z)%Z -> name <> "" -> ext_of shell = Ok ext ->
  lower (strip_id_prefix (stem_of_name (raw_name_of E (VInt z) name))) = lower name
  /\ lower (stem_of_name (name +:+ ext)) = lower name
  /\ lower (strip_id_prefix (stem_of_name (raw_name_of E VNone name)))
     <> lower (stem_of_name (name +:+ ext)).
Proof.
  intros Hz Hname Hext.
  destruct (ext_of_suffix shell ext Hext) as (e & -> & He & Hdot).
  destruct (str_of_Z_digits z Hz) as [Hne Hds].
  assert (Hscript : stem_of_name (name +:+ String "." e) = name)
    by (by apply stem_of_name_suffix).
  split; [|split].
  - unfold raw_name_of. simpl py_str.
    replace (str_of_Z z +:+ " - " +:+ name +:+ ".json")
      with ((str_of_Z z +:+ " - " +:+ name) +:+ String "." "json")
      by (by rewrite !append_assoc).
    rewrite stem_of_name_suffix; [|by destruct (str_of_Z z)|done|done].
    by rewrite strip_id_prefix_digits.
  - by rewrite Hscript.
  - rewrite Hscript. unfold raw_name_of. simpl py_str.
    replace ("None" +:+ " - " +:+ name +:+ ".json")
      with (("None - " +:+ name) +:+ String "." "json") by (by rewrite !append_assoc).
    rewrite stem_of_name_suffix by done.
    change ("None - " +:+ name) with (String "N" ("one - " +:+ name)).
    unfold strip_id_prefix. change (isdigit "N") with false. cbv iota beta. simpl andb. cbv iota.
    intros Heq. apply (f_equal String.length) in Heq.
    rewrite !lower_length in Heq. simpl in Heq. rewrite length_append in Heq. lia.
Qed.

Lemma head_filter_Some {A} (P : A -> Prop) `{!forall x, Decision (P x)} (l : list A) x :
  x ∈ l -> P x -> exists m, head (filter P l) = Some m /\ P m /\ m ∈ l.
Proof.
  intros Hx HP. assert (Hin : x ∈ filter P l) by (by apply list_elem_of_filter).
  destruct (filter P l) as [|m r] eqn:Hf; [by apply elem_of_nil in Hin|].
  exists m. split; [done|]. apply (list_elem_of_filter P l m). rewrite Hf. left.
Qed.

Lemma stem_path_join (p : path) (n : string) : stem (path_join p n) = stem_of_name n.
Proof. unfold stem, name_of, path_join. by rewrite last_snoc. Qed.

Lemma below_in_category root cat n : below root (path_join (in_category root cat) n) = true.
Proof.
  unfold below, in_category, path_join. apply andb_true_iff.
  destruct (String.eqb cat ""); split; apply bool_decide_eq_true_2.
  - by apply prefix_app_r.
  - intros Heq. apply (f_equal length) in Heq. rewrite length_app in Heq. simpl in Heq. lia.
  - rewrite <- app_assoc. by apply prefix_app_r.
  - intros Heq. apply (f_equal length) in Heq. rewrite !length_app in Heq. simpl in Heq. lia.
Qed.



(** Two scripts [foo] in the categories [A] and [B]: the two snapshots are
    matched with the same file, the first of the scan; and a name with an
    upper-case letter and a dot. *)
Example snapshots_of_two_scripts_with_one_stem :
  find_match demo_twins_world ["repo"; "scripts"]
    (lower (strip_id_prefix (stem ["repo"; "scriptsraw"; "A"; "1 - foo.json"])))
  = Some ["repo"; "scripts"; "B"; "foo.ps1"]
  /\ find_match demo_twins_world ["repo"; "scripts"]
       (lower (strip_id_prefix (stem ["repo"; "scriptsraw"; "B"; "2 - foo.json"])))
     = Some ["repo"; "scripts"; "B"; "foo.ps1"]
  /\ lower (strip_id_prefix (stem ["repo"; "scriptsraw"; "12 - Foo.Bar.json"])) = "foo.bar"
  /\ lower (stem ["repo"; "scripts"; "Foo.Bar.ps1"]) = "foo.bar".
Proof. repeat split; vm_compute; reflexivity. Qed.

(** ** What the export writes *)

Lemma ext_of_length shell ext : ext_of shell = Ok ext -> String.length ext <= 4.
Proof.
  unfold ext_of. destruct (hashable shell); [|discriminate].
  repeat case_match; intros [= <-]; simpl; lia.
Qed.

(** The two files of a record never have the same name. *)
Lemma editable_name_is_not_raw_name E sid name shell ext :
  ext_of shell = Ok ext -> name +:+ ext <> raw_name_of E sid name.
Proof.
  intros Hext Heq. apply ext_of_length in Hext.
  apply (f_equal String.length) in Heq. unfold raw_name_of in Heq.
  rewrite !length_append in Heq. simpl in Heq. lia.
Qed.

Lemma fetch_data_run_files E url hd w v w' :
  fetch_data E url hd w = (v, w') -> files w' = files w.
Proof.
  intros H. destruct (fetch_data_fetched E url hd w) as (_ & Hf & _). by rewrite H in Hf.
Qed.

(** X10: a turn of the export with the writing enabled, for a record that
    is exported.  Afterwards the editable file [{name}{ext}] in the folder
    of the category holds the code of the payload, which is a string; the
    raw snapshot is another file, so the second write does not replace the
    first; and every file other than these two is as it was. *)
Theorem export_turn_writes_the_code E F G sf srf is_snippet s st w st' w' :
  ENABLE_WRITETOFILE F = true ->
  process_scripts_body E F G sf srf is_snippet s st w = (Ok st', w') ->
  exported E G is_snippet s = true ->
  exists sid name cat data code shell ext,
    get s "id" VNone = Ok sid /\ script_name E s = Ok name /\ script_category E s = Ok cat
    /\ payload_of E G is_snippet s = Ok data
    /\ get data "code" VNone = Ok (VStr code)
    /\ get s "shell" VNone = Ok shell /\ ext_of shell = Ok ext
    /\ files w' !! path_join (in_category sf cat) (name +:+ ext) = Some code
    /\ path_join (in_category sf cat) (name +:+ ext)
       <> path_join (in_category srf cat) (raw_name_of E sid name)
    /\ is_Some (files w' !! path_join (in_category srf cat) (raw_name_of E sid name))
    /\ (forall p, p <> path_join (in_category sf cat) (name +:+ ext) ->
                  p <> path_join (in_category srf cat) (raw_name_of E sid name) ->
                  files w' !! p = files w !! p).
Proof.
  intros HF H Hexp. pose proof H as H0.
  apply process_scripts_body_Ok in H0
    as (sid & name & cat & data & Hsid & Hname & Hcat & Hdata & Hcase).
  unfold exported in Hexp. rewrite Hdata in Hexp.
  destruct Hcase as [[Ht _] | [_ (code & shell & ext & merged & Hcode & Hshell & Hext & Hmerged & _
                                  & Hw)]]; [congruence|].
  destruct (Hw HF) as [[c ->] _].
  exists sid, name, cat, data, c, shell, ext.
  assert (Hne : path_join (in_category sf cat) (name +:+ ext)
                <> path_join (in_category srf cat) (raw_name_of E sid name)).
  { unfold path_join. intros Heq. apply app_inj_tail in Heq as [_ Heq].
    by apply (editable_name_is_not_raw_name E sid name shell ext Hext). }
  assert (Hfiles : files w'
                   = <[path_join (in_category srf cat) (raw_name_of E sid name)
                         := json_dumps E false merged]>
                       (<[path_join (in_category sf cat) (name +:+ ext) := c]> (files w))).
  { unfold process_scripts_body in H.
    inv_lift H as sid' Hsid'. rewrite Hsid in Hsid'. injection Hsid' as <-.
    inv_lift H as name' Hname'. rewrite Hname in Hname'. injection Hname' as <-.
    inv_lift H as cat' Hcat'. rewrite Hcat in Hcat'. injection Hcat' as <-.
    inv_bind H as u1 w1 Hmk1. inv_bind H as u2 w2 Hmk2. inv_bind H as data' w3 Hdata'.
    assert (data' = data) as ->.
    { unfold payload_of in Hdata. destruct is_snippet.
      - unfold ret in Hdata'. injection Hdata' as <- _. congruence.
      - rewrite Hsid in Hdata.
        destruct (fetch_data_fetched E (download_url E G sid) (headers G) w2) as [Hf _].
        rewrite Hdata' in Hf. simpl in Hf. congruence. }
    assert (Hf3 : files w3 = files w).
    { destruct u1, u2. apply mkdir_Ok in Hmk1 as (Hf1 & _). apply mkdir_Ok in Hmk2 as (Hf2 & _).
      destruct is_snippet.
      - unfold ret in Hdata'. injection Hdata' as _ <-. congruence.
      - apply fetch_data_run_files in Hdata'. congruence. }
    rewrite Hexp in H. simpl in H.
    inv_lift H as code' Hcode'. rewrite Hcode in Hcode'. injection Hcode' as <-.
    inv_lift H as shell' Hshell'. rewrite Hshell in Hshell'. injection Hshell' as <-.
    inv_lift H as ext' Hext'. rewrite Hext in Hext'. injection Hext' as <-.
    inv_bind H as u3 w4 Hsave1. inv_lift H as merged' Hmerged'.
    rewrite Hmerged in Hmerged'. injection Hmerged' as <-.
    inv_bind H as u4 w5 Hsave2.
    inv_lift H as e He. inv_lift H as r Hr. unfold ret in H. injection H as _ <-.
    destruct u3, u4.
    apply save_file_Ok in Hsave1 as (_ & _ & Hs1). apply save_file_Ok in Hsave2 as (_ & _ & Hs2).
    rewrite HF in Hs1, Hs2.
    destruct Hs1 as (c1 & [= <-] & Hf4). destruct Hs2 as (c2 & [= <-] & Hf5).
    by rewrite Hf5, Hf4, Hf3. }
  repeat split; try done.
  - rewrite Hfiles, lookup_insert_ne by done. apply lookup_insert_eq.
  - rewrite Hfiles, lookup_insert_eq. by eexists.
  - intros p Hp1 Hp2. by rewrite Hfiles, !lookup_insert_ne.
Qed.

Lemma export_turn_witness :
  exists sid name cat data code shell ext,
    get demo_script "id" VNone = Ok sid
    /\ script_name (demo_env "DETAIL" "SNIPPETS") demo_script = Ok name
    /\ script_category (demo_env "DETAIL" "SNIPPETS") demo_script = Ok cat
    /\ payload_of (demo_env "DETAIL" "SNIPPETS") demo_globals false demo_script = Ok data
    /\ get data "code" VNone = Ok (VStr code)
    /\ get demo_script "shell" VNone = Ok shell /\ ext_of shell = Ok ext
    /\ files (snd demo_wet_turn) !! path_join (in_category ["repo"; "scripts"] cat) (name +:+ ext)
       = Some code
    /\ path_join (in_category ["repo"; "scripts"] cat) (name +:+ ext)
       <> path_join (in_category ["repo"; "scriptsraw"] cat)
            (raw_name_of (demo_env "DETAIL" "SNIPPETS") sid name)
    /\ is_Some (files (snd demo_wet_turn)
                  !! path_join (in_category ["repo"; "scriptsraw"] cat)
                       (raw_name_of (demo_env "DETAIL" "SNIPPETS") sid name))
    /\ (forall p, p <> path_join (in_category ["repo"; "scripts"] cat) (name +:+ ext) ->
                  p <> path_join (in_category ["repo"; "scriptsraw"] cat)
                         (raw_name_of (demo_env "DETAIL" "SNIPPETS") sid name) ->
                  files (snd demo_wet_turn) !! p = files demo_world !! p).
Proof.
  apply (export_turn_writes_the_code (demo_env "DETAIL" "SNIPPETS") wet demo_globals
           ["repo"; "scripts"] ["repo"; "scriptsraw"] false demo_script (∅, []) demo_world
           (value_of (fst demo_wet_turn) (∅, []))).
  - reflexivity.
  - apply (returns_eta demo_wet_turn). vm_compute. reflexivity.
  - vm_compute. reflexivity.
Defined.

(** The files of that turn. *)
Example export_turn_example :
  map_to_list (files (snd demo_wet_turn))
  = [(["repo"; "scriptsraw"; "1 - foo.json"], "{id,code,name,shell,script_type}");
     (["repo"; "scripts"; "foo.ps1"], "Write-Host hi")].
Proof. vm_compute. reflexivity. Qed.

(** ** The shell summary *)

Lemma tally_incr_total t k : tally_total (tally_incr t k) = S (tally_total t).
Proof.
  unfold tally_total. induction t as [|[k' n] t IH]; [done|].
  cbn [tally_incr]. destruct (key_eqb k' k); rewrite !fmap_cons; cbn [snd sum_list_with];
    rewrite ?IH; change (id (S n)) with (S n); change (id n) with n; lia.
Qed.

Lemma export_loop_tally E F G sf srf is_snippet items st w st' w' :
  for_fold items st (process_scripts_body E F G sf srf is_snippet) w = (Ok st', w') ->
  tally_total (snd st')
  = tally_total (snd st) + (if is_snippet then 0 else exported_count E G is_snippet items).
Proof.
  revert st w. induction items as [|s items IH]; intros st w H; simpl in H.
  - unfold ret in H. injection H as <- _. unfold exported_count. destruct is_snippet; simpl; lia.
  - inv_bind H as st1 w1 Hb. apply IH in H. rewrite H.
    apply process_scripts_body_Ok in Hb
      as (sid & name & cat & data & Hsid & Hname & Hcat & Hdata & Hcase).
    assert (Hex : exported E G is_snippet s = truthy data)
      by (unfold exported; by rewrite Hdata).
    unfold exported_count. rewrite filter_cons.
    destruct Hcase as [[Ht ->] | [Ht (code & shell & ext & merged & _ & _ & _ & _ & -> & _)]].
    + rewrite decide_False by congruence. done.
    + rewrite decide_True by congruence. destruct is_snippet; simpl; [lia|].
      rewrite tally_incr_total. lia.
Qed.

(** X11: the shell summary counts the exported scripts, one count per
    script under its shell, and nothing else: a run of [process_scripts]
    over scripts raises the total of the counts by the number of records
    that are exported, a run over snippets leaves the tally as it was in
    total; so the counts that [main] prints add up to the number of
    exported scripts. *)
Theorem shell_summary_counts_the_scripts E F G :
  (forall v sf srf tally is_snippet w st w' items,
     process_scripts E F G v sf srf tally is_snippet w = (Ok st, w') ->
     iterate v = Ok items ->
     tally_total (snd st)
     = tally_total tally + (if is_snippet then 0 else exported_count E G false items))
  /\ (forall folders w st w' scripts_items,
        main_export E F G folders w = (Ok st, w') ->
        listed_scripts E G = Ok scripts_items ->
        tally_total (snd st) = exported_count E G false scripts_items).
Proof.
  assert (Hps : forall v sf srf tally is_snippet w st w' items,
     process_scripts E F G v sf srf tally is_snippet w = (Ok st, w') ->
     iterate v = Ok items ->
     tally_total (snd st)
     = tally_total tally + (if is_snippet then 0 else exported_count E G false items)).
  { intros v sf srf tally is_snippet w st w' items H Hit. unfold process_scripts in H.
    inv_bind H as u1 w1 Hp1. inv_lift H as items' Hit'. rewrite Hit in Hit'. injection Hit' as <-.
    inv_bind H as st1 w2 Hloop. inv_bind H as u2 w3 Hp2. unfold ret in H. injection H as <- _.
    apply export_loop_tally in Hloop. rewrite Hloop. simpl. by destruct is_snippet. }
  split; [exact Hps|].
  intros folders w st w' scripts_items H Hl. unfold main_export in H.
  inv_bind H as u1 w1 Hp1. inv_bind H as listed w2 Hfetch1.
  inv_lift H as items Hitems. inv_lift H as uds Huds.
  inv_bind H as st1 w3 Hps1. inv_bind H as u2 w4 Hp2.
  inv_bind H as snippets_v w5 Hfetch2. inv_bind H as st2 w6 Hps2.
  unfold ret in H. injection H as <- _. simpl.
  apply fetch_data_Ok in Hfetch1 as [Hl1 _].
  unfold listed_scripts in Hl. rewrite Hl1, Hitems, Huds in Hl. injection Hl as <-.
  pose proof Hps2 as Hps2'.
  apply process_scripts_Ok in Hps2' as (items2 & Hit2 & _).
  rewrite (Hps _ _ _ _ _ _ _ _ _ Hps2 Hit2), (Hps _ _ _ _ _ _ _ _ _ Hps1 eq_refl).
  simpl. unfold tally_total. simpl. lia.
Qed.

Lemma shell_summary_witness :
  tally_total (snd (value_of (fst demo_scripts_run) (∅, [])))
  = tally_total [] + (if false then 0
                      else exported_count (demo_env "DETAIL" "SNIPPETS") demo_globals false
                             [demo_script])
  /\ tally_total (snd (value_of (fst demo_export) (∅, [])))
     = exported_count (demo_env "DETAIL" "SNIPPETS") demo_globals false [demo_script].
Proof.
  destruct (shell_summary_counts_the_scripts (demo_env "DETAIL" "SNIPPETS") simulate demo_globals)
    as [Hps Hmain].
  split.
  - apply (Hps (VList [demo_script]) ["repo"; "scripts"] ["repo"; "scriptsraw"] [] false
             demo_world _ (snd demo_scripts_run)).
    + apply (returns_eta demo_scripts_run). vm_compute. reflexivity.
    + reflexivity.
  - apply (Hmain demo_folders demo_edited_world _ (snd demo_export)).
    + apply (returns_eta demo_export). vm_compute. reflexivity.
    + vm_compute. reflexivity.
Defined.

(** The summary of the examples: one PowerShell script; the snippet, in
    Python, is not counted. *)
Example shell_summary_example :
  snd (value_of (fst demo_export) (∅, [])) = [(VStr "powershell", 1)].
Proof. vm_compute. reflexivity. Qed.

(** ** A snapshot that is in sync *)

(** X12: a snapshot whose script was not edited is left alone.  When the
    hash of the matched file is the hash of the code in the snapshot, the
    turn of [write_modifications_to_api] returns after the two lines that
    report the match and the hashes, whatever the flags: nothing is pushed
    and nothing is raised, with the writeback enabled too. *)
Theorem snapshot_in_sync_is_left_alone E F G folders token raw_path w m content t d c :
  find_match w (scripts folders) (lower (strip_id_prefix (stem raw_path))) = Some m ->
  files w !! m = Some content ->
  files w !! raw_path = Some t ->
  json_loads E t = Some (VDict d) ->
  default (VStr "") (dict_lookup d "code") = VStr c ->
  sha256_hexdigest E content = sha256_hexdigest E c ->
  reconcile_one E F G folders token raw_path w
  = (Ok tt,
     World (files w) (dirs w)
       (out w ++ [[FS "Matched: "; FP m; FS " <-> "; FP raw_path];
                  [FS "Script hash: "; FH (Some (sha256_hexdigest E content));
                   FS "JSON hash:   "; FS (sha256_hexdigest E c)]])
       (net w)).
Proof.
  intros Hmatch Hm Hraw Hjson Hcode Heq.
  unfold reconcile_one.
  erewrite bind_run by reflexivity. rewrite Hmatch.
  erewrite bind_run by reflexivity.
  erewrite bind_run by (unfold compute_hash, bind, get_world; simpl; rewrite Hm; reflexivity).
  erewrite bind_run
    by (unfold json_load, bind, read_bytes; simpl; rewrite Hraw, Hjson; reflexivity).
  erewrite bind_run by reflexivity. simpl default. rewrite Hcode.
  erewrite bind_run by reflexivity.
  erewrite bind_run by reflexivity.
  rewrite bool_decide_eq_false_2 by (intros Hne; apply Hne; by rewrite Heq).
  unfold ret, print. simpl. by rewrite <- app_assoc.
Qed.

Lemma snapshot_in_sync_witness :
  reconcile_one (demo_env "DETAIL" "SNIPPETS") wet demo_globals demo_folders "key"
    ["repo"; "scriptsraw"; "1 - foo.json"] demo_synced_world
  = (Ok tt,
     World (files demo_synced_world) (dirs demo_synced_world)
       (out demo_synced_world
          ++ [[FS "Matched: "; FP ["repo"; "scripts"; "foo.ps1"]; FS " <-> ";
               FP ["repo"; "scriptsraw"; "1 - foo.json"]];
              [FS "Script hash: ";
               FH (Some (sha256_hexdigest (demo_env "DETAIL" "SNIPPETS") "Write-Host hi"));
               FS "JSON hash:   ";
               FS (sha256_hexdigest (demo_env "DETAIL" "SNIPPETS") "Write-Host hi")]])
       (net demo_synced_world)).
Proof.
  apply (snapshot_in_sync_is_left_alone (demo_env "DETAIL" "SNIPPETS") wet demo_globals
           demo_folders "key" ["repo"; "scriptsraw"; "1 - foo.json"] demo_synced_world
           ["repo"; "scripts"; "foo.ps1"] "Write-Host hi" "RAW"
           [("id", VInt 1); ("code", VStr "Write-Host hi")] "Write-Host hi").
  - vm_compute. reflexivity.
  - vm_compute. reflexivity.
  - vm_compute. reflexivity.
  - reflexivity.
  - reflexivity.
  - reflexivity.
Defined.

(** ** The requests of the export *)

Lemma process_scripts_body_net E F G sf srf is_snippet s st w st' w' :
  process_scripts_body E F G sf srf is_snippet s st w = (Ok st', w') ->
  net w' = net w ++ (if is_snippet then [] else [download_request E G s]).
Proof.
  unfold process_scripts_body. intros H.
  inv_lift H as sid Hsid. inv_lift H as name Hname. inv_lift H as cat Hcat.
  inv_bind H as u1 w1 Hmk1. inv_bind H as u2 w2 Hmk2. inv_bind H as data w3 Hdata.
  destruct u1, u2. apply mkdir_Ok in Hmk1 as (_ & Hn1 & _). apply mkdir_Ok in Hmk2 as (_ & Hn2 & _).
  assert (Hn3 : net w3 = net w ++ (if is_snippet then [] else [download_request E G s])).
  { destruct is_snippet.
    - unfold ret in Hdata. injection Hdata as _ <-. rewrite app_nil_r. congruence.
    - destruct (fetch_data_fetched E (download_url E G sid) (headers G) w2) as (_ & _ & _ & Hn).
      rewrite Hdata in Hn. simpl in Hn. unfold download_request. rewrite Hsid. simpl.
      congruence. }
  destruct (truthy data); simpl in H.
  2:{ unfold ret in H. by injection H as _ <-. }
  inv_lift H as code Hcode. inv_lift H as shell Hshell. inv_lift H as ext Hext.
  inv_bind H as u3 w4 Hsave1. inv_lift H as merged Hmerged. inv_bind H as u4 w5 Hsave2.
  inv_lift H as e He. inv_lift H as r Hr. unfold ret in H. injection H as _ <-.
  destruct u3, u4.
  apply save_file_Ok in Hsave1 as (_ & Hn4 & _). apply save_file_Ok in Hsave2 as (_ & Hn5 & _).
  congruence.
Qed.

Lemma export_loop_net E F G sf srf is_snippet items st w st' w' :
  for_fold items st (process_scripts_body E F G sf srf is_snippet) w = (Ok st', w') ->
  net w' = net w ++ (if is_snippet then [] else map (download_request E G) items).
Proof.
  revert st w. induction items as [|s items IH]; intros st w H; simpl in H.
  - unfold ret in H. injection H as _ <-. destruct is_snippet; by rewrite app_nil_r.
  - inv_bind H as st1 w1 Hb. apply IH in H. apply process_scripts_body_net in Hb.
    rewrite H, Hb. destruct is_snippet; simpl; by rewrite <- app_assoc.
Qed.

Lemma process_scripts_net E F G v sf srf tally is_snippet w st w' items :
  process_scripts E F G v sf srf tally is_snippet w = (Ok st, w') ->
  iterate v = Ok items ->
  net w' = net w ++ (if is_snippet then [] else map (download_request E G) items).
Proof.
  unfold process_scripts. intros H Hit.
  inv_bind H as u1 w1 Hp1. inv_lift H as items' Hit'. rewrite Hit in Hit'. injection Hit' as <-.
  inv_bind H as st1 w2 Hloop. inv_bind H as u2 w3 Hp2. unfold ret in H. injection H as _ <-.
  apply export_loop_net in Hloop. unfold print in Hp1, Hp2.
  injection Hp1 as _ <-. injection Hp2 as _ <-. exact Hloop.
Qed.

Lemma userdefined_spec items l :
  userdefined items = Ok l -> l = filter (fun item => is_userdefined item = true) items.
Proof.
  revert l. induction items as [|item items IH]; intros l; simpl.
  - by intros [= <-].
  - destruct (get item "script_type" VNone) as [t|] eqn:Ht; [|discriminate].
    destruct (userdefined items) as [rest|]; [|discriminate].
    intros [= <-]. rewrite filter_cons, <- (IH rest eq_refl).
    assert (Hu : is_userdefined item = eq_str t "userdefined")
      by (unfold is_userdefined; by rewrite Ht).
    destruct (eq_str t "userdefined");
      [by rewrite decide_True | by rewrite decide_False by congruence].
Qed.

(** X13: the requests of an export that returns.  It asks for the list of
    the scripts, then for the payload of every listed record whose
    [script_type] is [userdefined], in the order of the list and whether the
    record ends up exported or not, then for the list of the snippets, whose
    payloads are not downloaded: the export sends these GET requests and
    nothing else, in particular it never writes to the server. *)
Theorem export_requests E F G folders w st w' scripts_items :
  main_export E F G folders w = (Ok st, w') ->
  listed_scripts E G = Ok scripts_items ->
  net w' = net w ++ [GET (domain G +:+ "/scripts/?showHiddenScripts=true")]
             ++ map (download_request E G) scripts_items
             ++ [GET (domain G +:+ "/scripts/snippets/")]
  /\ Forall (fun s => is_userdefined s = true) scripts_items.
Proof.
  intros H Hl. unfold main_export in H.
  inv_bind H as u1 w1 Hp1. inv_bind H as listed w2 Hfetch1.
  inv_lift H as items Hitems. inv_lift H as uds Huds.
  inv_bind H as st1 w3 Hps1. inv_bind H as u2 w4 Hp2.
  inv_bind H as snippets_v w5 Hfetch2. inv_bind H as st2 w6 Hps2.
  unfold ret in H. injection H as _ <-.
  pose proof (fetch_data_fetched E (domain G +:+ "/scripts/?showHiddenScripts=true")
                (headers G) w1) as (Hv1 & _ & _ & Hn1).
  rewrite Hfetch1 in Hv1, Hn1. simpl in Hv1, Hn1.
  pose proof (fetch_data_fetched E (domain G +:+ "/scripts/snippets/") (headers G) w4)
    as (_ & _ & _ & Hn2).
  rewrite Hfetch2 in Hn2. simpl in Hn2.
  unfold listed_scripts in Hl. rewrite <- Hv1, Hitems, Huds in Hl. injection Hl as <-.
  pose proof Hps2 as Hps2'. apply process_scripts_Ok in Hps2' as (items2 & Hit2 & _).
  apply (process_scripts_net _ _ _ _ _ _ _ _ _ _ _ uds) in Hps1; [|done].
  apply (process_scripts_net _ _ _ _ _ _ _ _ _ _ _ items2) in Hps2; [|done].
  unfold print in Hp1, Hp2. injection Hp1 as _ <-. injection Hp2 as _ <-.
  simpl in *. split.
  - rewrite Hps2, app_nil_r, Hn2, Hps1, Hn1. by rewrite <- !app_assoc.
  - apply userdefined_spec in Huds. rewrite Huds. apply Forall_forall.
    intros s Hs. by apply list_elem_of_filter in Hs as [Hs _].
Qed.

Lemma export_requests_witness :
  net (snd demo_export)
  = net demo_edited_world ++ [GET (domain demo_globals +:+ "/scripts/?showHiddenScripts=true")]
      ++ map (download_request (demo_env "DETAIL" "SNIPPETS") demo_globals) [demo_script]
      ++ [GET (domain demo_globals +:+ "/scripts/snippets/")]
  /\ Forall (fun s => is_userdefined s = true) [demo_script].
Proof.
  apply (export_requests (demo_env "DETAIL" "SNIPPETS") simulate demo_globals demo_folders
           demo_edited_world (value_of (fst demo_export) (∅, [])) (snd demo_export) [demo_script]).
  - apply (returns_eta demo_export). vm_compute. reflexivity.
  - vm_compute. reflexivity.
Defined.

(** The requests of the export of the examples. *)
Example export_requests_example :
  net (snd demo_export)
  = [GET "https://rmm/scripts/?showHiddenScripts=true";
     GET "https://rmm/scripts/1/download/?with_snippets=false";
     GET "https://rmm/scripts/snippets/"].
Proof. vm_compute. reflexivity. Qed.

(** ** The git commands of the push *)

Lemma subprocess_run_tree E args w :
  exists w', subprocess_run E args w = (Ok (fst (git E args (tree w))), w')
             /\ tree w' = snd (git E args (tree w))
             /\ out w' = out w /\ net w' = net w.
Proof.
  unfold subprocess_run, tree. destruct (git E args (files w, dirs w)) as [r [f d]]. eauto.
Qed.

Lemma check_call_tree E args w :
  fst (fst (git E args (tree w))) = 0%Z ->
  exists w', check_call E args w = (Ok (snd (fst (git E args (tree w)))), w')
             /\ tree w' = snd (git E args (tree w))
             /\ out w' = out w /\ net w' = net w.
Proof.
  intros H0. destruct (subprocess_run_tree E args w) as (w' & Hrun & Ht & Ho & Hn).
  exists w'. split; [|done]. unfold check_call. erewrite bind_run by exact Hrun.
  by rewrite H0.
Qed.

Lemma check_call_tree_fails E args w :
  fst (fst (git E args (tree w))) <> 0%Z ->
  exists w', check_call E args w = (Raise CalledProcessError, w')
             /\ tree w' = snd (git E args (tree w))
             /\ out w' = out w /\ net w' = net w.
Proof.
  intros Hf. destruct (subprocess_run_tree E args w) as (w' & Hrun & Ht & Ho & Hn).
  exists w'. split; [|done]. unfold check_call. erewrite bind_run by exact Hrun.
  by rewrite (proj2 (Z.eqb_neq _ _)).
Qed.

(** X14: the push when every git command succeeds, no rebase is in
    progress and the branch is not named [HEAD].  With a clean status
    [git_push] runs the three commands that inspect the repository and
    prints that there is nothing to commit.  Otherwise it goes on with
    [git add .], the diff of the staged changes, [git commit -m] with the
    message synthesized from that diff and [git push origin] to the current
    branch, or to [update-scripts] when git names no branch, in this order
    and nothing else, and prints the two lines that say so. *)
Theorem git_push_commits_the_synthesized_message E F base w head status stdout msg :
  ENABLE_GIT_PUSH F = true ->
  (forall t, fst (fst (git E (git_cmd base ["rebase"; "--show-current-patch"]) t)) <> 0%Z) ->
  (forall t, snd (fst (git E (git_cmd base ["rev-parse"; "--abbrev-ref"; "HEAD"]) t)) = head) ->
  strip head <> "HEAD" ->
  (forall t, snd (fst (git E (git_cmd base ["status"; "--porcelain"]) t)) = status) ->
  (forall t, fst (fst (git E (git_cmd base ["add"; "."]) t)) = 0%Z) ->
  (forall t, fst (git E (git_cmd base ["diff"; "--cached"; "--name-status"]) t) = (0%Z, stdout)) ->
  commit_message_of stdout = Ok msg ->
  (forall t, fst (fst (git E (git_cmd base ["commit"; "-m"; msg]) t)) = 0%Z) ->
  (forall t, fst (fst (git E (git_cmd base ["push"; "origin"; branch_of head]) t)) = 0%Z) ->
  fst (git_push E F base w) = Ok tt
  /\ out (snd (git_push E F base w))
     = out w ++ (if String.eqb status "" then [[FS "No changes to commit."]]
                 else [[FS "Committed changes to branch '"; FS (branch_of head); FS "': "; FS msg];
                       [FS "Changes pushed to branch '"; FS (branch_of head); FS "'"]])
  /\ tree (snd (git_push E F base w))
     = git_run E
         ([git_cmd base ["rebase"; "--show-current-patch"];
           git_cmd base ["rev-parse"; "--abbrev-ref"; "HEAD"];
           git_cmd base ["status"; "--porcelain"]]
          ++ (if String.eqb status "" then []
              else [git_cmd base ["add"; "."];
                    git_cmd base ["diff"; "--cached"; "--name-status"];
                    git_cmd base ["commit"; "-m"; msg];
                    git_cmd base ["push"; "origin"; branch_of head]]))
         (tree w).
Proof.
  intros HF Hrebase Hhead Hne Hstatus Hadd Hdiff Hmsg Hcommit Hpush.
  assert (Hrun : exists w', git_push E F base w = (Ok tt, w')
    /\ out w' = out w ++ (if String.eqb status "" then [[FS "No changes to commit."]]
                 else [[FS "Committed changes to branch '"; FS (branch_of head); FS "': "; FS msg];
                       [FS "Changes pushed to branch '"; FS (branch_of head); FS "'"]])
    /\ tree w'
       = git_run E
           ([git_cmd base ["rebase"; "--show-current-patch"];
             git_cmd base ["rev-parse"; "--abbrev-ref"; "HEAD"];
             git_cmd base ["status"; "--porcelain"]]
            ++ (if String.eqb status "" then []
                else [git_cmd base ["add"; "."];
                      git_cmd base ["diff"; "--cached"; "--name-status"];
                      git_cmd base ["commit"; "-m"; msg];
                      git_cmd base ["push"; "origin"; branch_of head]]))
           (tree w)).
  { unfold git_push. rewrite HF. unfold try_except.
    destruct (subprocess_run_tree E (git_cmd base ["rebase"; "--show-current-patch"]) w)
      as (w1 & H1 & Ht1 & Ho1 & _).
    erewrite bind_run by exact H1.
    rewrite (proj2 (Z.eqb_neq _ _)) by apply Hrebase.
    erewrite bind_run by reflexivity.
    destruct (subprocess_run_tree E (git_cmd base ["rev-parse"; "--abbrev-ref"; "HEAD"]) w1)
      as (w2 & H2 & Ht2 & Ho2 & _).
    erewrite bind_run by exact H2. cbv zeta. rewrite Hhead. fold (branch_of head).
    assert (Hb : String.eqb (branch_of head) "HEAD" = false).
    { unfold branch_of. destruct (String.eqb (strip head) ""); [reflexivity|].
      by apply String.eqb_neq. }
    rewrite Hb. erewrite bind_run by reflexivity.
    destruct (subprocess_run_tree E (git_cmd base ["status"; "--porcelain"]) w2)
      as (w3 & H3 & Ht3 & Ho3 & _).
    erewrite bind_run by exact H3. rewrite Hstatus.
    destruct (String.eqb status "") eqn:Hs.
    - simpl. eexists. split; [reflexivity|]. simpl. split; [congruence|].
      unfold git_run. simpl foldl. rewrite <- Ht1, <- Ht2, <- Ht3. reflexivity.
    - change (negb false) with true. cbv iota.
      destruct (check_call_tree E (git_cmd base ["add"; "."]) w3 (Hadd _))
        as (w4 & H4 & Ht4 & Ho4 & _).
      erewrite bind_run by exact H4.
      destruct (check_call_tree E (git_cmd base ["diff"; "--cached"; "--name-status"]) w4)
        as (w5 & H5 & Ht5 & Ho5 & _).
      { by rewrite Hdiff. }
      erewrite bind_run by exact H5. rewrite Hdiff. simpl snd.
      erewrite bind_run by (unfold lift; rewrite Hmsg; reflexivity).
      destruct (check_call_tree E (git_cmd base ["commit"; "-m"; msg]) w5 (Hcommit _))
        as (w6 & H6 & Ht6 & Ho6 & _).
      erewrite bind_run by exact H6.
      erewrite bind_run by reflexivity.
      match goal with |- context [bind (check_call E ?a) _ ?w0] =>
        destruct (check_call_tree E a w0 (Hpush _)) as (w7 & H7 & Ht7 & Ho7 & _) end.
      erewrite bind_run by exact H7.
      simpl. eexists. split; [reflexivity|]. simpl. split.
      + rewrite Ho7. simpl. rewrite Ho6, Ho5, Ho4, Ho3, Ho2, Ho1. by rewrite <- app_assoc.
      + unfold git_run. simpl foldl. rewrite <- Ht1, <- Ht2, <- Ht3, <- Ht4, <- Ht5, <- Ht6.
        exact Ht7. }
  destruct Hrun as (w' & -> & Ho & Ht). by repeat split.
Qed.

Lemma git_push_witness :
  fst (git_push (with_git (demo_env "DETAIL" "SNIPPETS") demo_commit_git) wet ["repo"] demo_world)
  = Ok tt
  /\ out (snd (git_push (with_git (demo_env "DETAIL" "SNIPPETS") demo_commit_git) wet ["repo"]
                 demo_world))
     = out demo_world
       ++ (if String.eqb (" M scripts/foo.ps1" +:+ String LF "") ""
           then [[FS "No changes to commit."]]
           else [[FS "Committed changes to branch '";
                  FS (branch_of ("master" +:+ String LF "")); FS "': ";
                  FS "modified 1: scripts/foo.ps1"];
                 [FS "Changes pushed to branch '";
                  FS (branch_of ("master" +:+ String LF "")); FS "'"]])
  /\ tree (snd (git_push (with_git (demo_env "DETAIL" "SNIPPETS") demo_commit_git) wet ["repo"]
                  demo_world))
     = git_run (with_git (demo_env "DETAIL" "SNIPPETS") demo_commit_git)
         ([git_cmd ["repo"] ["rebase"; "--show-current-patch"];
           git_cmd ["repo"] ["rev-parse"; "--abbrev-ref"; "HEAD"];
           git_cmd ["repo"] ["status"; "--porcelain"]]
          ++ (if String.eqb (" M scripts/foo.ps1" +:+ String LF "") "" then []
              else [git_cmd ["repo"] ["add"; "."];
                    git_cmd ["repo"] ["diff"; "--cached"; "--name-status"];
                    git_cmd ["repo"] ["commit"; "-m"; "modified 1: scripts/foo.ps1"];
                    git_cmd ["repo"] ["push"; "origin"; branch_of ("master" +:+ String LF "")]]))
         (tree demo_world).
Proof.
  apply (git_push_commits_the_synthesized_message
           (with_git (demo_env "DETAIL" "SNIPPETS") demo_commit_git) wet ["repo"] demo_world
           ("master" +:+ String LF "") (" M scripts/foo.ps1" +:+ String LF "")
           ("M" +:+ String TAB "scripts/foo.ps1" +:+ String LF
              ("M" +:+ String TAB "scriptsraw/1 - foo.json" +:+ String LF ""))
           "modified 1: scripts/foo.ps1").
  - reflexivity.
  - intros t. simpl. lia.
  - intros t. reflexivity.
  - vm_compute. discriminate.
  - intros t. reflexivity.
  - intros t. reflexivity.
  - intros t. reflexivity.
  - vm_compute. reflexivity.
  - intros t. reflexivity.
  - intros t. reflexivity.
Defined.

(** That push on the git of the examples, which keeps the message of the
    commit and the branch of the push in the tree; and the branch when git
    names none. *)
Example git_push_example :
  out (snd (git_push (with_git (demo_env "DETAIL" "SNIPPETS") demo_commit_git) wet ["repo"]
              demo_world))
  = [[FS "Committed changes to branch '"; FS "master"; FS "': ";
      FS "modified 1: scripts/foo.ps1"];
     [FS "Changes pushed to branch '"; FS "master"; FS "'"]]
  /\ map_to_list (files (snd (git_push (with_git (demo_env "DETAIL" "SNIPPETS") demo_commit_git)
                                wet ["repo"] demo_world)))
     = [([".git"; "pushed"], "master");
        ([".git"; "COMMIT_EDITMSG"], "modified 1: scripts/foo.ps1")]
  /\ branch_of (String LF "") = "update-scripts".
Proof. repeat split; vm_compute; reflexivity. Qed.



(** The push of the examples when [git add] fails: nothing is committed
    or pushed. *)
Example git_failures_example :
  out (snd (git_push (with_git (demo_env "DETAIL" "SNIPPETS") demo_failing_add_git) wet
              ["repo"] demo_world))
  = [[FS "Git operation failed: "; FE CalledProcessError]]
  /\ map_to_list (files (snd (git_push (with_git (demo_env "DETAIL" "SNIPPETS")
                                          demo_failing_add_git) wet ["repo"] demo_world)))
     = [].
Proof. split; vm_compute; reflexivity. Qed.

(** ** What the program sends to the server *)

#[local] Instance reads_only_refl : Reflexive reads_only.
Proof. intros w. exists []. rewrite app_nil_r. by split. Qed.

#[local] Instance reads_only_trans : Transitive reads_only.
Proof.
  intros a b c (l1 & H1 & Hl1) (l2 & H2 & Hl2). exists (l1 ++ l2).
  split; [by rewrite H2, H1, app_assoc | by apply Forall_app].
Qed.

Lemma same_net_reads_only {A} (m : M A) : preserves same_net m -> preserves reads_only m.
Proof. intros Hm w. exists []. rewrite app_nil_r. split; [apply Hm | constructor]. Qed.

Lemma fetch_data_reads_only E url hd : preserves reads_only (fetch_data E url hd).
Proof.
  intros w. destruct (fetch_data_fetched E url hd w) as (_ & _ & _ & Hn).
  exists [GET url]. split; [done|]. by repeat constructor.
Qed.

Lemma save_file_same_net E F p c j : preserves same_net (save_file E F p c j).
Proof.
  intros w. unfold save_file. destruct (ENABLE_WRITETOFILE F); [|done].
  unfold bind, write_text, print. destruct (if j then _ else _); try done.
  by destruct (is_dir w p || negb (is_dir w (removelast p))).
Qed.

Lemma process_scripts_reads_only E F G v sf srf tally is_snippet :
  preserves reads_only (process_scripts E F G v sf srf tally is_snippet).
Proof.
  unfold process_scripts.
  apply preserves_bind; [apply _ | apply same_net_reads_only, print_same_net | intros _].
  apply preserves_bind; [apply _ | apply preserves_lift; apply _ | intros items].
  apply preserves_bind; [apply _ | | intros st].
  2:{ apply preserves_bind; [apply _ | apply same_net_reads_only, print_same_net | intros _].
      apply preserves_ret; apply _. }
  apply preserves_for_fold; [apply _ ..|]. intros s st. unfold process_scripts_body.
  do 3 (apply preserves_bind; [apply _ | apply preserves_lift; apply _ | intros ?]).
  do 2 (apply preserves_bind; [apply _ | apply same_net_reads_only, mkdir_same_net | intros ?]).
  apply preserves_bind; [apply _ | | intros data].
  { destruct is_snippet; [apply preserves_ret; apply _ | apply fetch_data_reads_only]. }
  apply preserves_if; [apply preserves_ret; apply _|].
  do 3 (apply preserves_bind; [apply _ | apply preserves_lift; apply _ | intros ?]).
  apply preserves_bind; [apply _ | apply same_net_reads_only, save_file_same_net | intros ?].
  apply preserves_bind; [apply _ | apply preserves_lift; apply _ | intros ?].
  apply preserves_bind; [apply _ | apply same_net_reads_only, save_file_same_net | intros ?].
  do 2 (apply preserves_bind; [apply _ | apply preserves_lift; apply _ | intros ?]).
  apply preserves_ret; apply _.
Qed.

Lemma subprocess_run_same_net E args : preserves same_net (subprocess_run E args).
Proof.
  intros w. unfold subprocess_run. by destruct (git E args (files w, dirs w)) as [r [f d]].
Qed.

Lemma check_call_same_net E args : preserves same_net (check_call E args).
Proof.
  apply preserves_bind; [apply _ | apply subprocess_run_same_net | intros r].
  apply preserves_if; [apply preserves_ret | apply preserves_raise]; apply _.
Qed.

Lemma git_pull_same_net E F base : preserves same_net (git_pull E F base).
Proof.
  unfold git_pull. apply preserves_if; [|apply print_same_net].
  apply preserves_bind; [apply _ | apply print_same_net | intros _].
  apply preserves_try_except; [apply _ | |].
  - do 2 (apply preserves_bind; [apply _ | apply check_call_same_net | intros _]).
    apply print_same_net.
  - intros e. apply preserves_bind; [apply _ | apply print_same_net | intros _].
    apply preserves_raise; apply _.
Qed.

Lemma git_push_same_net E F base : preserves same_net (git_push E F base).
Proof.
  unfold git_push. apply preserves_if; [|apply print_same_net].
  apply preserves_try_except; [apply _ | | intros e; apply print_same_net].
  apply preserves_bind; [apply _ | apply subprocess_run_same_net | intros rebase].
  apply preserves_bind; [apply _ | | intros _].
  { apply preserves_if; [apply preserves_raise | apply preserves_ret]; apply _. }
  apply preserves_bind; [apply _ | apply subprocess_run_same_net | intros head_name].
  cbv zeta. apply preserves_bind; [apply _ | | intros _].
  { apply preserves_if; [|apply preserves_ret; apply _].
    apply preserves_bind; [apply _ | apply check_call_same_net | intros _].
    apply preserves_ret; apply _. }
  apply preserves_bind; [apply _ | apply subprocess_run_same_net | intros status_result].
  apply preserves_if; [|apply print_same_net].
  do 2 (apply preserves_bind; [apply _ | apply check_call_same_net | intros ?]).
  apply preserves_bind; [apply _ | apply preserves_lift; apply _ | intros ?].
  apply preserves_bind; [apply _ | apply check_call_same_net | intros ?].
  apply preserves_bind; [apply _ | apply print_same_net | intros ?].
  apply preserves_bind; [apply _ | apply check_call_same_net | intros ?].
  apply print_same_net.
Qed.

Lemma delete_obsolete_files_same_net E folder current :
  preserves same_net (delete_obsolete_files E folder current).
Proof.
  unfold delete_obsolete_files.
  apply preserves_bind; [apply _ | apply print_same_net | intros _].
  apply preserves_bind; [apply _ | apply preserves_get_world; apply _ | intros w0].
  apply preserves_bind; [apply _ | | intros _].
  { apply preserves_for_each; [apply _ ..|]. intros f.
    apply preserves_try_except; [apply _ | | intros e; apply print_same_net].
    apply preserves_bind; [apply _ | | intros _; apply print_same_net].
    intros w. unfold unlink. by destruct (is_file w f && may_unlink E f). }
  apply preserves_bind; [apply _ | apply preserves_get_world; apply _ | intros w1].
  apply preserves_for_each; [apply _ ..|]. intros d.
  apply preserves_bind; [apply _ | apply preserves_get_world; apply _ | intros w2].
  apply preserves_if; [|apply preserves_ret; apply _].
  apply preserves_try_except; [apply _ | | intros e; apply print_same_net].
  apply preserves_bind; [apply _ | | intros _; apply print_same_net].
  intros w. unfold rmdir.
  by destruct (bool_decide (d ∈ dirs w) && negb (has_entry w d) && may_rmdir E d).
Qed.

(** X15: the program, as it is written, only reads from the server.
    Whatever the flags, the environment, the tree and the answers, and
    whether a run of [main] returns or is ended by an exception, every
    request it has sent is a GET: the reconciler sends nothing, the export
    fetches, the prune and the git steps stay local. *)
Theorem main_only_reads_from_the_server E F d t sp w :
  exists l, net (snd (main E F d t sp w)) = net w ++ l
            /\ Forall (fun r => is_GET r = true) l.
Proof.
  revert w. change (preserves reads_only (main E F d t sp)).
  unfold main. apply preserves_if.
  { apply preserves_bind; [apply _ | apply same_net_reads_only, print_same_net | intros _].
    apply preserves_raise; apply _. }
  cbv zeta.
  apply preserves_bind; [apply _ | | intros _].
  { apply same_net_reads_only, preserves_for_each; [apply _ ..|]. apply mkdir_same_net. }
  apply preserves_bind; [apply _ | | intros _].
  { apply same_net_reads_only, preserves_if; [apply git_pull_same_net | apply print_same_net]. }
  apply preserves_bind; [apply _ | | intros _].
  { apply same_net_reads_only. unfold write_modifications_to_api.
    apply preserves_bind; [apply _ | apply print_same_net | intros _].
    apply preserves_bind; [apply _ | apply preserves_get_world; apply _ | intros w0].
    apply preserves_for_each; [apply _ ..|]. intros; apply reconcile_one_same_net. }
  apply preserves_bind; [apply _ | | intros st].
  { unfold main_export.
    apply preserves_bind; [apply _ | apply same_net_reads_only, print_same_net | intros _].
    apply preserves_bind; [apply _ | apply fetch_data_reads_only | intros listed].
    do 2 (apply preserves_bind; [apply _ | apply preserves_lift; apply _ | intros ?]).
    apply preserves_bind; [apply _ | apply process_scripts_reads_only | intros st1].
    apply preserves_bind; [apply _ | apply same_net_reads_only, print_same_net | intros _].
    apply preserves_bind; [apply _ | apply fetch_data_reads_only | intros snippets_v].
    apply preserves_bind; [apply _ | apply process_scripts_reads_only | intros st2].
    apply preserves_ret; apply _. }
  apply preserves_bind; [apply _ | | intros _].
  { apply same_net_reads_only. unfold main_prune.
    apply preserves_for_each; [apply _ ..|]. intros; apply delete_obsolete_files_same_net. }
  apply preserves_bind; [apply _ | | intros _].
  { apply same_net_reads_only, preserves_if; [apply git_push_same_net | apply print_same_net]. }
  apply preserves_bind; [apply _ | apply same_net_reads_only, print_same_net | intros _].
  apply same_net_reads_only, print_same_net.
Qed.

(** The requests of a whole run on the tree of the examples, writeback
    disabled, and of the run that the writeback ends. *)
Example main_requests_example :
  net (snd (main (demo_env "DETAIL" "SNIPPETS") (Flags true true false true) (Some "https://rmm")
              (Some "key") (Some "repo") demo_edited_world))
  = [GET "https://rmm/scripts/?showHiddenScripts=true";
     GET "https://rmm/scripts/1/download/?with_snippets=false";
     GET "https://rmm/scripts/snippets/"]
  /\ net (snd (main (demo_env "DETAIL" "SNIPPETS") wet (Some "https://rmm")
                 (Some "key") (Some "repo") demo_edited_world)) = [].
Proof. split; vm_compute; reflexivity. Qed.
